(* ===== verification/_CoqProject ===== *)
-Q . S2P
Prelude.v
JsValue.v
Format.v
Views.v
Config.v
Api.v
Runtime.v
Tracker.v
Ui.v
History.v
App.v
Lifecycle.v
