(* ===== verification/Prelude.v ===== *)
(** * A verification library for the YouTube-Downloader browser client

    The repository is a browser front end for a download service.  Its
    JavaScript sources are
    - [src/frontend/js/config.js] and [src/unnamed/part_000]: two variants of
      the frozen [CONFIG] object (API base address, endpoint table, polling
      interval, URL length bound, download kinds and defaults);
    - [src/frontend2/js/api.js]: the [API] object (the request gateway:
      [get], [post] and one wrapper per endpoint) and the class
      [ProgressTracker] (a polling loop on [setInterval]);
    - [src/unnamed/part_001]: the [App] controller (its [state] object, the
      event listeners, [fetchVideoInfo], [startDownload], [trackProgress],
      [loadHistory], [loadStats], [manualCleanup], [checkServerHealth]);
    - [src/frontend2/js/ui.js]: the [UI] object (DOM section visibility,
      toasts, progress text, formatting and validation helpers).

    The components interact only through calls and callbacks on one thread:
    [App] handlers call [API] (which issues a network request and suspends on
    [await]), create [ProgressTracker] objects whose timer callback calls
    [API.getProgress] and whose three callbacks are closures over [App], and
    project every outcome onto the DOM through [UI].

    ** Files of the development (in dependency order)
    - [Prelude] (this file): the JavaScript completion monad [res] (a value or
      a thrown error, of which the code only ever reads [.message]), its
      notation scope [js_scope], the tactics and the hint database [js] shared
      by every file, and generic lemmas on finite maps with fresh keys.
    - [JsValue]: JSON values as parsed by [response.json()], the JavaScript
      values the code handles ([undefined] or a JSON value), property access
      (which throws on [null]), truthiness, [String(x)] / template literals,
      [JSON.stringify] of an object with [undefined] fields and [trim].
    - [Format]: [UI.formatDuration] (with [padStart]) and [UI.formatDate]
      (with the clock, [Date.parse] and [toLocaleDateString] as section
      variables), and a reader of durations for the round trip.
    - [Views]: [UI.formatViews] on whole counts, with the double-precision
      division and [toFixed(1)] computed exactly on integers.
    - [Config]: both [CONFIG] objects and the host-dependent base address.
    - [Api]: the request gateway of [api.js]: request construction, the
      normalisation of an HTTP exchange into a value or an error
      ([get]/[post]), and every endpoint wrapper.
    - [Runtime]: the browser event loop the code runs on: the interval timer
      table ([setInterval]/[clearInterval]), the one-shot timers
      ([setTimeout], used by the paste listener) and the table of requests
      in flight, each tagged with the [await] point it resumes.
    - [Tracker]: [ProgressTracker]: its object state, [start], [stop] and
      [checkProgress] split at its [await] into the request issue and the
      resumption that classifies the status report.
    - [Ui]: the part of [UI] the controller drives: section visibility, the
      video info (with its view count and duration), the error text, the
      success link, the progress text, the toast log and the active
      navigation tab ([switchTab]), with [isValidUrl] and [escapeHtml] (the
      serialisation of a text node).
    - [History]: [UI.showHistory], the HTML template of the history list
      reproduced byte for byte, and [UI.updateStats]; the abstraction of
      the history the controller keeps ([showHistory_items]).
    - [App]: the controller: [App.state], the tracker heap, every listener
      and every [await] continuation, composed into one world step
      [step : world -> event -> world] and its reachability relation.
    - [Lifecycle]: the abstract lifecycle of spec section 4.3 as a step
      relation, the projection of a world onto it, each transition of the
      code against it (fetch, info answer, dispatch answer, polls, retry,
      new download), and what of the spec's properties P1 to P4 the code
      satisfies.

    ** Modelling choices
    - Single thread, run to completion: a world changes only by one event:
      a user action, a timer firing, or the resolution of one request in
      flight.  Which event comes next is chosen by the environment, so every
      interleaving the browser can produce (arbitrary network latencies,
      timers firing while requests are outstanding) is a path of the model.
    - The two [await]s of [API.get]/[API.post] (on [fetch] and on
      [response.json()]) resolve as one event: nothing between them touches
      state the rest of the program reads.
    - JSON numbers are integers ([Z]); the formatting functions decide
      only safe integers ([|n| < 2^53]), where the double arithmetic of the
      code is exact on integers; strings are Rocq strings of 8-bit
      characters, so lengths agree with JavaScript's for ASCII text.
    - Error values are their [.message] string: the code reads nothing else
      of an error.  Engine messages (failed [fetch], malformed JSON) come
      from the environment with the event; property access on [null] throws
      V8's [TypeError] text.
    - The WHATWG URL parser behind [new URL(url)] is not in the repository: it
      is a hypothesis ([url_parses]) of the sections that need it.

    ** Theorems (see PROJECT.json for the numbered list)
    - Configuration: [config.js] is [part_000]'s configuration exactly on a
      local host name.
    - Gateway: the error normalisation of [get]/[post] on every branch,
      against the contract [gateway_laws]; the request bodies of
      [startDownload] (field presence by kind) and [cleanup] (default
      [keep]).
    - Tracker: [start] and [stop] idempotence and their effect on the timer
      table; the classification of a status report on each branch; every
      timer of a stopped tracker is gone; the callbacks a stopped tracker
      can still run are bounded by its polls in flight, and they do run:
      for every tracker state, a poll in flight at [stop] still runs the
      callback its answer selects ([outcome]), and with two overlapping
      polls both run theirs; spec scenarios A and B as concrete runs.
    - UI: [escapeHtml] round-trips (decoding its entities gives the text
      back) and its output holds no markup, yet it leaves double quotes as
      they are; so for every history list, an entry whose file name holds a
      quote ends the [download] attribute of its link.
    - Formatting: [formatDuration] round-trips on positive safe integers,
      its fields are within bounds, and its output on negative input;
      the label of [formatDate] for every range of elapsed time;
      [formatViews] rounds to the nearest tenth of a thousand or million,
      and labels the counts 999950 to 999999 "1000.0K".
    - Controller: the "at most one live timer, owned by the current
      tracker" invariant over every reachable world (induction on
      [reachable], one preservation lemma per handler); the success section
      is unhidden only by the settlement of a poll; [App.state.currentUrl]
      is always empty or a valid URL, and the tabs stay consistent (type
      invariants over [reachable]); the paste check reads
      the input when its timer fires; the guards and error
      paths of each handler; for every world, a completion links the file
      of the download [App.state] names when it arrives (a superseded
      tracker's included), and of two dispatches the one that settles last
      wins.
    - Lifecycle: the transitions of "Get Info", the info answer, "Retry"
      and "New download" are transitions of the machine of spec section
      4.3 (refinement through [project]); a settled poll on the progress
      screen is one too, except PROCESSING back to IN_PROGRESS; a dispatch
      answer shows IN_PROGRESS unless the progress text of an earlier
      download still reads "Processing file..."; IDLE to SUCCEEDED is a
      path of the code (after "New download") but not of the machine; from every
      reachable world with a tracking download, one tick and a completed
      answer end the polling loop on the success screen (liveness), while
      without a terminal answer the loop goes on for any number of ticks
      (termination: it has no bound of its own).

    ** Bounds and fuel
    Every recursive definition is structural (on lists, JSON values, strings
    or the event sequence), so no fuel is needed; the printers of numbers
    are stdpp's [pretty], whose own recursion is well founded, and the
    round trip goes by well-founded induction on [N].  Whole numbers are
    exact in JavaScript up to [2^53]; [formatDuration] and [formatDate]
    are faithful in that range (a floored quotient of a safe integer by a
    positive integer [b] is exact: the rounding error of [n / b] is at
    most [|n / b| * 2^-53 < 1 / b], less than the distance from a
    non-integer quotient to the next integer), and so is [formatViews], whose
    division of doubles is computed on integers.  Outside that range
    [formatDuration] and [formatViews] return [None] (not decided): a
    larger integer need not be a double, and the quotient of one that is
    may round across an integer.  Time is a sequence of events: a
    loop of the code ([setInterval]) is one [EFire] event per iteration,
    and the liveness theorem exhibits the two events that end it.
    Concrete runs are closed terms evaluated by [vm_compute].

    ** Not modelled
    DOM element lookup, scrolling and focus, CSS classes other than the
    visibility of the download sections and the active tab, the toast's
    hide timer (it only hides the toast), the global error handlers and
    console logging (they only log), and [formatFileSize]: it takes
    [Math.floor(Math.log(bytes) / Math.log(1024))], and [Math.log] is not
    required to be correctly rounded, so the unit chosen near a power of
    1024 depends on the engine; it is a section variable of the history
    rendering.  [formatDuration] and [formatViews] of a string go through
    [ToNumber] of a string and are left undecided ([None]), also as the
    texts [showVideoInfo] writes.  The
    markup of [index.html] is not in the repository: the initial page is
    taken from the specification ([ui_init]).  The back end is outside
    the repository.  Two string functions are modelled on ASCII only:
    [trim] strips the ASCII white space and line terminators (JavaScript
    also strips the Unicode spaces, so an input padded with them is
    trimmed less in the model), and [isValidUrl] bounds the length in
    bytes (JavaScript counts UTF-16 units, so the model is stricter on
    non-ASCII URLs).

    ** Extent
    Every function and listener of the five source files is modelled except
    the parts listed above, which either depend on the engine or the
    locale (floating-point logarithm, number parsing of strings, dates) or
    change nothing the code reads (logging, scrolling, focus).  The
    numbered properties are listed in PROJECT.json. *)

From stdpp Require Export base gmap strings list.
From Stdlib Require Export ZArith.

Declare Scope js_scope.
Delimit Scope js_scope with js.
Open Scope string_scope.

(** ** Completions of JavaScript code: a value or a thrown error.
    The error is represented by its [message]. *)
Inductive res (A : Type) : Type :=
| Ok (a : A)
| Throw (msg : string).
Arguments Ok {A} a.
Arguments Throw {A} msg.

#[export] Instance res_ret : MRet res := fun _ a => Ok a.
#[export] Instance res_bind : MBind res :=
  fun _ _ k c => match c with Ok a => k a | Throw m => Throw m end.

(** [try { c } catch (e) { h(e.message) }] *)
Definition res_catch {A} (c : res A) (h : string -> A) : A :=
  match c with Ok a => a | Throw m => h m end.

Notation "'throw' m" := (Throw m) (at level 10) : js_scope.

Create HintDb js discriminated.
Create Rewrite HintDb js_rw.

Lemma res_bind_ok {A B} (a : A) (k : A -> res B) : (Ok a ≫= k) = k a.
Proof. reflexivity. Qed.

Lemma res_bind_throw {A B} (m : string) (k : A -> res B) : (Throw m ≫= k) = Throw m.
Proof. reflexivity. Qed.

Lemma res_bind_inv {A B} (c : res A) (k : A -> res B) (b : B) :
  (c ≫= k) = Ok b -> exists a, c = Ok a /\ k a = Ok b.
Proof. destruct c; simpl; [eauto | discriminate]. Qed.

#[export] Hint Rewrite @res_bind_ok @res_bind_throw : js_rw.

(** ** Finite maps indexed by a counter of fresh keys.
    The browser hands out timer handles and the model hands out request and
    object identifiers from counters; every table only holds keys below its
    counter. *)
Definition keys_below {V} (m : gmap nat V) (n : nat) : Prop :=
  forall k v, m !! k = Some v -> k < n.

Lemma keys_below_fresh {V} (m : gmap nat V) n : keys_below m n -> m !! n = None.
Proof.
  intros H. destruct (m !! n) eqn:E; [|done]. apply H in E. lia.
Qed.

Lemma keys_below_insert {V} (m : gmap nat V) n v :
  keys_below m n -> keys_below (<[n:=v]> m) (S n).
Proof.
  intros H k w Hk. destruct (decide (k = n)) as [->|Hne]; [lia|].
  rewrite lookup_insert_ne in Hk by congruence. apply H in Hk. lia.
Qed.

Lemma keys_below_delete {V} (m : gmap nat V) n k :
  keys_below m n -> keys_below (delete k m) n.
Proof.
  intros H j w Hj. destruct (decide (j = k)) as [->|Hne].
  - by rewrite lookup_delete_eq in Hj.
  - rewrite lookup_delete_ne in Hj by congruence. eauto.
Qed.

Lemma keys_below_mono {V} (m : gmap nat V) n n' :
  keys_below m n -> n <= n' -> keys_below m n'.
Proof. intros H Hle k v Hk. apply H in Hk. lia. Qed.

Lemma keys_below_empty {V} n : keys_below (∅ : gmap nat V) n.
Proof. intros k v Hk. by rewrite lookup_empty in Hk. Qed.

Lemma keys_below_insert_lt {V} (m : gmap nat V) n k v :
  keys_below m n -> k < n -> keys_below (<[k:=v]> m) n.
Proof.
  intros H Hk j w Hj. destruct (decide (j = k)) as [->|Hne]; [done|].
  rewrite lookup_insert_ne in Hj by congruence. eauto.
Qed.

#[export] Hint Resolve keys_below_insert keys_below_delete keys_below_empty
  keys_below_insert_lt : js.

(** ** Strings built by concatenation (template literals). *)
Lemma string_app_assoc (a b c : string) : (a +:+ b) +:+ c = a +:+ (b +:+ c).
Proof. induction a as [|x a IH]; [reflexivity | exact (f_equal (String x) IH)]. Qed.

Lemma string_app_nil_r (a : string) : a +:+ "" = a.
Proof. induction a as [|x a IH]; [reflexivity | exact (f_equal (String x) IH)]. Qed.

Lemma string_length_app (a b : string) :
  String.length (a +:+ b) = String.length a + String.length b.
Proof. induction a as [|x a IH]; [reflexivity | exact (f_equal S IH)]. Qed.

#[export] Hint Rewrite string_app_assoc string_app_nil_r string_length_app : js_rw.

(** ** Tactics shared by the development *)
Ltac inv_clear H := inversion H; clear H; subst.

(** Case on every boolean test, [match] and [decide] left in the goal. *)
Ltac js_cases :=
  repeat (case_match || case_decide); simplify_eq/=.
