(* ===== verification/JsValue.v ===== *)
(** * JavaScript values as the client handles them

    Every value the code reads from the network is the result of
    [response.json()]: a JSON value ([jval]).  A JavaScript variable or a
    property read holds such a value or [undefined] ([jsval]).  This file
    gives the JavaScript semantics the sources rely on: property access
    ([o.p], which throws on [null] and [undefined]), truthiness (for [||],
    [if (x)] and [!x]), conversion to a string ([String(x)], template
    literals, [new Error(x).message]), [JSON.stringify] of an object literal
    whose fields may be [undefined], and [String.prototype.trim]. *)

From S2P Require Import Prelude.
From stdpp Require Import pretty.
#[local] Set Warnings "-register-all".

(** JSON values; numbers are integers (see the header of [Prelude]). *)
Inductive jval : Type :=
| JNull
| JBool (b : bool)
| JNum (n : Z)
| JStr (s : string)
| JArr (l : list jval)
| JObj (fields : list (string * jval)).

(** A JavaScript value the code can hold: [undefined] or a JSON value. *)
Inductive jsval : Type :=
| JUndef
| JV (v : jval).

(** ** Property access [o.p].
    [JSON.parse] keeps the last of duplicate keys, so the lookup returns the
    last binding.  Numbers, booleans, strings and arrays have none of the
    property names the code reads ([status], [error], [download_id], ...),
    so reading one of them gives [undefined]. *)
Fixpoint assoc_last (p : string) (fs : list (string * jval)) : jsval :=
  match fs with
  | [] => JUndef
  | (k, v) :: fs' =>
      match assoc_last p fs' with
      | JUndef => if String.eqb k p then JV v else JUndef
      | r => r
      end
  end.

Definition type_error_reading (what p : string) : string :=
  "Cannot read properties of " +:+ what +:+ " (reading '" +:+ p +:+ "')".

Definition get_prop (o : jsval) (p : string) : res jsval :=
  match o with
  | JUndef => Throw (type_error_reading "undefined" p)
  | JV JNull => Throw (type_error_reading "null" p)
  | JV (JObj fs) => Ok (assoc_last p fs)
  | JV _ => Ok JUndef
  end.

(** ** Truthiness ([ToBoolean]) *)
Definition truthy (v : jsval) : bool :=
  match v with
  | JUndef | JV JNull => false
  | JV (JBool b) => b
  | JV (JNum n) => negb (Z.eqb n 0)
  | JV (JStr s) => negb (String.eqb s "")
  | JV (JArr _) | JV (JObj _) => true
  end.

(** [a || b] on a value and a string default, as in [error.error || 'x']. *)
Definition or_default (v : jsval) (d : string) : jsval :=
  if truthy v then v else JV (JStr d).

(** ** Conversion to a string ([ToString]).
    An array is joined with commas, its [null] elements printing as the
    empty string; an object prints as ["[object Object]"]. *)
Fixpoint jval_to_string (v : jval) : string :=
  match v with
  | JNull => "null"
  | JBool true => "true"
  | JBool false => "false"
  | JNum n => pretty n
  | JStr s => s
  | JArr l =>
      let fix join (l : list jval) : string :=
        match l with
        | [] => ""
        | [x] => match x with JNull => "" | _ => jval_to_string x end
        | x :: l' =>
            (match x with JNull => "" | _ => jval_to_string x end) +:+ "," +:+ join l'
        end in
      join l
  | JObj _ => "[object Object]"
  end.

Definition to_string (v : jsval) : string :=
  match v with
  | JUndef => "undefined"
  | JV j => jval_to_string j
  end.

(** [new Error(x).message]: the empty string for [undefined]. *)
Definition error_message (v : jsval) : string :=
  match v with
  | JUndef => ""
  | JV j => jval_to_string j
  end.

(** [x === 'lit'] for a string literal. *)
Definition is_str (lit : string) (v : jsval) : bool :=
  match v with
  | JV (JStr s) => String.eqb s lit
  | _ => false
  end.

(** ** [JSON.stringify] of an object literal, as the server parses it back:
    fields whose value is [undefined] are omitted. *)
Definition json_of_object (fs : list (string * jsval)) : jval :=
  JObj (omap (fun '(k, v) => match v with JUndef => None | JV j => Some (k, j) end) fs).

(** ** [String.prototype.trim] on the ASCII white space and line
    terminators (tab, line feed, vertical tab, form feed, carriage return,
    space). *)
Definition is_js_space (c : Ascii.ascii) : bool :=
  match Ascii.nat_of_ascii c with
  | 9 | 10 | 11 | 12 | 13 | 32 => true
  | _ => false
  end.

Fixpoint drop_space (l : list Ascii.ascii) : list Ascii.ascii :=
  match l with
  | c :: l' => if is_js_space c then drop_space l' else l
  | [] => []
  end.

Definition trim (s : string) : string :=
  String.string_of_list_ascii
    (rev (drop_space (rev (drop_space (String.list_ascii_of_string s))))).

(** ** Lemmas *)

Lemma get_prop_obj fs p : get_prop (JV (JObj fs)) p = Ok (assoc_last p fs).
Proof. reflexivity. Qed.

Lemma assoc_last_cons_fresh k v fs p :
  k <> p -> assoc_last p ((k, v) :: fs) = assoc_last p fs.
Proof.
  intros Hne. simpl. destruct (assoc_last p fs); [|done].
  destruct (String.eqb_spec k p); congruence.
Qed.

Lemma assoc_last_single k v : assoc_last k [(k, v)] = JV v.
Proof. simpl. by rewrite String.eqb_refl. Qed.

Lemma truthy_or_default v d : truthy v = true -> or_default v d = v.
Proof. unfold or_default. by intros ->. Qed.

Lemma falsy_or_default v d : truthy v = false -> or_default v d = JV (JStr d).
Proof. unfold or_default. by intros ->. Qed.

Lemma is_str_spec lit v : is_str lit v = true <-> v = JV (JStr lit).
Proof.
  destruct v as [|[]]; simpl; split; try discriminate.
  - by intros ->%String.eqb_eq.
  - intros [= ->]. apply String.eqb_refl.
Qed.

Lemma drop_space_head l :
  match drop_space l with [] => True | c :: _ => is_js_space c = false end.
Proof.
  induction l as [|c l IH]; simpl; [done|].
  destruct (is_js_space c) eqn:E; [done|]. exact E.
Qed.

#[export] Hint Rewrite get_prop_obj assoc_last_single : js_rw.
