(* ===== verification/Format.v ===== *)
(** * The formatting helpers of [UI] ([src/frontend2/js/ui.js])

    [formatDuration] turns a number of seconds into [M:SS] or [H:MM:SS];
    [formatDate] turns a completion date into a relative label.  Both are
    pure functions of their argument, [formatDate] also of the clock.

    Numbers are integers (see [Prelude]): for a safe integer [n]
    ([|n| < 2^53]) the floating-point division [n / k] by a positive
    integer is rounded so that [Math.floor(n / k)] is the floor quotient
    [Z.div n k], and [n % k] is the truncated remainder [Z.rem n k]; the
    model states both with those functions, and [formatDuration] decides
    only safe integers.  [Number.prototype.toString]
    on an integer is [pretty] (JavaScript prints [-0] as ["0"], like [Z]).

    [new Date(...)] parses a string with the engine's date parser and
    [toLocaleDateString] depends on the locale; neither is in the
    repository, so both are section variables of [formatDate], and the
    clock [Date.now()] is a third.  [formatViews] is in [Views];
    [formatFileSize] is not modelled (see [Prelude]). *)

From S2P Require Import Prelude JsValue.
From stdpp Require Import pretty.
From Stdlib Require Import Ascii.

(** ** [String.prototype.padStart] with a one-character filler *)
Definition padStart (n : nat) (c : ascii) (s : string) : string :=
  if decide (n <= String.length s) then s
  else String.string_of_list_ascii (repeat c (n - String.length s)) +:+ s.

(** [x.toString().padStart(2, '0')] *)
Definition pad2 (x : Z) : string := padStart 2 "0"%char (pretty x).

(** ** [formatDuration(seconds)] on a number of seconds *)
Definition format_hms (seconds : Z) : string :=
  let hours := (seconds / 3600)%Z in
  let minutes := (Z.rem seconds 3600 / 60)%Z in
  let secs := Z.rem seconds 60 in
  if decide (0 < hours)%Z then pretty hours +:+ ":" +:+ pad2 minutes +:+ ":" +:+ pad2 secs
  else pretty minutes +:+ ":" +:+ pad2 secs.

(** [formatDuration(seconds)]: a falsy argument gives ["0:00"]; a number
    is formatted; [true] is the number 1.  The arithmetic on a string, an
    array or an object goes through [ToNumber] of a string, and a whole
    number outside the safe range ([|n| >= 2^53]) is divided with a
    rounding the integer model does not follow: the model does not decide
    either ([None]). *)
Definition formatDuration (seconds : jsval) : option string :=
  if negb (truthy seconds) then Some "0:00"
  else match seconds with
       | JV (JNum n) => if decide (Z.abs n < 2 ^ 53)%Z then Some (format_hms n) else None
       | JV (JBool _) => Some (format_hms 1)
       | _ => None
       end.

(** ** [formatDate(dateString)] *)
Section FormatDate.
(** [Date.now()] at the time of the call, in milliseconds. *)
Context (now : Z).
(** The engine's [Date.parse] on a string: [None] is an invalid date. *)
Context (date_parse : string -> option Z).
(** [toLocaleDateString()] of a valid time value. *)
Context (locale_date : Z -> string).

(** [new Date(v).getTime()] for one argument: a number is clipped to the
    range of time values, a boolean is a number, any other value is
    converted to a string and parsed. *)
Definition date_value (v : jsval) : option Z :=
  match v with
  | JUndef => None
  | JV (JNum n) => if decide (Z.abs n <= 8640000000000000)%Z then Some n else None
  | JV (JBool b) => Some (if b then 1 else 0)%Z
  | JV JNull => Some 0%Z
  | JV (JStr s) => date_parse s
  | JV j => date_parse (jval_to_string j)
  end.

(** The relative label; an invalid date prints as ["Invalid Date"], since
    every comparison with [NaN] is false. *)
Definition formatDate (dateString : jsval) : string :=
  if negb (truthy dateString) then ""
  else match date_value dateString with
       | None => "Invalid Date"
       | Some date =>
           let diffMs := (now - date)%Z in
           let diffMins := (diffMs / 60000)%Z in
           let diffHours := (diffMs / 3600000)%Z in
           let diffDays := (diffMs / 86400000)%Z in
           if decide (diffMins < 1)%Z then "Just now"
           else if decide (diffMins < 60)%Z then pretty diffMins +:+ "m ago"
           else if decide (diffHours < 24)%Z then pretty diffHours +:+ "h ago"
           else if decide (diffDays < 7)%Z then pretty diffDays +:+ "d ago"
           else locale_date date
       end.

End FormatDate.

(** ** Reading a duration back: colon-separated decimal fields.
    This is the inverse the round-trip theorem is stated against; it is
    not code of the repository. *)
Definition digit_value (c : ascii) : option Z :=
  let n := nat_of_ascii c in
  if (48 <=? n)%nat && (n <=? 57)%nat then Some (Z.of_nat n - 48)%Z else None.

Fixpoint fields_go (acc : Z) (s : string) : option (list Z) :=
  match s with
  | EmptyString => Some [acc]
  | String c s' =>
      if Nat.eqb (nat_of_ascii c) 58 then l ← fields_go 0 s'; Some (acc :: l)
      else d ← digit_value c; fields_go (10 * acc + d)%Z s'
  end.

Definition parse_duration (s : string) : option Z :=
  match fields_go 0 s with
  | Some [m; sc] => Some (60 * m + sc)%Z
  | Some [h; m; sc] => Some (3600 * h + 60 * m + sc)%Z
  | _ => None
  end.

(** ** Lemmas: reading printed numbers back *)

Lemma pretty_N_char_digit x :
  (x < 10)%N -> digit_value (pretty_N_char x) = Some (Z.of_N x) /\
                Nat.eqb (nat_of_ascii (pretty_N_char x)) 58 = false.
Proof.
  intros Hx.
  assert (x = 0 \/ x = 1 \/ x = 2 \/ x = 3 \/ x = 4 \/ x = 5 \/ x = 6 \/ x = 7 \/
          x = 8 \/ x = 9)%N as Hc by lia.
  by repeat destruct Hc as [->|Hc]; [..|subst].
Qed.

Lemma pretty_N_go_app x s : pretty_N_go x s = pretty_N_go x "" +:+ s.
Proof.
  revert s. induction (N.lt_wf_0 x) as [x _ IH]; intros s.
  destruct (decide (x = 0)%N) as [->|Hx]; [done|].
  rewrite !(pretty_N_go_step x) by lia.
  assert (x / 10 < x)%N as Hlt by (apply N.div_lt; lia).
  rewrite (IH _ Hlt (String _ s)), (IH _ Hlt (String _ "")).
  by rewrite string_app_assoc.
Qed.

(** Reading the digits [pretty_N_go] prepends accumulates their value. *)
Lemma fields_go_pretty_N x s : fields_go 0 (pretty_N_go x s) = fields_go (Z.of_N x) s.
Proof.
  revert s. induction (N.lt_wf_0 x) as [x _ IH]; intros s.
  destruct (decide (x = 0)%N) as [->|Hx]; [done|].
  rewrite pretty_N_go_step by lia.
  rewrite IH by (apply N.div_lt; lia).
  destruct (pretty_N_char_digit (x mod 10)%N) as [Hd Hc]; [apply N.mod_lt; lia|].
  cbn [fields_go]. rewrite Hc, Hd. cbn [mbind option_bind].
  f_equal. rewrite (N.div_mod x 10) at 3 by lia. lia.
Qed.

Lemma fields_go_pretty_Z z s :
  (0 <= z)%Z -> fields_go 0 (pretty z +:+ s) = fields_go z s.
Proof.
  intros Hz. destruct z as [|p|p]; [done| |lia].
  change (fields_go 0 (pretty_N_go (N.pos p) "" +:+ s) = fields_go (Z.pos p) s).
  rewrite <- pretty_N_go_app. apply fields_go_pretty_N.
Qed.

Lemma fields_go_zeros k s :
  fields_go 0 (String.string_of_list_ascii (repeat "0"%char k) +:+ s) = fields_go 0 s.
Proof. induction k as [|k IH]; [done|]. exact IH. Qed.

Lemma fields_go_pad2 z s :
  (0 <= z)%Z -> fields_go 0 (pad2 z +:+ s) = fields_go z s.
Proof.
  intros Hz. unfold pad2, padStart. case_decide.
  - by apply fields_go_pretty_Z.
  - rewrite string_app_assoc, fields_go_zeros. by apply fields_go_pretty_Z.
Qed.

(** A field followed by a colon. *)
Lemma fields_go_colon acc s :
  fields_go acc (":" +:+ s) = l ← fields_go 0 s; Some (acc :: l).
Proof. reflexivity. Qed.

(** Floor quotients and remainders by the constants of [formatDuration]. *)
Ltac hms_facts n :=
  pose proof (Z.div_mod n 3600 ltac:(lia)); pose proof (Z.mod_pos_bound n 3600 ltac:(lia));
  pose proof (Z.div_mod (n mod 3600) 60 ltac:(lia));
  pose proof (Z.mod_pos_bound (n mod 3600) 60 ltac:(lia));
  pose proof (Z.div_mod n 60 ltac:(lia)); pose proof (Z.mod_pos_bound n 60 ltac:(lia)).

(** Reading back the two templates of [formatDuration]. *)
Lemma fields_hms h m sc :
  (0 <= h)%Z -> (0 <= m)%Z -> (0 <= sc)%Z ->
  fields_go 0 (pretty h +:+ ":" +:+ pad2 m +:+ ":" +:+ pad2 sc) = Some [h; m; sc].
Proof.
  intros. rewrite fields_go_pretty_Z, fields_go_colon, fields_go_pad2, fields_go_colon by lia.
  by rewrite <- (string_app_nil_r (pad2 sc)), fields_go_pad2 by lia.
Qed.

Lemma fields_ms m sc :
  (0 <= m)%Z -> (0 <= sc)%Z -> fields_go 0 (pretty m +:+ ":" +:+ pad2 sc) = Some [m; sc].
Proof.
  intros. rewrite fields_go_pretty_Z, fields_go_colon by lia.
  by rewrite <- (string_app_nil_r (pad2 sc)), fields_go_pad2 by lia.
Qed.

(** Unfold [formatDuration] on a positive number and read the fields. *)
Ltac read_duration n :=
  unfold formatDuration; simpl; rewrite (proj2 (Z.eqb_neq n 0)) by lia;
  cbn [negb]; rewrite decide_True by lia; cbn [mbind option_bind]; try unfold parse_duration; unfold format_hms;
  rewrite ?Z.rem_mod_nonneg by lia; hms_facts n;
  case_decide; cbv beta iota; [rewrite fields_hms by (try apply Z.div_pos; lia)
               | rewrite fields_ms by (try apply Z.div_pos; lia)].

(** ** Theorems *)

(** C35 (round trip): for a positive whole number of seconds below
    [2^53] (a safe integer, where the double division of the code is
    exact), [formatDuration] prints a string from which the number is read back:
    hours (when there are any), minutes and seconds separated by colons. *)
Theorem formatDuration_roundtrip n :
  (0 < n < 2 ^ 53)%Z -> formatDuration (JV (JNum n)) ≫= parse_duration = Some n.
Proof.
  intros Hn. read_duration n; f_equal; lia.
Qed.

Lemma formatDuration_roundtrip_witness :
  formatDuration (JV (JNum 3725)) = Some "1:02:05" /\
  formatDuration (JV (JNum 3725)) ≫= parse_duration = Some 3725%Z.
Proof. split; [reflexivity | apply formatDuration_roundtrip; lia]. Defined.

(** C36 (bounds): the string [formatDuration] prints for a whole number of
    seconds [0 <= n < 2^53] has three fields exactly when [n] is an hour or more,
    and every field after the first (minutes, seconds) lies in [0, 59]. *)
Theorem formatDuration_fields n :
  (0 <= n < 2 ^ 53)%Z ->
  exists first rest, formatDuration (JV (JNum n)) ≫= fields_go 0%Z = Some (first :: rest) /\
    Forall (fun f => 0 <= f < 60)%Z rest /\ (length rest = 2 <-> (3600 <= n)%Z).
Proof.
  intros Hn. destruct (decide (n = 0%Z)) as [->|Hn0]; 
    [exists 0%Z, [0%Z]; split; [reflexivity|]; split; [repeat constructor; lia | simpl; lia]|].
  read_duration n; eexists _, _; (split; [reflexivity|]);
    (split; [repeat constructor; lia|]); simpl; split; intros; lia.
Qed.

Lemma formatDuration_fields_witness :
  formatDuration (JV (JNum 3725)) ≫= fields_go 0%Z = Some [1; 2; 5]%Z /\
  exists first rest, formatDuration (JV (JNum 3725)) ≫= fields_go 0 = Some (first :: rest) /\
    Forall (fun f => 0 <= f < 60)%Z rest /\ (length rest = 2 <-> (3600 <= 3725)%Z).
Proof. split; [reflexivity | apply formatDuration_fields; split; [lia | reflexivity]]. Defined.

(** C37 (bounds, negative input): a negative number of seconds above one
    hour prints the minutes rounded down ([Math.floor]) and the seconds as
    the truncated remainder ([%]): [-90] prints as ["-2:-30"]. *)
Theorem formatDuration_negative n :
  (-3600 < n < 0)%Z ->
  formatDuration (JV (JNum n)) = Some (pretty (n / 60)%Z +:+ ":" +:+ pad2 (Z.rem n 60)).
Proof.
  intros Hn. unfold formatDuration, format_hms. simpl.
  rewrite (proj2 (Z.eqb_neq n 0)) by lia. cbn [negb]. rewrite decide_True by lia.
  assert (n / 3600 = -1)%Z as Hq by (symmetry; apply Z.div_unique with (n + 3600)%Z; lia).
  rewrite decide_False by lia.
  assert (Z.rem n 3600 = n) as ->; [|done].
  rewrite <- (Z.opp_involutive n), Z.rem_opp_l, Z.rem_small; lia.
Qed.

Lemma formatDuration_negative_witness :
  formatDuration (JV (JNum (-90))) = Some "-2:-30" /\
  formatDuration (JV (JNum (-90))) =
    Some (pretty (-90 / 60)%Z +:+ ":" +:+ pad2 (Z.rem (-90) 60)).
Proof. split; [reflexivity | apply formatDuration_negative; lia]. Defined.

(** Floor quotients of a time difference by a minute, an hour and a day. *)
Ltac date_facts ms :=
  pose proof (Z.div_mod ms 60000 ltac:(lia)); pose proof (Z.mod_pos_bound ms 60000 ltac:(lia));
  pose proof (Z.div_mod ms 3600000 ltac:(lia)); pose proof (Z.mod_pos_bound ms 3600000 ltac:(lia));
  pose proof (Z.div_mod ms 86400000 ltac:(lia));
  pose proof (Z.mod_pos_bound ms 86400000 ltac:(lia)).

(** C38 (bounds): the label [formatDate] gives a valid date [d] at time
    [now] is decided by [ms = now - d]: below a minute (a date in the
    future included) it is "Just now"; below an hour "k m ago" with
    [1 <= k <= 59]; below a day "k h ago" with [1 <= k <= 23]; below a
    week "k d ago" with [1 <= k <= 6]; from a week on the locale date. *)
Theorem formatDate_buckets now date_parse locale_date v d :
  truthy v = true -> date_value date_parse v = Some d ->
  let ms := (now - d)%Z in
  let f := formatDate now date_parse locale_date v in
  ((ms < 60000)%Z -> f = "Just now") /\
  ((60000 <= ms < 3600000)%Z -> exists k, (1 <= k <= 59)%Z /\ f = pretty k +:+ "m ago") /\
  ((3600000 <= ms < 86400000)%Z -> exists k, (1 <= k <= 23)%Z /\ f = pretty k +:+ "h ago") /\
  ((86400000 <= ms < 604800000)%Z -> exists k, (1 <= k <= 6)%Z /\ f = pretty k +:+ "d ago") /\
  ((604800000 <= ms)%Z -> f = locale_date d).
Proof.
  intros Ht Hd ms f. subst f. unfold formatDate. rewrite Ht, Hd. cbn [negb].
  fold ms. date_facts ms.
  repeat split; intros; repeat case_decide; try lia; try done;
    eexists; (split; [|reflexivity]); lia.
Qed.

Lemma formatDate_buckets_witness :
  formatDate 7200000 (fun _ => Some 0%Z) (fun _ => "1/1/1970") (JV (JStr "1970-01-01"))
    = "2h ago" /\
  let ms := (7200000 - 0)%Z in
  let f := formatDate 7200000 (fun _ => Some 0%Z) (fun _ => "1/1/1970") (JV (JStr "1970-01-01")) in
  ((ms < 60000)%Z -> f = "Just now") /\
  ((60000 <= ms < 3600000)%Z -> exists k, (1 <= k <= 59)%Z /\ f = pretty k +:+ "m ago") /\
  ((3600000 <= ms < 86400000)%Z -> exists k, (1 <= k <= 23)%Z /\ f = pretty k +:+ "h ago") /\
  ((86400000 <= ms < 604800000)%Z -> exists k, (1 <= k <= 6)%Z /\ f = pretty k +:+ "d ago") /\
  ((604800000 <= ms)%Z -> f = "1/1/1970").
Proof.
  split; [reflexivity|].
  exact (formatDate_buckets 7200000 (fun _ => Some 0%Z) (fun _ => "1/1/1970")
           (JV (JStr "1970-01-01")) 0 eq_refl eq_refl).
Defined.
