(* ===== verification/Views.v ===== *)
(** * [UI.formatViews] ([src/frontend2/js/ui.js]) with exact double arithmetic

    [formatViews(count)] divides the count by 1000 or 1000000 in double
    precision and prints the quotient with [toFixed(1)].  For a whole
    count [0 < c < 2^53] both steps are exact functions of integers:
    - the quotient [c / b] is the double nearest to the rational [c/b]
      (ties to even), a 53-bit significand [m] scaled by [2^-k]
      ([fl_div]); the operands are exact doubles and the quotient is a
      normal number;
    - [x.toFixed(1)] takes the integer [n] nearest to [10 x], the larger
      one on a tie, and prints [n / 10] with one decimal ([to_fixed1]).
    A count outside the safe range is not decided ([None]).
    The theorems show that the label is the count rounded to a tenth of
    a thousand (or million) within half a unit, and that the thousands
    label reaches ["1000.0K"] below a million. *)

From S2P Require Import Prelude JsValue.
From stdpp Require Import pretty.

(** ** Double-precision division of whole numbers *)
Definition fl_div (a b : Z) : Z * Z :=
  let k0 := (52 + Z.log2 b - Z.log2 a)%Z in
  let k := if decide (a * 2 ^ k0 / b < 2 ^ 52)%Z then (k0 + 1)%Z else k0 in
  let q := (a * 2 ^ k / b)%Z in
  let r := (a * 2 ^ k mod b)%Z in
  let m := if decide (b < 2 * r)%Z then (q + 1)%Z
           else if decide (2 * r < b)%Z then q
           else if Z.even q then q else (q + 1)%Z in
  (m, k).

(** [x.toFixed(1)] for the non-negative double [x = m / 2^k]. *)
Definition fixed1_digits (m k : Z) : Z := ((20 * m + 2 ^ k) / 2 ^ (k + 1))%Z.

Definition to_fixed1 (m k : Z) : string :=
  let n := fixed1_digits m k in pretty (n / 10)%Z +:+ "." +:+ pretty (n mod 10)%Z.

(** [(count / b).toFixed(1)] *)
Definition div_fixed1 (count b : Z) : string :=
  let '(m, k) := fl_div count b in to_fixed1 m k.

(** [formatViews(count)]: a falsy count gives ["0 views"]; [true] is
    below both thresholds and prints as ["true views"]; a string, an array
    or an object is compared through [ToNumber] of a string, and a whole
    number outside the safe range ([|c| >= 2^53]) need not be a double:
    the model decides neither ([None]). *)
Definition formatViews (count : jsval) : option string :=
  if negb (truthy count) then Some "0 views"
  else match count with
       | JV (JNum c) =>
           if decide (Z.abs c < 2 ^ 53)%Z then
             Some (if decide (1000000 <= c)%Z then div_fixed1 c 1000000 +:+ "M views"
                   else if decide (1000 <= c)%Z then div_fixed1 c 1000 +:+ "K views"
                   else pretty c +:+ " views")
           else None
       | JV (JBool _) => Some "true views"
       | _ => None
       end.

(** ** Lemmas on the rounding steps *)

(** The significand is within half of [b] of the exact [a * 2^k]. *)
Lemma fl_div_spec a b :
  (0 < a)%Z -> (0 < b)%Z -> (Z.log2 a <= 52 + Z.log2 b)%Z ->
  let '(m, k) := fl_div a b in
  (52 + Z.log2 b - Z.log2 a <= k)%Z /\ (Z.abs (2 * m * b - 2 * a * 2 ^ k) <= b)%Z.
Proof.
  intros Ha Hb Hl. unfold fl_div.
  set (k0 := (52 + Z.log2 b - Z.log2 a)%Z).
  set (k := if decide (a * 2 ^ k0 / b < 2 ^ 52)%Z then (k0 + 1)%Z else k0).
  assert (k0 <= k)%Z as Hk by (subst k; case_decide; lia).
  split; [exact Hk|].
  pose proof (Z.div_mod (a * 2 ^ k) b ltac:(lia)).
  pose proof (Z.mod_pos_bound (a * 2 ^ k) b Hb).
  repeat case_decide; try destruct (Z.even _); lia.
Qed.

(** [fixed1_digits] is the nearest integer to [10 m / 2^k], ties up. *)
Lemma fixed1_digits_spec m k :
  (0 <= k)%Z ->
  (2 * fixed1_digits m k * 2 ^ k <= 20 * m + 2 ^ k < 2 * fixed1_digits m k * 2 ^ k + 2 * 2 ^ k)%Z.
Proof.
  intros Hk. unfold fixed1_digits. rewrite Z.pow_add_r, Z.pow_1_r by lia.
  assert (0 < 2 ^ k)%Z by (apply Z.pow_pos_nonneg; lia).
  pose proof (Z.div_mod (20 * m + 2 ^ k) (2 ^ k * 2) ltac:(lia)).
  pose proof (Z.mod_pos_bound (20 * m + 2 ^ k) (2 ^ k * 2) ltac:(lia)).
  lia.
Qed.

(** The printed tenths [n] of [(a / b).toFixed(1)] are [10 a / b] up to
    half a unit, and a little more when [2^k] is small against [b]. *)
Lemma div_fixed1_spec a b :
  (0 < a)%Z -> (0 < b)%Z -> (Z.log2 a <= 52 + Z.log2 b)%Z ->
  exists n k, div_fixed1 a b = pretty (n / 10)%Z +:+ "." +:+ pretty (n mod 10)%Z /\
    (52 + Z.log2 b - Z.log2 a <= k)%Z /\
    (2 * 2 ^ k * Z.abs (n * b - 10 * a) <= 2 ^ k * b + 10 * b)%Z.
Proof.
  intros Ha Hb Hl. pose proof (fl_div_spec a b Ha Hb Hl) as Hs. unfold div_fixed1.
  destruct (fl_div a b) as [m k]. destruct Hs as [Hk Hm].
  assert (0 <= k)%Z by (pose proof (Z.log2_nonneg b); lia).
  exists (fixed1_digits m k), k. split; [done|]. split; [done|].
  pose proof (fixed1_digits_spec m k ltac:(lia)) as Hn.
  assert (0 < 2 ^ k)%Z by (apply Z.pow_pos_nonneg; lia).
  set (n := fixed1_digits m k) in *. set (K := (2 ^ k)%Z) in *.
  (* multiply the rounding of [n] by [b] and the rounding of [m] by 10 *)
  assert (2 * n * K * b <= 20 * m * b + K * b < 2 * n * K * b + 2 * K * b)%Z as Hnb by nia.
  assert (Z.abs (20 * m * b - 20 * a * K) <= 10 * b)%Z as Hmb by lia.
  apply Z.abs_le in Hmb.
  assert (2 * K * (n * b - 10 * a) <= K * b + 10 * b)%Z by nia.
  assert (- (K * b + 10 * b) <= 2 * K * (n * b - 10 * a))%Z by nia.
  destruct (Z.abs_spec (n * b - 10 * a)) as [[? ->]|[? ->]]; nia.
Qed.

(** Unfold [formatViews] on a non-zero number. *)
Ltac unfold_views c :=
  unfold formatViews; simpl; rewrite (proj2 (Z.eqb_neq c 0)) by lia; cbn [negb];
  rewrite (decide_True (P := (Z.abs c < 2 ^ 53)%Z)) by lia.

(** [Z.log2] of a count below a power of two. *)
Lemma log2_below c p : (0 < c < 2 ^ p)%Z -> (0 <= p)%Z -> (Z.log2 c < p)%Z.
Proof. intros [Hc Hp] ?. by apply Z.log2_lt_pow2. Qed.

(** ** Theorems *)

(** C32: the label of a count of a thousand or more is the count in
    thousands (below a million) or millions, with one decimal, rounded to
    the nearest tenth: the printed tenths [n] are within half a tenth of
    the count. *)
Theorem formatViews_rounds c :
  (1000 <= c < 2 ^ 53)%Z ->
  exists n,
    ((c < 1000000)%Z ->
       formatViews (JV (JNum c)) =
         Some (pretty (n / 10)%Z +:+ "." +:+ pretty (n mod 10)%Z +:+ "K views") /\
       (Z.abs (100 * n - c) <= 50)%Z) /\
    ((1000000 <= c)%Z ->
       formatViews (JV (JNum c)) =
         Some (pretty (n / 10)%Z +:+ "." +:+ pretty (n mod 10)%Z +:+ "M views") /\
       (Z.abs (100000 * n - c) <= 50000)%Z).
Proof.
  intros Hc. unfold_views c.
  pose proof (log2_below c 53 ltac:(lia) ltac:(lia)).
  destruct (decide (1000000 <= c)%Z) as [HM|HK].
  - destruct (div_fixed1_spec c 1000000) as (n & k & Heq & Hk & Hb); [lia | lia | ..];
      change (Z.log2 1000000) with 19%Z in *; [lia|].
    assert (2 ^ 19 <= 2 ^ k)%Z by (apply Z.pow_le_mono_r; lia).
    assert (Z.abs (n * 1000000 - 10 * c) <= 500009)%Z by nia.
    exists n. split; [lia|]. intros _. rewrite Heq, !string_app_assoc. split; [done | lia].
  - destruct (div_fixed1_spec c 1000) as (n & k & Heq & Hk & Hb); [lia | lia | ..];
      change (Z.log2 1000) with 9%Z in *; [lia|].
    pose proof (log2_below c 20 ltac:(lia) ltac:(lia)).
    assert (2 ^ 42 <= 2 ^ k)%Z by (apply Z.pow_le_mono_r; lia).
    assert (Z.abs (n * 1000 - 10 * c) <= 500)%Z by nia.
    exists n. split; [|lia]. intros _. rewrite decide_True by lia.
    rewrite Heq, !string_app_assoc. split; [done | lia].
Qed.

Lemma formatViews_rounds_witness :
  formatViews (JV (JNum 1250)) = Some "1.3K views" /\
  exists n,
    ((1250 < 1000000)%Z ->
       formatViews (JV (JNum 1250)) =
         Some (pretty (n / 10)%Z +:+ "." +:+ pretty (n mod 10)%Z +:+ "K views") /\
       (Z.abs (100 * n - 1250) <= 50)%Z) /\
    ((1000000 <= 1250)%Z ->
       formatViews (JV (JNum 1250)) =
         Some (pretty (n / 10)%Z +:+ "." +:+ pretty (n mod 10)%Z +:+ "M views") /\
       (Z.abs (100000 * n - 1250) <= 50000)%Z).
Proof. split; [vm_compute; reflexivity | apply formatViews_rounds; lia]. Defined.

(** C16 (the thousands label overflows): a count from 999950 to 999999,
    below the million threshold, is printed as ["1000.0K views"]: the
    quotient rounds up to 1000.0 and the code tests the count, not the
    rounded label, against the threshold. *)
Theorem formatViews_thousands_overflow c :
  (999950 <= c < 1000000)%Z -> formatViews (JV (JNum c)) = Some "1000.0K views".
Proof.
  intros Hc.
  assert (Forall (fun c => formatViews (JV (JNum c)) = Some "1000.0K views") (seqZ 999950 50))
    as Hall by (apply (bool_decide_unpack _); vm_compute; exact I).
  rewrite Forall_forall in Hall. apply Hall, elem_of_seqZ. lia.
Qed.

Lemma formatViews_thousands_overflow_witness :
  formatViews (JV (JNum 999950)) = Some "1000.0K views".
Proof. apply formatViews_thousands_overflow. lia. Defined.
