(* ===== verification/Config.v ===== *)
(** * The frozen [CONFIG] objects

    Two variants exist: [src/frontend/js/config.js], whose base address
    depends on the page's host name, and [src/unnamed/part_000], which is
    fixed to the local server.  Both are frozen ([Object.freeze]), so the
    model is an immutable record; the other components take the
    configuration as a section variable and hold for either variant. *)

From S2P Require Import Prelude.

Record endpoints : Type := mkEndpoints {
  INFO : string; DOWNLOAD : string; PROGRESS : string; FILE : string;
  DOWNLOADS : string; CLEANUP : string; STATS : string; HEALTH : string }.

Record features : Type := mkFeatures {
  AUTO_REFRESH_STATS : bool; SHOW_THUMBNAILS : bool; ENABLE_HISTORY : bool }.

Record config : Type := mkConfig {
  API_BASE_URL : string;
  ENDPOINTS : endpoints;
  PROGRESS_POLL_INTERVAL : Z;
  TOAST_DURATION : Z;
  MAX_URL_LENGTH : nat;
  DOWNLOAD_TYPES_VIDEO : string;
  DOWNLOAD_TYPES_AUDIO : string;
  DEFAULT_VIDEO_QUALITY : string;
  DEFAULT_AUDIO_FORMAT : string;
  VIDEO_QUALITIES : list (string * string);  (* (value, label) *)
  FEATURES : features }.

Definition ENDPOINTS_default : endpoints :=
  mkEndpoints "/api/info" "/api/download" "/api/progress" "/api/file"
              "/api/downloads" "/api/cleanup" "/api/stats" "/health".

Definition VIDEO_QUALITIES_default : list (string * string) :=
  [("best", "Best Quality"); ("1080", "1080p (Full HD)"); ("720", "720p (HD)");
   ("480", "480p (SD)"); ("360", "360p")].

(** [window.location.hostname === 'localhost' || ... === '127.0.0.1'] *)
Definition isLocal (hostname : string) : bool :=
  String.eqb hostname "localhost" || String.eqb hostname "127.0.0.1".

(** The configuration of [src/frontend/js/config.js] for a page served
    from [hostname]. *)
Definition CONFIG_frontend (hostname : string) : config :=
  mkConfig
    (if isLocal hostname then "http://localhost:5000"
     else "https://youtube-downloader-api-r0za.onrender.com")
    ENDPOINTS_default 1000 3000 2048 "video" "audio" "best" "mp3"
    VIDEO_QUALITIES_default (mkFeatures true true true).

(** The configuration of [src/unnamed/part_000]. *)
Definition CONFIG_local : config :=
  mkConfig "http://localhost:5000" ENDPOINTS_default 1000 3000 2048 "video" "audio"
    "best" "mp3" VIDEO_QUALITIES_default (mkFeatures true true true).


(** C31: the two configuration files agree on everything except the base
    address: [config.js] is [part_000]'s configuration exactly when the page
    is served from [localhost] or [127.0.0.1]. *)
Theorem CONFIG_frontend_local (hostname : string) :
  CONFIG_frontend hostname = CONFIG_local <-> isLocal hostname = true.
Proof.
  unfold CONFIG_frontend, CONFIG_local.
  destruct (isLocal hostname); split; try done.
Qed.
