(* ===== verification/Api.v ===== *)
(** * The request gateway: the [API] object of [src/frontend2/js/api.js]

    Every method of [API] builds one HTTP request, awaits [fetch] and then
    [response.json()], and either returns the parsed body or throws.  The
    model splits each method at its [await]: the request it issues
    ([request]) and the decoding of the exchange the network answers with
    ([read_response]), which is the same for [get] and [post].  The
    [catch] blocks of [get]/[post] log and rethrow the same error, so they do
    not change the completion. *)

From S2P Require Import Prelude JsValue Config.

Inductive http_method : Type := GET | POST.

Record request : Type := mkRequest {
  req_method : http_method;
  req_url : string;
  req_body : option jval  (* the JSON the server parses from the body *) }.

(** What the network answers to one request: [fetch] rejects (its engine
    message), or a response with its [ok] flag and a body that
    [response.json()] parses or rejects (its engine message). *)
Inductive body : Type :=
| BodyJson (v : jval)
| BodyMalformed (msg : string).

Inductive exchange : Type :=
| NetworkFailure (msg : string)
| Response (ok : bool) (b : body).

(** The methods of the [API] object. *)
Module API.
Section Api.
Context (cfg : config).

(** [fetch(`${CONFIG.API_BASE_URL}${endpoint}`)] *)
Definition get (endpoint : string) : request :=
  mkRequest GET (API_BASE_URL cfg +:+ endpoint) None.

(** [fetch(url, {method: 'POST', ..., body: JSON.stringify(data)})] *)
Definition post (endpoint : string) (data : list (string * jsval)) : request :=
  mkRequest POST (API_BASE_URL cfg +:+ endpoint) (Some (json_of_object data)).

(** [await response.json()] *)
Definition parse_body (b : body) : res jval :=
  match b with
  | BodyJson v => Ok v
  | BodyMalformed m => Throw m
  end.

(** The code of [get]/[post] after [fetch]:
    [if (!response.ok) { const error = await response.json();
       throw new Error(error.error || 'Request failed'); }
     return await response.json();] *)
Definition read_response (x : exchange) : res jval :=
  match x with
  | NetworkFailure m => Throw m
  | Response ok b =>
      if ok then parse_body b
      else
        error ← parse_body b;
        e ← get_prop (JV error) "error";
        Throw (error_message (or_default e "Request failed"))
  end.

(** The endpoint wrappers. *)
Definition getVideoInfo (url : string) : request :=
  post (INFO (ENDPOINTS cfg)) [("url", JV (JStr url))].

Definition startDownload (url type quality : string) : request :=
  post (DOWNLOAD (ENDPOINTS cfg))
    [("url", JV (JStr url));
     ("type", JV (JStr type));
     ("quality", if String.eqb type (DOWNLOAD_TYPES_VIDEO cfg) then JV (JStr quality) else JUndef);
     ("audio_format",
       if String.eqb type (DOWNLOAD_TYPES_AUDIO cfg) then JV (JStr (DEFAULT_AUDIO_FORMAT cfg))
       else JUndef)].

(** [`${CONFIG.ENDPOINTS.PROGRESS}/${downloadId}`]: the id goes through
    [ToString], so [undefined] becomes ["undefined"]. *)
Definition getProgress (downloadId : jsval) : request :=
  get (PROGRESS (ENDPOINTS cfg) +:+ "/" +:+ to_string downloadId).

Definition getFileUrl (downloadId : jsval) : string :=
  API_BASE_URL cfg +:+ FILE (ENDPOINTS cfg) +:+ "/" +:+ to_string downloadId.

Definition getDownloads : request := get (DOWNLOADS (ENDPOINTS cfg)).

(** [cleanup(keepCount = 5)]: the default applies to an [undefined]
    argument. *)
Definition cleanup (keepCount : jsval) : request :=
  post (CLEANUP (ENDPOINTS cfg))
    [("keep", match keepCount with JUndef => JV (JNum 5) | v => v end)].

Definition getStats : request := get (STATS (ENDPOINTS cfg)).

Definition healthCheck : request := get (HEALTH (ENDPOINTS cfg)).

End Api.
End API.
Export API.

(** ** The contract the callers of the gateway rely on (spec section 4.1):
    a value only from a successful response, the transport message kept on
    a transport failure, and a failed response always an error. *)
Record gateway_laws (decode : exchange -> res jval) : Prop := {
  gw_value_only_from_ok : forall x v, decode x = Ok v -> x = Response true (BodyJson v);
  gw_transport_message : forall m, decode (NetworkFailure m) = Throw m;
  gw_not_ok_throws : forall b, exists m, decode (Response false b) = Throw m
}.

(** ** Theorems on the gateway *)

Lemma read_response_ok_inv x v :
  read_response x = Ok v -> x = Response true (BodyJson v).
Proof.
  destruct x as [m|[] [w|m]]; simpl; try discriminate.
  - by intros [= ->].
  - intros H. destruct w; simpl in H; discriminate.
Qed.

Lemma read_response_not_ok b : exists m, read_response (Response false b) = Throw m.
Proof.
  destruct b as [w|m]; simpl; [|eauto].
  destruct w; simpl; eauto.
Qed.

(** C11: the decoding of [API.get]/[API.post] meets the gateway contract of
    spec section 4.1: a value only from a successful response with a JSON
    body, a transport failure surfaces with its own message, and a failed
    response always throws. *)
Theorem read_response_gateway : gateway_laws read_response.
Proof.
  split; [exact read_response_ok_inv | done | exact read_response_not_ok].
Qed.

(** C12: a failed response whose body is a JSON object throws the text of
    its [error] field when that field is truthy, and ["Request failed"]
    otherwise (missing, [null], [false], [0] or the empty string). *)
Theorem read_response_error_field fs :
  read_response (Response false (BodyJson (JObj fs))) =
  Throw (if truthy (assoc_last "error" fs) then to_string (assoc_last "error" fs)
         else "Request failed").
Proof.
  simpl. unfold or_default.
  destruct (truthy (assoc_last "error" fs)) eqn:T; [|done].
  by destruct (assoc_last "error" fs).
Qed.

(** A failed response whose body is the JSON [null] throws the
    engine's [TypeError] from reading [error] of [null]: neither a message
    of the server nor ["Request failed"]. *)
Theorem read_response_null_body :
  read_response (Response false (BodyJson JNull)) =
  Throw "Cannot read properties of null (reading 'error')".
Proof. reflexivity. Qed.

Section StartDownload.
Context (cfg : config).
Hypothesis kinds_distinct : DOWNLOAD_TYPES_VIDEO cfg <> DOWNLOAD_TYPES_AUDIO cfg.

Lemma kinds_eqb_audio_video :
  String.eqb (DOWNLOAD_TYPES_AUDIO cfg) (DOWNLOAD_TYPES_VIDEO cfg) = false.
Proof. apply String.eqb_neq. congruence. Qed.

Lemma kinds_eqb_video_audio :
  String.eqb (DOWNLOAD_TYPES_VIDEO cfg) (DOWNLOAD_TYPES_AUDIO cfg) = false.
Proof. by apply String.eqb_neq. Qed.

(** An audio download posts the url, the type and
    the default audio format, and no [quality] field. *)
Lemma startDownload_audio_body url q :
  startDownload cfg url (DOWNLOAD_TYPES_AUDIO cfg) q =
  mkRequest POST (API_BASE_URL cfg +:+ DOWNLOAD (ENDPOINTS cfg))
    (Some (JObj [("url", JStr url); ("type", JStr (DOWNLOAD_TYPES_AUDIO cfg));
                 ("audio_format", JStr (DEFAULT_AUDIO_FORMAT cfg))])).
Proof.
  unfold startDownload, post, json_of_object.
  by rewrite kinds_eqb_audio_video, String.eqb_refl.
Qed.

(** A video download posts the url, the type and
    the chosen quality, and no [audio_format] field. *)
Lemma startDownload_video_body url q :
  startDownload cfg url (DOWNLOAD_TYPES_VIDEO cfg) q =
  mkRequest POST (API_BASE_URL cfg +:+ DOWNLOAD (ENDPOINTS cfg))
    (Some (JObj [("url", JStr url); ("type", JStr (DOWNLOAD_TYPES_VIDEO cfg));
                 ("quality", JStr q)])).
Proof.
  unfold startDownload, post, json_of_object.
  by rewrite kinds_eqb_video_audio, String.eqb_refl.
Qed.

(** C15 (spec scenario D): a download posts the url and the type, with
    the chosen quality for a video and the default audio format for an
    audio download, and not the field of the other kind. *)
Theorem startDownload_body url q :
  startDownload cfg url (DOWNLOAD_TYPES_AUDIO cfg) q =
    mkRequest POST (API_BASE_URL cfg +:+ DOWNLOAD (ENDPOINTS cfg))
      (Some (JObj [("url", JStr url); ("type", JStr (DOWNLOAD_TYPES_AUDIO cfg));
                   ("audio_format", JStr (DEFAULT_AUDIO_FORMAT cfg))])) /\
  startDownload cfg url (DOWNLOAD_TYPES_VIDEO cfg) q =
    mkRequest POST (API_BASE_URL cfg +:+ DOWNLOAD (ENDPOINTS cfg))
      (Some (JObj [("url", JStr url); ("type", JStr (DOWNLOAD_TYPES_VIDEO cfg));
                   ("quality", JStr q)])).
Proof. split; [apply startDownload_audio_body | apply startDownload_video_body]. Qed.

End StartDownload.

Lemma CONFIG_local_kinds : DOWNLOAD_TYPES_VIDEO CONFIG_local <> DOWNLOAD_TYPES_AUDIO CONFIG_local.
Proof. discriminate. Qed.

Lemma startDownload_body_witness :
  DOWNLOAD_TYPES_VIDEO CONFIG_local <> DOWNLOAD_TYPES_AUDIO CONFIG_local /\
  req_body (startDownload CONFIG_local "https://youtu.be/x" "audio" "720") =
    Some (JObj [("url", JStr "https://youtu.be/x"); ("type", JStr "audio");
                ("audio_format", JStr "mp3")]) /\
  req_body (startDownload CONFIG_local "https://youtu.be/x" "video" "720") =
    Some (JObj [("url", JStr "https://youtu.be/x"); ("type", JStr "video");
                ("quality", JStr "720")]).
Proof.
  split; [exact CONFIG_local_kinds|].
  destruct (startDownload_body CONFIG_local CONFIG_local_kinds "https://youtu.be/x" "720")
    as [Ha Hv].
  change "audio" with (DOWNLOAD_TYPES_AUDIO CONFIG_local).
  change "video" with (DOWNLOAD_TYPES_VIDEO CONFIG_local).
  rewrite Ha, Hv. split; reflexivity.
Defined.

(** The progress endpoint is built from [ToString] of the download
    id, so an id the server did not send ([undefined]) polls the path
    [/api/progress/undefined]. *)
Theorem getProgress_undefined_id cfg :
  req_url (getProgress cfg JUndef) =
  API_BASE_URL cfg +:+ PROGRESS (ENDPOINTS cfg) +:+ "/undefined".
Proof. reflexivity. Qed.

(** [API.cleanup()] without an argument, as [App.manualCleanup] calls
    it, posts [{keep: 5}]; an explicit count, even [null], is posted as
    given. *)
Theorem cleanup_default_keep cfg (v : jval) :
  req_body (cleanup cfg JUndef) = Some (JObj [("keep", JNum 5)]) /\
  req_body (cleanup cfg (JV v)) = Some (JObj [("keep", v)]).
Proof. split; reflexivity. Qed.
