(* ===== verification/Runtime.v ===== *)
(** * The browser runtime the code runs on

    Two tables of the JavaScript host that the code's behaviour depends on:
    - the interval timers created by [setInterval] and removed by
      [clearInterval], each running the callback of one [ProgressTracker]
      object ([() => this.checkProgress()]);
    - the requests in flight: each [fetch] issued by an [API] method, with
      the [await] point of the code that resumes when it settles.
    - the one-shot timers created by [setTimeout] (the paste listener's
      delayed check), which leave the table when they fire.
    Handles and request numbers come from counters; interval and one-shot
    timers share the handle counter, as they share the browser's pool.  Browsers hand out
    positive timer handles, so the counter starts at 1 and the test
    [if (this.interval)] of [stop] is true for every handle. *)

From S2P Require Import Prelude JsValue Api.

(** The [await] points that resume when a request settles: one per
    asynchronous method of [App] and the poll of a tracker object. *)
Inductive cont : Type :=
| KFetchInfo                (* App.fetchVideoInfo, after API.getVideoInfo *)
| KStartDownload            (* App.startDownload, after API.startDownload *)
| KPoll (tracker : nat)     (* ProgressTracker.checkProgress, after API.getProgress *)
| KHistory                  (* App.loadHistory *)
| KStats                    (* App.loadStats *)
| KCleanup                  (* App.manualCleanup *)
| KHealth.                  (* App.checkServerHealth *)

#[export] Instance cont_eq_dec : EqDecision cont.
Proof. solve_decision. Defined.

Record runtime : Type := mkRuntime {
  rt_timers : gmap nat nat;                  (* interval handle -> tracker object *)
  rt_next_timer : nat;
  rt_pending : gmap nat (request * cont);    (* request number -> request, resumption *)
  rt_next_req : nat;
  rt_timeouts : gmap nat unit }.             (* pending one-shot handles *)

Definition rt_init : runtime := mkRuntime ∅ 1 ∅ 0 ∅.

(** [setInterval(() => this.checkProgress(), ...)] for tracker [tid]:
    the new handle and the runtime. *)
Definition setInterval (rt : runtime) (tid : nat) : nat * runtime :=
  (rt_next_timer rt,
   mkRuntime (<[rt_next_timer rt := tid]> (rt_timers rt)) (S (rt_next_timer rt))
             (rt_pending rt) (rt_next_req rt) (rt_timeouts rt)).

(** [clearInterval(h)] *)
Definition clearInterval (rt : runtime) (h : nat) : runtime :=
  mkRuntime (delete h (rt_timers rt)) (rt_next_timer rt) (rt_pending rt) (rt_next_req rt)
            (rt_timeouts rt).

(** [fetch(...)] issued, resuming at [k] when it settles. *)
Definition issue (rt : runtime) (rq : request) (k : cont) : runtime :=
  mkRuntime (rt_timers rt) (rt_next_timer rt)
            (<[rt_next_req rt := (rq, k)]> (rt_pending rt)) (S (rt_next_req rt))
            (rt_timeouts rt).

(** Request [n] settles: it leaves the table. *)
Definition settle (rt : runtime) (n : nat) : runtime :=
  mkRuntime (rt_timers rt) (rt_next_timer rt) (delete n (rt_pending rt)) (rt_next_req rt)
            (rt_timeouts rt).

(** [setTimeout(cb, ...)]: the new handle and the runtime. *)
Definition setTimeout (rt : runtime) : nat * runtime :=
  (rt_next_timer rt,
   mkRuntime (rt_timers rt) (S (rt_next_timer rt)) (rt_pending rt) (rt_next_req rt)
             (<[rt_next_timer rt := tt]> (rt_timeouts rt))).

(** The one-shot timer [h] fires: it leaves the table. *)
Definition timeout_fired (rt : runtime) (h : nat) : runtime :=
  mkRuntime (rt_timers rt) (rt_next_timer rt) (rt_pending rt) (rt_next_req rt)
            (delete h (rt_timeouts rt)).

(** Well-formedness: every handle and request number is below its
    counter, and handles are positive. *)
Record rt_wf (rt : runtime) : Prop := {
  rt_wf_timers : keys_below (rt_timers rt) (rt_next_timer rt);
  rt_wf_pending : keys_below (rt_pending rt) (rt_next_req rt);
  rt_wf_timeouts : keys_below (rt_timeouts rt) (rt_next_timer rt);
  rt_wf_pos : 0 < rt_next_timer rt }.

(** The timers that run tracker [tid]. *)
Definition timers_of (rt : runtime) (tid : nat) : list nat :=
  fst <$> (filter (fun '(_, t) => t = tid) (map_to_list (rt_timers rt))).

(** The number of polls in flight of tracker [tid]. *)
Definition npolls (rt : runtime) (tid : nat) : nat :=
  size (filter (fun kv : nat * (request * cont) => kv.2.2 = KPoll tid) (rt_pending rt)).

(** ** Lemmas *)

Lemma rt_wf_init : rt_wf rt_init.
Proof. split; simpl; auto with js lia. Qed.

Lemma rt_wf_setInterval rt tid : rt_wf rt -> rt_wf (setInterval rt tid).2.
Proof. intros []. split; simpl; eauto using keys_below_mono with js lia. Qed.

Lemma rt_wf_setTimeout rt : rt_wf rt -> rt_wf (setTimeout rt).2.
Proof. intros []. split; simpl; eauto using keys_below_mono with js lia. Qed.

Lemma rt_wf_timeout_fired rt h : rt_wf rt -> rt_wf (timeout_fired rt h).
Proof. intros []. split; simpl; auto with js. Qed.

Lemma rt_wf_clearInterval rt h : rt_wf rt -> rt_wf (clearInterval rt h).
Proof. intros []. split; simpl; auto with js. Qed.

Lemma rt_wf_issue rt rq k : rt_wf rt -> rt_wf (issue rt rq k).
Proof. intros []. split; simpl; auto with js. Qed.

Lemma rt_wf_settle rt n : rt_wf rt -> rt_wf (settle rt n).
Proof. intros []. split; simpl; auto with js. Qed.

#[export] Hint Resolve rt_wf_init rt_wf_setInterval rt_wf_clearInterval rt_wf_issue
  rt_wf_settle rt_wf_setTimeout rt_wf_timeout_fired : js.

Lemma setInterval_fresh rt tid :
  rt_wf rt -> rt_timers rt !! (setInterval rt tid).1 = None.
Proof. intros []. by apply keys_below_fresh. Qed.

Lemma setInterval_pos rt tid : rt_wf rt -> 0 < (setInterval rt tid).1.
Proof. by intros []. Qed.

Lemma elem_of_timers_of rt tid h : h ∈ timers_of rt tid <-> rt_timers rt !! h = Some tid.
Proof.
  unfold timers_of. rewrite list_elem_of_fmap. split.
  - intros [[h' t] [Heq Hf]]. apply list_elem_of_filter in Hf as [HP Hin].
    simpl in *. subst. by apply elem_of_map_to_list.
  - intros H. exists (h, tid). split; [done|].
    apply list_elem_of_filter. split; [done|]. by apply elem_of_map_to_list.
Qed.

Lemma npolls_settle rt tid n rq :
  rt_pending rt !! n = Some (rq, KPoll tid) ->
  npolls rt tid = S (npolls (settle rt n) tid).
Proof.
  intros H. unfold npolls, settle. simpl. rewrite map_filter_delete.
  rewrite map_size_delete_Some.
  - assert (filter (fun kv : nat * (request * cont) => kv.2.2 = KPoll tid)
              (rt_pending rt) !! n = Some (rq, KPoll tid)) as Hl
      by (apply map_lookup_filter_Some; by split).
    destruct (size _) eqn:E; [|lia].
    apply map_size_empty_iff in E. by rewrite E, lookup_empty in Hl.
  - exists (rq, KPoll tid). by apply map_lookup_filter_Some.
Qed.

Lemma npolls_settle_other rt tid n rq k :
  rt_pending rt !! n = Some (rq, k) -> k <> KPoll tid ->
  npolls (settle rt n) tid = npolls rt tid.
Proof.
  intros H Hk. unfold npolls, settle. simpl. rewrite map_filter_delete.
  apply map_size_delete_None. apply map_lookup_filter_None. right.
  intros x Hx. rewrite H in Hx. by injection Hx as <-.
Qed.

Lemma npolls_same_pending rt rt' tid :
  rt_pending rt' = rt_pending rt -> npolls rt' tid = npolls rt tid.
Proof. unfold npolls. by intros ->. Qed.

Lemma timers_of_NoDup rt tid : NoDup (timers_of rt tid).
Proof.
  unfold timers_of. apply NoDup_fmap_fst.
  - intros h t1 t2 [_ H1]%list_elem_of_filter [_ H2]%list_elem_of_filter.
    apply elem_of_map_to_list in H1, H2. congruence.
  - apply NoDup_filter, NoDup_map_to_list.
Qed.

(** The timers of a tracker are exactly [h] when [h] is the only handle
    that runs it. *)
Lemma timers_of_single rt tid h :
  (forall h', rt_timers rt !! h' = Some tid <-> h' = h) -> timers_of rt tid = [h].
Proof.
  intros Hh. pose proof (timers_of_NoDup rt tid) as Hnd.
  assert (forall h', h' ∈ timers_of rt tid <-> h' = h) as Hel.
  { intros h'. by rewrite elem_of_timers_of. }
  destruct (timers_of rt tid) as [|h1 [|h2 l]].
  - exfalso. by apply (not_elem_of_nil h), Hel.
  - f_equal. apply Hel. by left.
  - exfalso. apply NoDup_cons in Hnd as [Hnin _]. apply Hnin.
    assert (h1 = h) as -> by (apply Hel; by left).
    assert (h2 = h) as <- by (apply Hel; right; by left).
    by left.
Qed.

Lemma timers_of_nil rt tid :
  (forall h, rt_timers rt !! h <> Some tid) -> timers_of rt tid = [].
Proof.
  intros H. destruct (timers_of rt tid) as [|h l] eqn:E; [done|].
  exfalso. apply (H h), elem_of_timers_of. rewrite E. by left.
Qed.
