(* ===== verification/Tracker.v ===== *)
(** * [ProgressTracker] ([src/frontend2/js/api.js], class at lines 117-164)

    A tracker object holds the download id it polls, the handle of its
    interval timer ([this.interval], [null] when none) and the flag
    [this.isTracking].  Its callbacks are closures of the caller; the model
    returns the callback to run as a [signal], which the caller ([App])
    interprets, in the order the code runs it: [stop()] first, then the
    callback.

    [checkProgress] is an [async] method with one [await]: it is split into
    [checkProgress_issue] (the synchronous part, which issues the request)
    and [checkProgress_resume] (what runs when the request settles). *)

From S2P Require Import Prelude JsValue Config Api Runtime.

Record tracker : Type := mkTracker {
  downloadId : jsval;
  interval : option nat;
  isTracking : bool }.

(** [new ProgressTracker(downloadId, onUpdate, onComplete, onError)] *)
Definition new_tracker (downloadId : jsval) : tracker := mkTracker downloadId None false.

(** The callback a settled poll runs. *)
Inductive signal : Type :=
| SigUpdate (progress : jval)    (* this.onUpdate(progress) *)
| SigComplete (progress : jval)  (* this.onComplete(progress) *)
| SigError (error : jsval).      (* this.onError(error) *)

Definition terminal (s : signal) : bool :=
  match s with SigUpdate _ => false | _ => true end.

Section Tracker.
Context (cfg : config).

(** The synchronous part of [checkProgress] for tracker object [tid]:
    [API.getProgress(this.downloadId)] issues its request. *)
Definition checkProgress_issue (tid : nat) (tr : tracker) (rt : runtime) : runtime :=
  issue rt (getProgress cfg (downloadId tr)) (KPoll tid).

(** [start()] *)
Definition start (tid : nat) (tr : tracker) (rt : runtime) : tracker * runtime :=
  if isTracking tr then (tr, rt)
  else
    let tr1 := mkTracker (downloadId tr) (interval tr) true in
    let rt1 := checkProgress_issue tid tr1 rt in
    let '(h, rt2) := setInterval rt1 tid in
    (mkTracker (downloadId tr1) (Some h) true, rt2).

(** [stop()] *)
Definition stop (tr : tracker) (rt : runtime) : tracker * runtime :=
  let rt' := match interval tr with Some h => clearInterval rt h | None => rt end in
  (mkTracker (downloadId tr) None false, rt').

(** The classification inside the [try] block, on the settled value of
    [API.getProgress]; a thrown [TypeError] (a [null] report) is an error
    of the block. *)
Definition classify (progress : jval) : res signal :=
  status ← get_prop (JV progress) "status";
  if is_str "completed" status then Ok (SigComplete progress)
  else if is_str "error" status then
    e ← get_prop (JV progress) "error";
    Ok (SigError (or_default e "Download failed"))
  else Ok (SigUpdate progress).

(** The rest of [checkProgress] once the request settles with [r]:
    [completed] and [error] stop then call back, other statuses call
    [onUpdate], and the [catch] block stops and calls [onError] with the
    message.  Nothing here consults [isTracking]. *)
Definition checkProgress_resume (tr : tracker) (rt : runtime) (r : res jval)
    : tracker * runtime * signal :=
  match r ≫= classify with
  | Ok (SigUpdate p) => (tr, rt, SigUpdate p)
  | Ok s => let '(tr', rt') := stop tr rt in (tr', rt', s)
  | Throw m => let '(tr', rt') := stop tr rt in (tr', rt', SigError (JV (JStr m)))
  end.

End Tracker.

(** The callback [checkProgress] runs for the settled value [r], whatever
    the state of the tracker: [onUpdate], [onComplete], or [onError] with
    the report's error or the message of the [catch]. *)
Definition outcome (r : res jval) : signal :=
  match r ≫= classify with
  | Ok s => s
  | Throw m => SigError (JV (JStr m))
  end.

(** ** Well-formedness of a tracker object [tid] against the runtime:
    it is tracking exactly when it holds a handle, and the timers that run
    it are exactly its own handle. *)
Definition tracker_wf (tid : nat) (tr : tracker) (rt : runtime) : Prop :=
  (isTracking tr = true <-> is_Some (interval tr)) /\
  (forall h, rt_timers rt !! h = Some tid <-> interval tr = Some h).

(** ** The tracker invariant and its preservation *)

Lemma tracker_wf_new tid d rt :
  (forall h, rt_timers rt !! h <> Some tid) -> tracker_wf tid (new_tracker d) rt.
Proof.
  intros H. split; simpl.
  - split; [discriminate|]. by intros [? ?].
  - intros h. split; [by intros ?%H | discriminate].
Qed.

Lemma tracker_wf_same_timers tid tr rt rt' :
  rt_timers rt' = rt_timers rt -> tracker_wf tid tr rt -> tracker_wf tid tr rt'.
Proof. intros Heq [H1 H2]. split; [done|]. intros h. rewrite Heq. apply H2. Qed.

Lemma tracker_wf_issue tid tr rt rq k :
  tracker_wf tid tr rt -> tracker_wf tid tr (issue rt rq k).
Proof. by apply tracker_wf_same_timers. Qed.

Lemma tracker_wf_settle tid tr rt n :
  tracker_wf tid tr rt -> tracker_wf tid tr (settle rt n).
Proof. by apply tracker_wf_same_timers. Qed.

#[export] Hint Resolve tracker_wf_issue tracker_wf_settle : js.

Lemma tracker_wf_stopped_no_timer tid tr rt h :
  tracker_wf tid tr rt -> interval tr = None -> rt_timers rt !! h <> Some tid.
Proof. intros [_ H] Hn Hh. apply H in Hh. congruence. Qed.

Lemma start_wf cfg tid tr rt :
  rt_wf rt -> tracker_wf tid tr rt ->
  tracker_wf tid (start cfg tid tr rt).1 (start cfg tid tr rt).2.
Proof.
  intros Hrt Hwf. unfold start.
  destruct (isTracking tr) eqn:Ht; [done|]. simpl.
  assert (interval tr = None) as Hn.
  { destruct Hwf as [[_ H] _]. destruct (interval tr); [|done].
    rewrite H in Ht; [discriminate|eauto]. }
  split; [split; eauto|]. intros h. simpl.
  destruct (decide (h = rt_next_timer rt)) as [->|Hne].
  - rewrite lookup_insert_eq. done.
  - rewrite lookup_insert_ne by congruence. split; [|congruence].
    intros Hh. by eapply tracker_wf_stopped_no_timer in Hh.
Qed.

Lemma stop_wf tid tr rt :
  tracker_wf tid tr rt -> tracker_wf tid (stop tr rt).1 (stop tr rt).2.
Proof.
  intros Hwf. unfold stop. simpl. split.
  - split; [discriminate|]. by intros [? ?].
  - intros h. split; [|discriminate]. intros Hh.
    destruct (interval tr) as [h0|] eqn:Hi; simpl in Hh.
    + destruct (decide (h = h0)) as [->|Hne].
      * by rewrite lookup_delete_eq in Hh.
      * rewrite lookup_delete_ne in Hh by congruence.
        apply Hwf in Hh. congruence.
    + by eapply tracker_wf_stopped_no_timer in Hh.
Qed.

Lemma resume_cases tr rt r :
  let '(tr', rt', s) := checkProgress_resume tr rt r in
  (terminal s = false /\ tr' = tr /\ rt' = rt) \/
  (terminal s = true /\ (tr', rt') = stop tr rt).
Proof.
  unfold checkProgress_resume.
  destruct (r ≫= classify) as [[p|p|e]|m]; simpl; auto.
Qed.

Lemma resume_outcome tr rt r : (checkProgress_resume tr rt r).2 = outcome r.
Proof.
  unfold checkProgress_resume, outcome.
  destruct (r ≫= classify) as [[p|p|e]|m]; simpl; try done; by destruct (stop tr rt).
Qed.

Lemma resume_wf tid tr rt r :
  tracker_wf tid tr rt ->
  tracker_wf tid (checkProgress_resume tr rt r).1.1 (checkProgress_resume tr rt r).1.2.
Proof.
  intros Hwf. pose proof (resume_cases tr rt r) as Hc.
  destruct (checkProgress_resume tr rt r) as [[tr' rt'] s].
  destruct Hc as [(_ & -> & ->) | (_ & Heq)]; [done|].
  simpl. pose proof (stop_wf tid tr rt Hwf) as Hs. by rewrite <- Heq in Hs.
Qed.

(** ** Frame: what one tracker does leaves every other tracker
    well-formed. *)

Lemma tracker_wf_other_clear tid tr rt tid' tr' h :
  tracker_wf tid tr rt -> tracker_wf tid' tr' rt -> tid <> tid' -> interval tr = Some h ->
  tracker_wf tid' tr' (clearInterval rt h).
Proof.
  intros Hwf Hwf' Hne Hi. split; [apply Hwf'|]. intros h'. simpl.
  destruct (decide (h' = h)) as [->|Hh].
  - rewrite lookup_delete_eq. split; [discriminate|].
    intros Hi'%Hwf'. apply Hwf in Hi. congruence.
  - rewrite lookup_delete_ne by congruence. apply Hwf'.
Qed.

Lemma tracker_wf_other_stop tid tr rt tid' tr' :
  tracker_wf tid tr rt -> tracker_wf tid' tr' rt -> tid <> tid' ->
  tracker_wf tid' tr' (stop tr rt).2.
Proof.
  intros Hwf Hwf' Hne. unfold stop.
  destruct (interval tr) as [h|] eqn:Hi; cbn [fst snd].
  - exact (tracker_wf_other_clear tid tr rt tid' tr' h Hwf Hwf' Hne Hi).
  - done.
Qed.

Lemma tracker_wf_other_start cfg tid tr rt tid' tr' :
  rt_wf rt -> tracker_wf tid' tr' rt -> tid <> tid' ->
  tracker_wf tid' tr' (start cfg tid tr rt).2.
Proof.
  intros Hrt Hwf' Hne. unfold start. destruct (isTracking tr); [done|].
  split; [apply Hwf'|]. intros h'. simpl.
  destruct (decide (h' = rt_next_timer rt)) as [->|Hh].
  - rewrite lookup_insert_eq. split; [congruence|].
    intros Hi%Hwf'. rewrite (keys_below_fresh _ _ (rt_wf_timers _ Hrt)) in Hi. discriminate.
  - rewrite lookup_insert_ne by congruence. apply Hwf'.
Qed.

Lemma tracker_wf_other_resume tid tr rt tid' tr' r :
  tracker_wf tid tr rt -> tracker_wf tid' tr' rt -> tid <> tid' ->
  tracker_wf tid' tr' (checkProgress_resume tr rt r).1.2.
Proof.
  intros Hwf Hwf' Hne. pose proof (resume_cases tr rt r) as Hc.
  destruct (checkProgress_resume tr rt r) as [[tr1 rt1] s].
  destruct Hc as [(_ & _ & ->) | (_ & Heq)]; [done|].
  simpl. pose proof (tracker_wf_other_stop tid tr rt tid' tr' Hwf Hwf' Hne) as H.
  by rewrite <- Heq in H.
Qed.

Lemma resume_tracking tr rt r :
  isTracking (checkProgress_resume tr rt r).1.1 = true -> isTracking tr = true.
Proof.
  pose proof (resume_cases tr rt r) as Hc.
  destruct (checkProgress_resume tr rt r) as [[tr1 rt1] s].
  destruct Hc as [(_ & -> & _) | (_ & Heq)]; [done|].
  unfold stop in Heq. by injection Heq as -> _.
Qed.

(** Timers only disappear, except the one [start] creates for its own
    tracker. *)
Lemma stop_timers_sub tr rt h t :
  rt_timers (stop tr rt).2 !! h = Some t -> rt_timers rt !! h = Some t.
Proof.
  unfold stop. destruct (interval tr) as [h0|]; simpl; [|done].
  destruct (decide (h = h0)) as [->|Hne].
  - by rewrite lookup_delete_eq.
  - by rewrite lookup_delete_ne by congruence.
Qed.

Lemma resume_timers_sub tr rt r h t :
  rt_timers (checkProgress_resume tr rt r).1.2 !! h = Some t -> rt_timers rt !! h = Some t.
Proof.
  pose proof (resume_cases tr rt r) as Hc.
  destruct (checkProgress_resume tr rt r) as [[tr1 rt1] s].
  destruct Hc as [(_ & _ & ->) | (_ & Heq)]; [done|].
  simpl. intros H. apply (stop_timers_sub tr rt). by rewrite <- Heq.
Qed.

Lemma start_timers cfg tid tr rt h t :
  rt_timers (start cfg tid tr rt).2 !! h = Some t -> t = tid \/ rt_timers rt !! h = Some t.
Proof.
  unfold start. destruct (isTracking tr); [auto|]. simpl.
  destruct (decide (h = rt_next_timer rt)) as [->|Hne].
  - rewrite lookup_insert_eq. intros [= ->]. auto.
  - rewrite lookup_insert_ne by congruence. auto.
Qed.

Lemma start_downloadId cfg tid tr rt : downloadId (start cfg tid tr rt).1 = downloadId tr.
Proof. unfold start. by destruct (isTracking tr). Qed.

(** ** Functional behaviour of the operations *)

(** [start()] on a tracker that is already tracking does nothing: no
    request, no timer. *)
Theorem start_idempotent cfg tid tr rt :
  isTracking tr = true -> start cfg tid tr rt = (tr, rt).
Proof. unfold start. by intros ->. Qed.

Lemma start_idempotent_witness :
  isTracking (mkTracker (JV (JStr "a1")) (Some 1) true) = true /\
  start CONFIG_local 0 (mkTracker (JV (JStr "a1")) (Some 1) true) rt_init =
  (mkTracker (JV (JStr "a1")) (Some 1) true, rt_init).
Proof. split; [reflexivity|]. apply start_idempotent. reflexivity. Defined.

Lemma start_spec cfg tid tr rt :
  rt_wf rt -> tracker_wf tid tr rt -> isTracking tr = false ->
  let '(tr', rt') := start cfg tid tr rt in
  isTracking tr' = true /\
  rt_pending rt' !! rt_next_req rt = Some (getProgress cfg (downloadId tr), KPoll tid) /\
  rt_pending rt' = <[rt_next_req rt := (getProgress cfg (downloadId tr), KPoll tid)]> (rt_pending rt) /\
  exists h, interval tr' = Some h /\ timers_of rt' tid = [h].
Proof.
  intros Hrt Hwf Ht. pose proof (start_wf cfg tid tr rt Hrt Hwf) as Hwf'.
  unfold start in *. rewrite Ht in *. simpl in *.
  split; [done|]. split; [apply lookup_insert_eq|]. split; [done|].
  eexists; split; [done|]. apply timers_of_single. intros h.
  destruct Hwf' as [_ H]. rewrite (H h). simpl. split; congruence.
Qed.

(** C17: [start()] on a tracker that is not tracking polls at once (one
    request for its id, resuming in this tracker) and installs exactly one
    interval timer, whose handle the tracker keeps. *)
Theorem start_polls_and_arms cfg tid tr rt :
  rt_wf rt -> tracker_wf tid tr rt -> isTracking tr = false ->
  let '(tr', rt') := start cfg tid tr rt in
  isTracking tr' = true /\
  rt_pending rt' !! rt_next_req rt = Some (getProgress cfg (downloadId tr), KPoll tid) /\
  rt_pending rt' = <[rt_next_req rt := (getProgress cfg (downloadId tr), KPoll tid)]> (rt_pending rt) /\
  exists h, interval tr' = Some h /\ timers_of rt' tid = [h].
Proof. apply start_spec. Qed.

Lemma start_polls_and_arms_witness :
  rt_wf rt_init /\ tracker_wf 0 (new_tracker (JV (JStr "abc"))) rt_init /\
  isTracking (new_tracker (JV (JStr "abc"))) = false /\
  isTracking (start CONFIG_local 0 (new_tracker (JV (JStr "abc"))) rt_init).1 = true.
Proof.
  assert (tracker_wf 0 (new_tracker (JV (JStr "abc"))) rt_init) as Hwf
    by (apply tracker_wf_new; intros h; simpl; by rewrite lookup_empty).
  split; [apply rt_wf_init|]. split; [exact Hwf|]. split; [reflexivity|].
  pose proof (start_polls_and_arms CONFIG_local 0 _ _ rt_wf_init Hwf eq_refl) as H.
  destruct (start CONFIG_local 0 (new_tracker (JV (JStr "abc"))) rt_init) as [tr' rt'].
  exact (proj1 H).
Defined.

(** [stop()] is idempotent: a second call changes nothing. *)
Theorem stop_idempotent tr rt : stop (stop tr rt).1 (stop tr rt).2 = stop tr rt.
Proof. unfold stop. by destruct (interval tr). Qed.

Lemma stop_no_timers tid tr rt :
  tracker_wf tid tr rt ->
  isTracking (stop tr rt).1 = false /\ timers_of (stop tr rt).2 tid = [].
Proof.
  intros Hwf. split; [done|]. apply timers_of_nil. intros h.
  apply (tracker_wf_stopped_no_timer tid (stop tr rt).1); [by apply stop_wf | done].
Qed.

(** After [stop()] the tracker is not tracking and no interval timer
    runs it any more. *)
Theorem stop_disarms tid tr rt :
  tracker_wf tid tr rt ->
  isTracking (stop tr rt).1 = false /\ timers_of (stop tr rt).2 tid = [].
Proof. apply stop_no_timers. Qed.

Lemma stop_disarms_witness :
  tracker_wf 0 (mkTracker (JV (JStr "a1")) (Some 1) true)
    (mkRuntime {[1 := 0]} 2 ∅ 0 ∅) /\
  timers_of (stop (mkTracker (JV (JStr "a1")) (Some 1) true) (mkRuntime {[1 := 0]} 2 ∅ 0 ∅)).2 0
  = [].
Proof.
  assert (tracker_wf 0 (mkTracker (JV (JStr "a1")) (Some 1) true)
            (mkRuntime {[1 := 0]} 2 ∅ 0 ∅)) as Hwf.
  { split; simpl.
    - split; [by eexists | done].
    - intros h. destruct (decide (h = 1)) as [->|Hne].
      + by rewrite lookup_singleton_eq.
      + rewrite lookup_singleton_ne by congruence. split; congruence. }
  split; [exact Hwf|]. exact (proj2 (stop_disarms 0 _ _ Hwf)).
Defined.

(** C8: the outcome of a poll is terminal (the tracker stops and calls
    [onComplete] or [onError]) exactly when the request failed, the report
    is [null], or the report's [status] is ["completed"] or ["error"]; any
    other report, whatever its status, is passed to [onUpdate]. *)
Theorem resume_terminal_iff tr rt r :
  terminal (checkProgress_resume tr rt r).2 = true <->
  match r with
  | Throw _ | Ok JNull => True
  | Ok (JObj fs) =>
      assoc_last "status" fs = JV (JStr "completed") \/
      assoc_last "status" fs = JV (JStr "error")
  | Ok _ => False
  end.
Proof.
  unfold checkProgress_resume.
  destruct r as [[]|m]; simpl; try (split; [discriminate | tauto]); try done.
  unfold classify. simpl.
  destruct (is_str "completed" _) eqn:Ec; [apply is_str_spec in Ec; simpl; tauto|].
  destruct (is_str "error" _) eqn:Ee; [apply is_str_spec in Ee; simpl; tauto|].
  simpl. split; [discriminate|].
  intros [Hc|Hc]; rewrite Hc in *; simpl in *; congruence.
Qed.

Lemma rt_wf_start cfg tid tr rt : rt_wf rt -> rt_wf (start cfg tid tr rt).2.
Proof.
  intros H. unfold start. destruct (isTracking tr); [done|].
  apply (rt_wf_setInterval _ tid). by apply rt_wf_issue.
Qed.

Lemma rt_wf_stop tr rt : rt_wf rt -> rt_wf (stop tr rt).2.
Proof. intros H. unfold stop. destruct (interval tr); simpl; auto with js. Qed.

Lemma rt_wf_resume tr rt r : rt_wf rt -> rt_wf (checkProgress_resume tr rt r).1.2.
Proof.
  intros H. pose proof (resume_cases tr rt r) as Hc.
  destruct (checkProgress_resume tr rt r) as [[tr' rt'] s].
  destruct Hc as [(_ & _ & ->) | (_ & Heq)]; [done|].
  simpl. pose proof (rt_wf_stop tr rt H) as Hs. by rewrite <- Heq in Hs.
Qed.

#[export] Hint Resolve rt_wf_start rt_wf_stop rt_wf_resume : js.

Lemma stop_pending tr rt : rt_pending (stop tr rt).2 = rt_pending rt.
Proof. unfold stop. by destruct (interval tr). Qed.

Lemma resume_pending tr rt r :
  rt_pending (checkProgress_resume tr rt r).1.2 = rt_pending rt.
Proof.
  pose proof (resume_cases tr rt r) as Hc.
  destruct (checkProgress_resume tr rt r) as [[tr' rt'] s].
  destruct Hc as [(_ & _ & ->) | (_ & Heq)]; [done|].
  rewrite <- (stop_pending tr rt), <- Heq. done.
Qed.

Lemma resume_stopped tid tr rt r :
  tracker_wf tid tr rt -> interval tr = None ->
  interval (checkProgress_resume tr rt r).1.1 = None.
Proof.
  intros _ Hn. pose proof (resume_cases tr rt r) as Hc.
  destruct (checkProgress_resume tr rt r) as [[tr' rt'] s].
  destruct Hc as [(_ & -> & _) | (_ & Heq)]; [done|].
  unfold stop in Heq. by injection Heq as -> _.
Qed.

(** ** One tracker object with the runtime as its environment.
    Events are the calls the owner makes ([start()], [stop()]), an interval
    timer firing, and a request settling with what the network answered. *)
Inductive tevent : Type :=
| TStart
| TStop
| TFire (h : nat)
| TSettle (n : nat) (x : exchange).

Section TrackerSystem.
Context (cfg : config) (tid : nat).

Definition tstep (st : tracker * runtime) (e : tevent) : tracker * runtime * option signal :=
  let '(tr, rt) := st in
  match e with
  | TStart => (start cfg tid tr rt, None)
  | TStop => (stop tr rt, None)
  | TFire h =>
      match rt_timers rt !! h with
      | Some t => if decide (t = tid) then (tr, checkProgress_issue cfg tid tr rt, None)
                  else (tr, rt, None)
      | None => (tr, rt, None)
      end
  | TSettle n x =>
      match rt_pending rt !! n with
      | Some (_, KPoll t) =>
          if decide (t = tid) then
            let '(tr', rt', s) := checkProgress_resume tr (settle rt n) (read_response x) in
            (tr', rt', Some s)
          else (tr, rt, None)
      | _ => (tr, rt, None)
      end
  end.

Fixpoint trun (st : tracker * runtime) (es : list tevent) : tracker * runtime * list signal :=
  match es with
  | [] => (st, [])
  | e :: es' =>
      let '(st1, o) := tstep st e in
      let '(st2, ss) := trun st1 es' in
      (st2, (option_list o ++ ss)%list)
  end.

Definition stopped (st : tracker * runtime) : Prop :=
  tracker_wf tid st.1 st.2 /\ interval st.1 = None.

(** C3 (spec P3 does not hold): [stop()] does not silence a poll already
    in flight.  For every state of the tracker and every poll request of
    it still in flight, after [stop()] the settlement of that request runs
    a callback, exactly the one [checkProgress] chooses for the answer
    ([outcome]), and the tracker stays stopped. *)
Theorem callback_after_stop st n rq x :
  rt_pending st.2 !! n = Some (rq, KPoll tid) ->
  (trun st [TStop; TSettle n x]).2 = [outcome (read_response x)] /\
  isTracking (trun st [TStop; TSettle n x]).1.1 = false.
Proof.
  destruct st as [tr rt]. intros Hn. cbn [trun tstep].
  pose proof (stop_pending tr rt) as Hp.
  destruct (stop tr rt) as [tr1 rt1] eqn:Es. cbn [tstep snd] in *.
  assert (isTracking tr1 = false) as Ht1 by (unfold stop in Es; by injection Es as <- _).
  rewrite Hp, Hn, decide_True by done.
  pose proof (resume_outcome tr1 (settle rt1 n) (read_response x)) as Ho.
  pose proof (resume_tracking tr1 (settle rt1 n) (read_response x)) as Htr.
  destruct (checkProgress_resume _ _ _) as [[tr' rt'] s]. simpl in *. subst s.
  split; [done|]. destruct (isTracking tr'); [|done]. rewrite <- Ht1. symmetry. by apply Htr.
Qed.

(** The settlement of a poll of this tracker runs [outcome] and removes
    the request from the table. *)
Lemma tstep_settle_poll st n rq x :
  rt_pending st.2 !! n = Some (rq, KPoll tid) ->
  (tstep st (TSettle n x)).2 = Some (outcome (read_response x)) /\
  rt_pending (tstep st (TSettle n x)).1.2 = delete n (rt_pending st.2).
Proof.
  destruct st as [tr rt]. intros Hn. cbn [tstep snd] in *. rewrite Hn, decide_True by done.
  pose proof (resume_outcome tr (settle rt n) (read_response x)) as Ho.
  pose proof (resume_pending tr (settle rt n) (read_response x)) as Hp.
  destruct (checkProgress_resume _ _ _) as [[tr' rt'] s]. simpl in *. by subst.
Qed.

(** C4 (spec P2 does not hold): the interval timer issues a new poll
    whether or not the previous one has settled.  For every well-formed
    tracking tracker with a poll in flight, a tick issues a second poll,
    and both polls run their callbacks, whatever the first one reported:
    when both report completion, [onComplete] runs twice. *)
Theorem overlapping_polls_complete_twice tr rt h n rq x1 x2 :
  rt_wf rt -> tracker_wf tid tr rt -> interval tr = Some h ->
  rt_pending rt !! n = Some (rq, KPoll tid) ->
  (trun (tr, rt) [TFire h; TSettle n x1; TSettle (rt_next_req rt) x2]).2 =
    [outcome (read_response x1); outcome (read_response x2)].
Proof.
  intros Hrt Hwf Hh Hn. cbn [trun].
  assert (rt_timers rt !! h = Some tid) as Ht by (apply Hwf, Hh).
  assert (n <> rt_next_req rt) as Hne.
  { intros ->. by rewrite (keys_below_fresh _ _ (rt_wf_pending _ Hrt)) in Hn. }
  cbn [tstep]. rewrite Ht, decide_True by done. unfold checkProgress_issue.
  set (rt1 := issue rt (getProgress cfg (downloadId tr)) (KPoll tid)).
  assert (rt_pending rt1 !! n = Some (rq, KPoll tid)) as Hn1
    by (simpl; by rewrite lookup_insert_ne by congruence).
  destruct (tstep_settle_poll (tr, rt1) n rq x1 Hn1) as [Hs1 Hp1].
  destruct (tstep (tr, rt1) (TSettle n x1)) as [st1 o1]. simpl in Hs1, Hp1. subst o1.
  assert (rt_pending st1.2 !! rt_next_req rt = Some (getProgress cfg (downloadId tr), KPoll tid))
    as Hm by (rewrite Hp1, lookup_delete_ne by congruence; apply lookup_insert_eq).
  destruct (tstep_settle_poll st1 _ _ x2 Hm) as [Hs2 _].
  destruct (tstep st1 (TSettle (rt_next_req rt) x2)) as [st2 o2]. simpl in Hs2. subst o2.
  reflexivity.
Qed.

Lemma tstep_stopped st e :
  e <> TStart -> stopped st ->
  stopped (tstep st e).1 /\
  length (option_list (tstep st e).2) + npolls (tstep st e).1.2 tid <= npolls st.2 tid.
Proof.
  destruct st as [tr rt]. intros He [Hwf Hn].
  destruct e as [| |h|n x]; [done| | |]; cbn [tstep fst snd] in *.
  - split; [split; [by apply stop_wf | done]|].
    rewrite (npolls_same_pending rt _ tid (stop_pending tr rt)). simpl. lia.
  - destruct (rt_timers rt !! h) as [t|] eqn:Eh; [|simpl; split; [by split | lia]].
    case_decide; subst; [|simpl; split; [by split | lia]].
    exfalso. by eapply tracker_wf_stopped_no_timer.
  - destruct (rt_pending rt !! n) as [[rq [| |t| | | |]]|] eqn:En;
      try (simpl; split; [by split | lia]).
    case_decide; subst; [|simpl; split; [by split | lia]].
    pose proof (resume_wf tid tr (settle rt n) (read_response x) (tracker_wf_settle _ _ _ _ Hwf)).
    pose proof (resume_stopped tid tr (settle rt n) (read_response x)
                  (tracker_wf_settle _ _ _ _ Hwf) Hn).
    pose proof (resume_pending tr (settle rt n) (read_response x)) as Hp.
    pose proof (npolls_settle rt tid n rq En).
    destruct (checkProgress_resume tr (settle rt n) (read_response x)) as [[tr' rt'] s].
    simpl in *. split; [by split|].
    rewrite (npolls_same_pending (settle rt n) rt' tid Hp). lia.
Qed.

Lemma tstep_wf st e :
  rt_wf st.2 -> tracker_wf tid st.1 st.2 ->
  rt_wf (tstep st e).1.2 /\ tracker_wf tid (tstep st e).1.1 (tstep st e).1.2.
Proof.
  destruct st as [tr rt]. intros Hrt Hwf.
  destruct e as [| |h|n x]; cbn [tstep fst snd].
  - split; [by apply rt_wf_start | by apply start_wf].
  - split; [by apply rt_wf_stop | by apply stop_wf].
  - destruct (rt_timers rt !! h); [case_decide|]; simpl; unfold checkProgress_issue;
      split; auto with js.
  - destruct (rt_pending rt !! n) as [[rq [| |t| | | |]]|]; simpl; auto.
    case_decide; [|done].
    pose proof (resume_wf tid tr (settle rt n) (read_response x) (tracker_wf_settle _ _ _ _ Hwf)).
    pose proof (rt_wf_resume tr (settle rt n) (read_response x) (rt_wf_settle _ _ Hrt)).
    destruct (checkProgress_resume tr (settle rt n) (read_response x)) as [[tr' rt'] s].
    by split.
Qed.

Lemma trun_wf st es :
  rt_wf st.2 -> tracker_wf tid st.1 st.2 ->
  rt_wf (trun st es).1.2 /\ tracker_wf tid (trun st es).1.1 (trun st es).1.2.
Proof.
  revert st. induction es as [|e es IH]; intros st Hrt Hwf; simpl; [done|].
  destruct (tstep_wf st e Hrt Hwf) as [Hrt1 Hwf1].
  destruct (tstep st e) as [st1 o]. destruct (IH st1 Hrt1 Hwf1) as [H1 H2].
  destruct (trun st1 es) as [st2 ss]. by split.
Qed.

Lemma stopped_run_bounded st es :
  Forall (fun e => e <> TStart) es -> stopped st ->
  length (trun st es).2 <= npolls st.2 tid.
Proof.
  revert st. induction es as [|e es IH]; intros st Hes Hst; simpl; [lia|].
  apply Forall_cons in Hes as [He Hes].
  destruct (tstep_stopped st e He Hst) as [Hst1 Hle].
  destruct (tstep st e) as [st1 o] eqn:E1. simpl in *.
  specialize (IH st1 Hes Hst1).
  destruct (trun st1 es) as [st2 ss]. simpl in *. rewrite length_app. lia.
Qed.

(** C2 (spec P2 and P3, the part the code keeps): after [stop()] on a
    well-formed tracker, as long as [start()] is not called again, it
    issues no new poll, and the callbacks it runs are at most as many as
    the polls in flight when it stopped; with no poll in flight it is
    silent. *)
Theorem stopped_signals_bounded st es :
  Forall (fun e => e <> TStart) es -> tracker_wf tid st.1 st.2 ->
  length (trun st (TStop :: es)).2 <= npolls st.2 tid.
Proof.
  destruct st as [tr rt]. intros Hes Hwf. cbn [trun tstep].
  pose proof (stopped_run_bounded (stop tr rt) es Hes
                (conj (stop_wf tid tr rt Hwf) eq_refl)) as H.
  rewrite (npolls_same_pending rt (stop tr rt).2 tid (stop_pending tr rt)) in H.
  destruct (trun (stop tr rt) es) as [st2 ss]. exact H.
Qed.

End TrackerSystem.

(** ** Concrete runs of one tracker (download id ["abc"]) *)

Definition report (status : string) (extra : list (string * jval)) : exchange :=
  Response true (BodyJson (JObj (("status", JStr status) :: extra))).

Definition fresh_st : tracker * runtime := (new_tracker (JV (JStr "abc")), rt_init).

(** Spec scenario A: with each poll answered before the timer fires
    again, the reports [starting], [downloading 42%] and [completed x.mp4]
    give two updates and one completion carrying [x.mp4]; afterwards no
    timer and no request of the tracker remain, so no further poll can
    happen. *)
Theorem scenario_A :
  let '(st, ss) :=
    trun CONFIG_local 0 fresh_st
      [TStart; TSettle 0 (report "starting" []);
       TFire 1; TSettle 1 (report "downloading" [("percent", JStr "42%")]);
       TFire 1; TSettle 2 (report "completed" [("filename", JStr "x.mp4")])] in
  ss = [SigUpdate (JObj [("status", JStr "starting")]);
        SigUpdate (JObj [("status", JStr "downloading"); ("percent", JStr "42%")]);
        SigComplete (JObj [("status", JStr "completed"); ("filename", JStr "x.mp4")])] /\
  rt_timers st.2 = ∅ /\ rt_pending st.2 = ∅ /\ isTracking st.1 = false.
Proof. vm_compute. repeat split. Qed.

(** Spec scenario B: an update, then a poll whose request fails in
    transport, gives one update and one [onError] with the engine's
    message; the timer is gone, so a later tick issues no third poll. *)
Theorem scenario_B :
  let '(st, ss) :=
    trun CONFIG_local 0 fresh_st
      [TStart; TSettle 0 (report "downloading" []);
       TFire 1; TSettle 1 (NetworkFailure "Failed to fetch"); TFire 1] in
  ss = [SigUpdate (JObj [("status", JStr "downloading")]);
        SigError (JV (JStr "Failed to fetch"))] /\
  rt_timers st.2 = ∅ /\ rt_pending st.2 = ∅.
Proof. vm_compute. repeat split. Qed.

Lemma stopped_signals_bounded_witness :
  Forall (fun e => e <> TStart)
    [TFire 1; TSettle 0 (report "completed" []); TSettle 1 (report "completed" [])] /\
  tracker_wf 0 (trun CONFIG_local 0 fresh_st [TStart; TFire 1]).1.1
    (trun CONFIG_local 0 fresh_st [TStart; TFire 1]).1.2 /\
  length (trun CONFIG_local 0 (trun CONFIG_local 0 fresh_st [TStart; TFire 1]).1
            (TStop :: [TFire 1; TSettle 0 (report "completed" []);
                       TSettle 1 (report "completed" [])])).2
  <= npolls (trun CONFIG_local 0 fresh_st [TStart; TFire 1]).1.2 0.
Proof.
  assert (Forall (fun e => e <> TStart)
            [TFire 1; TSettle 0 (report "completed" []); TSettle 1 (report "completed" [])])
    as Hes by (repeat constructor; discriminate).
  assert (tracker_wf 0 (trun CONFIG_local 0 fresh_st [TStart; TFire 1]).1.1
            (trun CONFIG_local 0 fresh_st [TStart; TFire 1]).1.2) as Hwf.
  { apply trun_wf; [apply rt_wf_init|].
    apply tracker_wf_new. intros h. simpl. by rewrite lookup_empty. }
  split; [exact Hes|]. split; [exact Hwf|].
  exact (stopped_signals_bounded CONFIG_local 0 _ _ Hes Hwf).
Defined.

(** The tracker of ["abc"] just started: its first poll (request 0) is in
    flight and its timer has handle 1. *)
Definition started_st : tracker * runtime := (trun CONFIG_local 0 fresh_st [TStart]).1.

Definition completed_x : exchange := report "completed" [("filename", JStr "x.mp4")].

Lemma callback_after_stop_witness :
  rt_pending started_st.2 !! 0 = Some (getProgress CONFIG_local (JV (JStr "abc")), KPoll 0) /\
  (trun CONFIG_local 0 started_st [TStop; TSettle 0 completed_x]).2 =
    [SigComplete (JObj [("status", JStr "completed"); ("filename", JStr "x.mp4")])].
Proof.
  assert (rt_pending started_st.2 !! 0 = Some (getProgress CONFIG_local (JV (JStr "abc")), KPoll 0))
    as H by (vm_compute; reflexivity).
  split; [exact H|].
  rewrite (proj1 (callback_after_stop CONFIG_local 0 started_st 0 _ completed_x H)).
  vm_compute. reflexivity.
Defined.

Lemma overlapping_polls_complete_twice_witness :
  rt_wf started_st.2 /\ tracker_wf 0 started_st.1 started_st.2 /\
  interval started_st.1 = Some 1 /\
  rt_pending started_st.2 !! 0 = Some (getProgress CONFIG_local (JV (JStr "abc")), KPoll 0) /\
  (trun CONFIG_local 0 started_st [TFire 1; TSettle 0 completed_x; TSettle 1 completed_x]).2 =
    [SigComplete (JObj [("status", JStr "completed"); ("filename", JStr "x.mp4")]);
     SigComplete (JObj [("status", JStr "completed"); ("filename", JStr "x.mp4")])].
Proof.
  assert (rt_wf started_st.2 /\ tracker_wf 0 started_st.1 started_st.2) as [Hrt Hwf].
  { apply trun_wf; [apply rt_wf_init|]. apply tracker_wf_new. intros h. simpl. by rewrite lookup_empty. }
  assert (interval started_st.1 = Some 1) as Hh by (vm_compute; reflexivity).
  assert (rt_pending started_st.2 !! 0 = Some (getProgress CONFIG_local (JV (JStr "abc")), KPoll 0))
    as Hn by (vm_compute; reflexivity).
  do 4 (split; [assumption|]).
  rewrite (surjective_pairing started_st) at 1.
  change (TSettle 1 completed_x) with (TSettle (rt_next_req started_st.2) completed_x).
  rewrite (overlapping_polls_complete_twice CONFIG_local 0 started_st.1 started_st.2 1 0 _
             completed_x completed_x Hrt Hwf Hh Hn).
  vm_compute. reflexivity.
Defined.
