(* ===== verification/Ui.v ===== *)
(** * The DOM the controller drives: the [UI] object of
    [src/frontend2/js/ui.js]

    The state is the part of the page the download flow reads or writes:
    the class [active] of the navigation buttons and tab contents, the
    visibility of the loading overlay and of the video-info, progress,
    success and error sections, the texts those sections show, the file
    link of the success section, the quality selector's visibility, the URL
    input, and the log of toast messages (newest first; the timer that hides
    a toast after [TOAST_DURATION] only hides it and is not modelled).
    Each method is a function on this record; a method that reads a
    property of its argument returns a completion, because the read throws
    on [null].  [isValidUrl] takes the WHATWG URL parser as a section
    variable.  [escapeHtml] is the serialisation of a text node, on the
    UTF-8 bytes of the string; its theorems say what it escapes and what it
    does not, and that the HTML parser's decoding of its entities
    ([decode_text], not code of the repository) gives the text back. *)

From S2P Require Import Prelude JsValue Format Views Config Api.
From Stdlib Require Import Ascii.

Record ui : Type := mkUi {
  loadingHidden : bool;
  toasts : list string;
  videoInfoHidden : bool;
  videoThumbnail : string;
  videoTitle : string;
  videoUploader : string;
  qualityGroupHidden : bool;
  progressHidden : bool;
  progressStatus : string;
  progressPercent : string;
  progressSpeed : string;
  progressEta : string;
  progressDownloaded : string;
  successHidden : bool;
  fileHref : string;
  fileDownload : string;
  errorHidden : bool;
  errorMessage : string;
  urlInput : string;
  videoViews : option string;       (* text of #video-views; [None]: not decided *)
  videoDuration : option string;    (* text of #video-duration *)
  navActive : list (string * bool); (* [data-tab] of each nav button, class [active] *)
  tabActive : list (string * bool) }. (* [id] of each tab content, class [active] *)

(** The page as [index.html] (not part of the sources) presents it: every
    section hidden, video downloads selected, an empty input, and the
    three tabs the code names ([download], [history], [stats]) with the
    download tab active. *)
Definition ui_init : ui :=
  mkUi true [] true "" "" "" false true "" "" "" "" "" true "" "" true "" ""
    (Some "") (Some "")
    [("download", true); ("history", false); ("stats", false)]
    [("download-tab", true); ("history-tab", false); ("stats-tab", false)].

(** Assigning a value to [textContent]: [null] and [undefined] give the
    empty string, other values their [ToString]. *)
Definition text_content (v : jsval) : string :=
  match v with JUndef | JV JNull => "" | _ => to_string v end.

Section Ui.
Context (cfg : config).

(** [setLoading(isLoading)] *)
Definition setLoading (b : bool) (u : ui) : ui :=
  mkUi (negb b) (toasts u) (videoInfoHidden u) (videoThumbnail u) (videoTitle u)
    (videoUploader u) (qualityGroupHidden u) (progressHidden u) (progressStatus u)
    (progressPercent u) (progressSpeed u) (progressEta u) (progressDownloaded u)
    (successHidden u) (fileHref u) (fileDownload u) (errorHidden u) (errorMessage u)
    (urlInput u) (videoViews u) (videoDuration u) (navActive u) (tabActive u).

(** [showToast(message)] *)
Definition showToast (msg : string) (u : ui) : ui :=
  mkUi (loadingHidden u) (msg :: toasts u) (videoInfoHidden u) (videoThumbnail u)
    (videoTitle u) (videoUploader u) (qualityGroupHidden u) (progressHidden u)
    (progressStatus u) (progressPercent u) (progressSpeed u) (progressEta u)
    (progressDownloaded u) (successHidden u) (fileHref u) (fileDownload u)
    (errorHidden u) (errorMessage u) (urlInput u) (videoViews u) (videoDuration u)
    (navActive u) (tabActive u).

(** [hideAllSections()] *)
Definition hideAllSections (u : ui) : ui :=
  mkUi (loadingHidden u) (toasts u) (videoInfoHidden u) (videoThumbnail u) (videoTitle u)
    (videoUploader u) (qualityGroupHidden u) true (progressStatus u) (progressPercent u)
    (progressSpeed u) (progressEta u) (progressDownloaded u) true (fileHref u)
    (fileDownload u) true (errorMessage u) (urlInput u) (videoViews u) (videoDuration u)
    (navActive u) (tabActive u).

(** [showVideoInfo(info)]: reads [thumbnail], [title], [uploader],
    [view_count] and [duration] (the first read throws on [null]), writes
    them, the last two through [formatViews] and [formatDuration], then
    unhides the section.  The thumbnail is assigned to [img.src], an
    attribute that takes [ToString] of the value ([null] gives ["null"]);
    the other three texts are [textContent]. *)
Definition showVideoInfo (info : jsval) (u : ui) : res ui :=
  thumb ← get_prop info "thumbnail";
  title ← get_prop info "title";
  uploader ← get_prop info "uploader";
  view_count ← get_prop info "view_count";
  duration ← get_prop info "duration";
  Ok (mkUi (loadingHidden u) (toasts u) false (to_string thumb) (text_content title)
        (text_content uploader) (qualityGroupHidden u) (progressHidden u)
        (progressStatus u) (progressPercent u) (progressSpeed u) (progressEta u)
        (progressDownloaded u) (successHidden u) (fileHref u) (fileDownload u)
        (errorHidden u) (errorMessage u) (urlInput u)
        (formatViews view_count) (formatDuration duration)
        (navActive u) (tabActive u)).

(** [switchTab(tabName)]: the nav buttons whose [data-tab] is [tabName]
    and the tab contents whose id is [tabName + '-tab'] get the class
    [active], all others lose it. *)
Definition switchTab (tabName : string) (u : ui) : ui :=
  mkUi (loadingHidden u) (toasts u) (videoInfoHidden u) (videoThumbnail u) (videoTitle u)
    (videoUploader u) (qualityGroupHidden u) (progressHidden u) (progressStatus u)
    (progressPercent u) (progressSpeed u) (progressEta u) (progressDownloaded u)
    (successHidden u) (fileHref u) (fileDownload u) (errorHidden u) (errorMessage u)
    (urlInput u) (videoViews u) (videoDuration u)
    (map (fun '(tab, _) => (tab, String.eqb tab tabName)) (navActive u))
    (map (fun '(id, _) => (id, String.eqb id (tabName +:+ "-tab"))) (tabActive u)).

(** [hideVideoInfo()] *)
Definition hideVideoInfo (u : ui) : ui :=
  mkUi (loadingHidden u) (toasts u) true (videoThumbnail u) (videoTitle u)
    (videoUploader u) (qualityGroupHidden u) (progressHidden u) (progressStatus u)
    (progressPercent u) (progressSpeed u) (progressEta u) (progressDownloaded u)
    (successHidden u) (fileHref u) (fileDownload u) (errorHidden u) (errorMessage u)
    (urlInput u) (videoViews u) (videoDuration u)
    (navActive u) (tabActive u).

(** [setDownloadType(type)]: the quality selector shows for video only. *)
Definition setDownloadType (type : string) (u : ui) : ui :=
  mkUi (loadingHidden u) (toasts u) (videoInfoHidden u) (videoThumbnail u) (videoTitle u)
    (videoUploader u) (negb (String.eqb type (DOWNLOAD_TYPES_VIDEO cfg))) (progressHidden u)
    (progressStatus u) (progressPercent u) (progressSpeed u) (progressEta u)
    (progressDownloaded u) (successHidden u) (fileHref u) (fileDownload u)
    (errorHidden u) (errorMessage u) (urlInput u) (videoViews u) (videoDuration u)
    (navActive u) (tabActive u).

(** [showProgress()] *)
Definition showProgress (u : ui) : ui :=
  let u1 := hideAllSections u in
  mkUi (loadingHidden u1) (toasts u1) (videoInfoHidden u1) (videoThumbnail u1)
    (videoTitle u1) (videoUploader u1) (qualityGroupHidden u1) false (progressStatus u1)
    (progressPercent u1) (progressSpeed u1) (progressEta u1) (progressDownloaded u1)
    (successHidden u1) (fileHref u1) (fileDownload u1) (errorHidden u1) (errorMessage u1)
    (urlInput u1) (videoViews u1) (videoDuration u1)
    (navActive u1) (tabActive u1).

Definition set_progress_text (status percent speed eta downloaded : string) (u : ui) : ui :=
  mkUi (loadingHidden u) (toasts u) (videoInfoHidden u) (videoThumbnail u) (videoTitle u)
    (videoUploader u) (qualityGroupHidden u) (progressHidden u) status percent speed eta
    downloaded (successHidden u) (fileHref u) (fileDownload u) (errorHidden u)
    (errorMessage u) (urlInput u) (videoViews u) (videoDuration u)
    (navActive u) (tabActive u).

(** [updateProgress(progress)]: three statuses change the texts, any
    other leaves them. *)
Definition updateProgress (progress : jsval) (u : ui) : res ui :=
  status ← get_prop progress "status";
  if is_str "downloading" status then
    percent ← get_prop progress "percent";
    speed ← get_prop progress "speed";
    eta ← get_prop progress "eta";
    downloaded ← get_prop progress "downloaded";
    Ok (set_progress_text "Downloading..." (text_content percent) (text_content speed)
          (text_content eta) (text_content downloaded) u)
  else if is_str "processing" status then
    Ok (set_progress_text "Processing file..." "100%" (progressSpeed u) (progressEta u)
          (progressDownloaded u) u)
  else if is_str "starting" status then
    Ok (set_progress_text "Starting download..." "0%" (progressSpeed u) (progressEta u)
          (progressDownloaded u) u)
  else Ok u.

(** [showSuccess(downloadId, filename)]: the link's [download] attribute
    is a plain string, so an [undefined] filename becomes ["undefined"]. *)
Definition showSuccess (downloadId filename : jsval) (u : ui) : ui :=
  let u1 := hideAllSections u in
  mkUi (loadingHidden u1) (toasts u1) (videoInfoHidden u1) (videoThumbnail u1)
    (videoTitle u1) (videoUploader u1) (qualityGroupHidden u1) (progressHidden u1)
    (progressStatus u1) (progressPercent u1) (progressSpeed u1) (progressEta u1)
    (progressDownloaded u1) false (getFileUrl cfg downloadId) (to_string filename)
    (errorHidden u1) (errorMessage u1) (urlInput u1) (videoViews u1) (videoDuration u1)
    (navActive u1) (tabActive u1).

(** [showError(errorMsg)] *)
Definition showError (msg : jsval) (u : ui) : ui :=
  let u1 := hideAllSections u in
  mkUi (loadingHidden u1) (toasts u1) (videoInfoHidden u1) (videoThumbnail u1)
    (videoTitle u1) (videoUploader u1) (qualityGroupHidden u1) (progressHidden u1)
    (progressStatus u1) (progressPercent u1) (progressSpeed u1) (progressEta u1)
    (progressDownloaded u1) (successHidden u1) (fileHref u1) (fileDownload u1)
    false (text_content msg) (urlInput u1) (videoViews u1) (videoDuration u1)
    (navActive u1) (tabActive u1).

(** [resetDownloadUI()] *)
Definition resetDownloadUI (u : ui) : ui :=
  let u1 := hideAllSections u in
  hideVideoInfo
    (mkUi (loadingHidden u1) (toasts u1) (videoInfoHidden u1) (videoThumbnail u1)
       (videoTitle u1) (videoUploader u1) (qualityGroupHidden u1) (progressHidden u1)
       (progressStatus u1) (progressPercent u1) (progressSpeed u1) (progressEta u1)
       (progressDownloaded u1) (successHidden u1) (fileHref u1) (fileDownload u1)
       (errorHidden u1) (errorMessage u1) "" (videoViews u1) (videoDuration u1)
    (navActive u1) (tabActive u1)).

(** [isValidUrl(url)]: [new URL(url)] must not throw, then the length
    bound of the configuration. *)
Definition isValidUrl (url_parses : string -> bool) (url : string) : bool :=
  url_parses url && (String.length url <=? MAX_URL_LENGTH cfg)%nat.

End Ui.

(** [escapeHtml(text)]: [div.textContent = text; return div.innerHTML].
    Serialising a text node escapes [&], the no-break space (the UTF-8
    bytes C2 A0), [<] and [>], and nothing else. *)
Fixpoint escape_text (l : list Ascii.ascii) : list Ascii.ascii :=
  match l with
  | [] => []
  | c :: l' =>
      if Nat.eqb (Ascii.nat_of_ascii c) 38 then String.list_ascii_of_string "&amp;" ++ escape_text l'
      else if Nat.eqb (Ascii.nat_of_ascii c) 60 then String.list_ascii_of_string "&lt;" ++ escape_text l'
      else if Nat.eqb (Ascii.nat_of_ascii c) 62 then String.list_ascii_of_string "&gt;" ++ escape_text l'
      else if Nat.eqb (Ascii.nat_of_ascii c) 194 then
        match l' with
        | c2 :: l'' =>
            if Nat.eqb (Ascii.nat_of_ascii c2) 160
            then String.list_ascii_of_string "&nbsp;" ++ escape_text l''
            else c :: escape_text l'
        | [] => [c]
        end
      else c :: escape_text l'
  end.

Definition escapeHtml (text : jsval) : string :=
  String.string_of_list_ascii (escape_text (String.list_ascii_of_string (text_content text))).

(** Which of the three download sections is on screen. *)
Inductive screen : Type := SNone | SProgress | SSuccess | SError | SMixed.

Definition visible_screen (u : ui) : screen :=
  match progressHidden u, successHidden u, errorHidden u with
  | true, true, true => SNone
  | false, true, true => SProgress
  | true, false, true => SSuccess
  | true, true, false => SError
  | _, _, _ => SMixed
  end.

(** ** Which section each method leaves on screen *)

Lemma showProgress_screen u : visible_screen (showProgress u) = SProgress.
Proof. reflexivity. Qed.

Lemma showError_screen m u : visible_screen (showError m u) = SError.
Proof. reflexivity. Qed.

Lemma showSuccess_screen cfg d f u : visible_screen (showSuccess cfg d f u) = SSuccess.
Proof. reflexivity. Qed.

Lemma resetDownloadUI_screen u : visible_screen (resetDownloadUI u) = SNone.
Proof. reflexivity. Qed.

Lemma showToast_screen m u : visible_screen (showToast m u) = visible_screen u.
Proof. reflexivity. Qed.

Lemma setLoading_screen b u : visible_screen (setLoading b u) = visible_screen u.
Proof. reflexivity. Qed.

Lemma text_content_str s : text_content (JV (JStr s)) = s.
Proof. reflexivity. Qed.

#[export] Hint Rewrite showProgress_screen showError_screen showSuccess_screen
  resetDownloadUI_screen showToast_screen setLoading_screen text_content_str : js_rw.

(** ** Only [showSuccess] unhides the success section *)

Lemma showVideoInfo_successHidden v u u' :
  showVideoInfo v u = Ok u' -> successHidden u' = successHidden u.
Proof.
  destruct v as [|[]]; simpl; try discriminate; by intros [= <-].
Qed.

Lemma updateProgress_successHidden v u u' :
  updateProgress v u = Ok u' -> successHidden u' = successHidden u.
Proof.
  unfold updateProgress. intros H.
  destruct (get_prop v "status") as [st|m]; simpl in H; [|discriminate].
  repeat match type of H with
         | context [if ?b then _ else _] => destruct b
         | context [get_prop ?x ?f] => destruct (get_prop x f); simpl in H; try discriminate
         end;
  by injection H as <-.
Qed.

(** [updateProgress] keeps the section on screen and writes one of three
    status texts, or none. *)
Lemma updateProgress_screen v u u' :
  updateProgress v u = Ok u' ->
  visible_screen u' = visible_screen u /\
  (progressStatus u' = progressStatus u \/ progressStatus u' = "Downloading..." \/
   progressStatus u' = "Processing file..." \/ progressStatus u' = "Starting download...").
Proof.
  unfold updateProgress. intros H.
  destruct (get_prop v "status") as [st|m]; simpl in H; [|discriminate].
  repeat match type of H with
         | context [if ?b then _ else _] => destruct b
         | context [get_prop ?x ?f] => destruct (get_prop x f); simpl in H; try discriminate
         end;
  injection H as <-; split; first [reflexivity | simpl; tauto].
Qed.

Lemma showVideoInfo_ok v u u' :
  showVideoInfo v u = Ok u' -> videoInfoHidden u' = false /\ visible_screen u' = visible_screen u.
Proof.
  unfold showVideoInfo. intros H.
  repeat match type of H with
         | context [get_prop ?x ?f] => destruct (get_prop x f); simpl in H; try discriminate
         end;
  by injection H as <-.
Qed.

Lemma showVideoInfo_truthy v u :
  truthy v = true ->
  exists u', showVideoInfo v u = Ok u' /\ videoInfoHidden u' = false /\
             visible_screen u' = visible_screen u.
Proof.
  destruct v as [|[]]; simpl; try discriminate; intros _; eexists; by split.
Qed.

(** ** [escapeHtml] *)

Definition markup_free (c : Ascii.ascii) : Prop :=
  Ascii.nat_of_ascii c <> 60 /\ Ascii.nat_of_ascii c <> 62.

(** A character kept, or the characters of an entity, are markup free;
    the rest is the induction hypothesis. *)
Ltac markup_close IH :=
  repeat (constructor;
          [split; first [lia | let H := fresh in intros H; vm_compute in H; discriminate] |]);
  first [constructor | apply IH; simpl in *; lia].

Lemma escape_text_markup_free_len n l :
  length l <= n -> Forall markup_free (escape_text l).
Proof.
  revert l. induction n as [|n IH]; intros l Hlen.
  { destruct l; [constructor | simpl in Hlen; lia]. }
  destruct l as [|c l']; simpl in *; [constructor|].
  destruct (Nat.eqb_spec (Ascii.nat_of_ascii c) 38); [markup_close IH|].
  destruct (Nat.eqb_spec (Ascii.nat_of_ascii c) 60); [markup_close IH|].
  destruct (Nat.eqb_spec (Ascii.nat_of_ascii c) 62); [markup_close IH|].
  destruct (Nat.eqb_spec (Ascii.nat_of_ascii c) 194); [|markup_close IH].
  destruct l' as [|c2 l'']; [markup_close IH|].
  destruct (Nat.eqb_spec (Ascii.nat_of_ascii c2) 160); markup_close IH.
Qed.

Definition plain_char (c : Ascii.ascii) : bool :=
  negb (Nat.eqb (Ascii.nat_of_ascii c) 38 || Nat.eqb (Ascii.nat_of_ascii c) 60 ||
        Nat.eqb (Ascii.nat_of_ascii c) 62 || Nat.eqb (Ascii.nat_of_ascii c) 194).

Lemma escape_text_plain l : forallb plain_char l = true -> escape_text l = l.
Proof.
  induction l as [|c l IH]; simpl; [done|].
  intros [Hc Hl]%andb_prop. unfold plain_char in Hc.
  destruct (Nat.eqb (Ascii.nat_of_ascii c) 38), (Nat.eqb (Ascii.nat_of_ascii c) 60),
    (Nat.eqb (Ascii.nat_of_ascii c) 62), (Nat.eqb (Ascii.nat_of_ascii c) 194);
    try discriminate. by rewrite IH.
Qed.

(** ** Reading the text back: the character references the HTML parser
    decodes in text, for the four entities [escapeHtml] writes.  This is
    the inverse the round trip is stated against; it is not code of the
    repository. *)
Fixpoint decode_text (l : list Ascii.ascii) : list Ascii.ascii :=
  match l with
  | "&" :: "a" :: "m" :: "p" :: ";" :: r => "&" :: decode_text r
  | "&" :: "l" :: "t" :: ";" :: r => "<" :: decode_text r
  | "&" :: "g" :: "t" :: ";" :: r => ">" :: decode_text r
  | "&" :: "n" :: "b" :: "s" :: "p" :: ";" :: r =>
      Ascii.ascii_of_nat 194 :: Ascii.ascii_of_nat 160 :: decode_text r
  | c :: r => c :: decode_text r
  | [] => []
  end%char.

(** A character other than [&] is read as itself. *)
Lemma decode_plain c l :
  Ascii.nat_of_ascii c <> 38 -> decode_text (c :: l) = c :: decode_text l.
Proof.
  intros H. destruct c as [[] [] [] [] [] [] [] []]; try reflexivity; vm_compute in H; congruence.
Qed.

Lemma ascii_of_code c n : Ascii.nat_of_ascii c = n -> c = Ascii.ascii_of_nat n.
Proof. intros <-. by rewrite Ascii.ascii_nat_embedding. Qed.

(** An entity [escape_text] wrote is read back as the character(s) it
    stands for. *)
Ltac decode_entity IH :=
  repeat match goal with H : Ascii.nat_of_ascii _ = _ |- _ => apply ascii_of_code in H; subst end;
  cbn; repeat f_equal; apply IH; simpl in *; lia.

Lemma decode_escape_len n l : length l <= n -> decode_text (escape_text l) = l.
Proof.
  revert l. induction n as [|n IH]; intros l Hlen.
  { destruct l; [done | simpl in Hlen; lia]. }
  destruct l as [|c l']; simpl in *; [done|].
  destruct (Nat.eqb_spec (Ascii.nat_of_ascii c) 38); [decode_entity IH|].
  destruct (Nat.eqb_spec (Ascii.nat_of_ascii c) 60); [decode_entity IH|].
  destruct (Nat.eqb_spec (Ascii.nat_of_ascii c) 62); [decode_entity IH|].
  destruct (Nat.eqb_spec (Ascii.nat_of_ascii c) 194);
    [|rewrite decode_plain by done; f_equal; apply IH; lia].
  destruct l' as [|c2 l'']; [by rewrite decode_plain by lia|].
  destruct (Nat.eqb_spec (Ascii.nat_of_ascii c2) 160); [decode_entity IH|].
  rewrite decode_plain by lia. f_equal. apply IH. simpl in *. lia.
Qed.

(** C29 (round trip): [escapeHtml] cannot open a tag and loses nothing:
    its output has no [<] and no [>], and reading its character
    references back, as the HTML parser does in text, gives the text the
    value converts to.  In particular every [&] of the output starts one
    of the entities it wrote. *)
Theorem escapeHtml_roundtrip v :
  Forall markup_free (String.list_ascii_of_string (escapeHtml v)) /\
  decode_text (String.list_ascii_of_string (escapeHtml v)) =
    String.list_ascii_of_string (text_content v).
Proof.
  unfold escapeHtml. rewrite String.list_ascii_of_string_of_list_ascii.
  split; [exact (escape_text_markup_free_len _ _ (le_n _)) |
          exact (decode_escape_len _ _ (le_n _))].
Qed.

(** C30: [escapeHtml] returns a string with no [&], [<], [>] or lead byte
    of a no-break space unchanged; in particular a double quote passes
    through, so its output is not safe inside a quoted attribute. *)
Theorem escapeHtml_plain s :
  forallb plain_char (String.list_ascii_of_string s) = true -> escapeHtml (JV (JStr s)) = s.
Proof.
  intros H. unfold escapeHtml. rewrite text_content_str, escape_text_plain by done.
  apply String.string_of_list_ascii_of_string.
Qed.

(** A file name that closes the [download] attribute of the history
    link and opens an event handler. *)
Definition attribute_breakout : string :=
  "x.mp4" +:+ String (Ascii.ascii_of_nat 34) " onmouseover=" +:+
  String (Ascii.ascii_of_nat 34) "alert(1)".

Lemma escapeHtml_plain_witness :
  forallb plain_char (String.list_ascii_of_string attribute_breakout) = true /\
  escapeHtml (JV (JStr attribute_breakout)) = attribute_breakout.
Proof.
  assert (forallb plain_char (String.list_ascii_of_string attribute_breakout) = true) as H
    by reflexivity.
  split; [exact H | exact (escapeHtml_plain attribute_breakout H)].
Defined.

(** ** The navigation tabs *)

(** The tabs of the page, in the order of its navigation buttons. *)
Definition tab_names : list string := ["download"; "history"; "stats"].

(** The nav buttons and the tab contents are those of the page, a content
    is active exactly when its button is, and at most one button is. *)
Definition tabs_ok (u : ui) : Prop :=
  map fst (navActive u) = tab_names /\
  map fst (tabActive u) = map (fun t => t +:+ "-tab") tab_names /\
  map snd (navActive u) = map snd (tabActive u) /\
  length (List.filter snd (navActive u)) <= 1.

Lemma string_app_inj_r (a b s : string) : a +:+ s = b +:+ s -> a = b.
Proof.
  revert b. induction a as [|x a IH]; intros [|y b] H; [done| | |].
  - apply (f_equal String.length) in H. rewrite !string_length_app in H. simpl in H. lia.
  - apply (f_equal String.length) in H. rewrite !string_length_app in H. simpl in H. lia.
  - injection H as -> H. f_equal. by apply IH.
Qed.

Lemma string_eqb_app_r (a b s : string) : String.eqb (a +:+ s) (b +:+ s) = String.eqb a b.
Proof.
  destruct (String.eqb a b) eqn:E.
  - apply String.eqb_eq in E as ->. apply String.eqb_refl.
  - apply String.eqb_neq. intros H. apply string_app_inj_r in H. by apply String.eqb_neq in E.
Qed.

Lemma at_most_one_tab t :
  length (List.filter snd [("download", String.eqb "download" t);
                           ("history", String.eqb "history" t);
                           ("stats", String.eqb "stats" t)]) <= 1.
Proof.
  destruct (String.eqb_spec "download" t) as [<-|H1]; [vm_compute; lia|].
  destruct (String.eqb_spec "history" t) as [<-|H2]; [vm_compute; lia|].
  destruct (String.eqb "stats" t); simpl; lia.
Qed.

Lemma tabs_ok_switchTab t u : tabs_ok u -> tabs_ok (switchTab t u).
Proof.
  unfold tabs_ok, switchTab; cbn [navActive tabActive]. intros (Hn & Hc & _).
  destruct (navActive u) as [|[k1 b1] [|[k2 b2] [|[k3 b3] [|]]]]; try discriminate Hn.
  destruct (tabActive u) as [|[c1 d1] [|[c2 d2] [|[c3 d3] [|]]]]; try discriminate Hc.
  injection Hn as -> -> ->. injection Hc as -> -> ->.
  cbn [map fst snd]. rewrite !string_eqb_app_r. repeat split.
  exact (at_most_one_tab t).
Qed.

Lemma tabs_ok_same u u' :
  tabs_ok u -> navActive u' = navActive u -> tabActive u' = tabActive u -> tabs_ok u'.
Proof. unfold tabs_ok. by intros H -> ->. Qed.

Lemma tabs_ok_init : tabs_ok ui_init.
Proof. repeat split; simpl; lia. Qed.

(** The methods other than [switchTab] leave the tabs alone. *)
Lemma showVideoInfo_tabs v u u' :
  showVideoInfo v u = Ok u' -> navActive u' = navActive u /\ tabActive u' = tabActive u.
Proof. destruct v as [|[]]; simpl; try discriminate; by intros [= <-]. Qed.

Lemma updateProgress_tabs v u u' :
  updateProgress v u = Ok u' -> navActive u' = navActive u /\ tabActive u' = tabActive u.
Proof.
  unfold updateProgress. intros H.
  destruct (get_prop v "status") as [st|m]; simpl in H; [|discriminate].
  repeat match type of H with
         | context [if ?b then _ else _] => destruct b
         | context [get_prop ?x ?f] => destruct (get_prop x f); simpl in H; try discriminate
         end;
  by injection H as <-.
Qed.
