(* ===== verification/History.v ===== *)
(** * The history and statistics panels of [UI]
    ([src/frontend2/js/ui.js], [showHistory] and [updateStats])

    [showHistory(downloads)] writes an HTML string into the history list:
    the empty state for a falsy value or a value whose [length] is [0],
    otherwise one template per element, joined with [''].  The template is
    reproduced byte for byte; its holes are the escaped title, the kind
    icon, [formatFileSize] of the size (floating point, a section
    variable), [formatDate] of the completion date (see [Format]), the file
    address of [API.getFileUrl] and the escaped file name.

    The controller ([App]) only keeps which downloads the panel lists:
    [showHistory_items] is that abstraction, and [showHistory_refines]
    shows that the HTML is a function of it, with the same errors.
    [history_filename_injects_attribute] shows, for every list, what a
    double quote in a file name does to the [download] attribute.
    [updateStats(stats)] writes four text fields. *)

From S2P Require Import Prelude JsValue Format Config Api Ui.

(** A double quote and a line feed, the two characters of the template
    that a Rocq string literal does not hold as such. *)
Definition dq : string := String (Ascii.ascii_of_nat 34) EmptyString.
Definition nl : string := String (Ascii.ascii_of_nat 10) EmptyString.

(** [downloads.length === 0]: the [length] of an array or a string, or the
    [length] property of an object. *)
Definition length_is_zero (v : jsval) : bool :=
  match v with
  | JV (JArr l) => bool_decide (l = [])
  | JV (JStr s) => bool_decide (s = "")
  | JV (JObj fs) => match assoc_last "length" fs with JV (JNum Z0) => true | _ => false end
  | _ => false
  end.

(** What [showHistory] lists: nothing (the empty state), or the elements
    of an array, each of which it reads ([download.title] throws on
    [null]); anything else has no [map] method. *)
Definition showHistory_items (downloads : jsval) : res (list jval) :=
  if negb (truthy downloads) || length_is_zero downloads then Ok []
  else match downloads with
       | JV (JArr l) =>
           if existsb (fun d => match d with JNull => true | _ => false end) l
           then Throw (type_error_reading "null" "title")
           else Ok l
       | _ => Throw "downloads.map is not a function"
       end.

Section History.
Context (cfg : config).
(** [UI.formatFileSize]: floating-point arithmetic, not modelled. *)
Context (formatFileSize : jsval -> string).
(** The clock, date parser and locale of [formatDate]. *)
Context (now : Z) (date_parse : string -> option Z) (locale_date : Z -> string).

Definition empty_state : string :=
  nl +:+ "                <div class=" +:+ dq +:+ "empty-state" +:+ dq +:+ ">" +:+ nl +:+
  "                    <div class=" +:+ dq +:+ "empty-icon" +:+ dq +:+ ">📭</div>" +:+ nl +:+
  "                    <p class=" +:+ dq +:+ "empty-text" +:+ dq +:+
  ">No downloads yet</p>" +:+ nl +:+ "                </div>" +:+ nl +:+ "            ".

(** The template of one download. *)
Definition history_item (download : jval) : res string :=
  title ← get_prop (JV download) "title";
  type_ ← get_prop (JV download) "type";
  filesize ← get_prop (JV download) "filesize";
  completed_at ← get_prop (JV download) "completed_at";
  download_id ← get_prop (JV download) "download_id";
  filename ← get_prop (JV download) "filename";
  Ok (
  nl +:+ "            <div class=" +:+ dq +:+ "history-item" +:+ dq +:+ ">" +:+ nl +:+
  "                <div class=" +:+ dq +:+ "history-info" +:+ dq +:+ ">" +:+ nl +:+
  "                    <div class=" +:+ dq +:+ "history-title" +:+ dq +:+ ">" +:+
  (escapeHtml title) +:+ "</div>" +:+ nl +:+ "                    <div class=" +:+ dq +:+
  "history-meta" +:+ dq +:+ ">" +:+ nl +:+ "                        <span>" +:+
  (if is_str "video" type_ then "🎥 Video" else "🎵 Audio") +:+ "</span>" +:+ nl +:+
  "                        <span class=" +:+ dq +:+ "separator" +:+ dq +:+ ">•</span>" +:+
  nl +:+ "                        <span>" +:+ (formatFileSize filesize) +:+ "</span>" +:+
  nl +:+ "                        <span class=" +:+ dq +:+ "separator" +:+ dq +:+
  ">•</span>" +:+ nl +:+ "                        <span>" +:+
  (formatDate now date_parse locale_date completed_at) +:+ "</span>" +:+ nl +:+
  "                    </div>" +:+ nl +:+ "                </div>" +:+ nl +:+
  "                <div class=" +:+ dq +:+ "history-actions" +:+ dq +:+ ">" +:+ nl +:+
  "                    <a href=" +:+ dq +:+ (getFileUrl cfg download_id) +:+ dq +:+ " " +:+
  nl +:+ "                       class=" +:+ dq +:+ "btn btn-primary btn-sm" +:+ dq +:+ " " +:+
  nl +:+ "                       download=" +:+ dq +:+ (escapeHtml filename) +:+ dq +:+ ">" +:+
  nl +:+ "                        <span class=" +:+ dq +:+ "btn-icon" +:+ dq +:+
  ">💾</span>" +:+ nl +:+ "                        Download" +:+ nl +:+
  "                    </a>" +:+ nl +:+ "                </div>" +:+ nl +:+
  "            </div>" +:+ nl +:+ "        ").

(** [downloads.map(...).join('')] *)
Fixpoint history_items_html (l : list jval) : res string :=
  match l with
  | [] => Ok ""
  | d :: l' => h ← history_item d; t ← history_items_html l'; Ok (h +:+ t)
  end.

(** [UI.showHistory(downloads)]: the new content of the history list. *)
Definition showHistory (downloads : jsval) : res string :=
  if negb (truthy downloads) || length_is_zero downloads then Ok empty_state
  else match downloads with
       | JV (JArr l) => history_items_html l
       | _ => Throw "downloads.map is not a function"
       end.

(** The page for a list of downloads the controller keeps. *)
Definition render_history (l : list jval) : res string :=
  match l with [] => Ok empty_state | _ => history_items_html l end.

End History.

(** ** [UI.updateStats(stats)] *)
Record stats_view : Type := mkStatsView {
  statTotalFiles : string; statStorage : string; statActive : string; statCompleted : string }.

Definition updateStats (stats : jsval) : res stats_view :=
  total_files ← get_prop stats "total_files";
  total_size_mb ← get_prop stats "total_size_mb";
  active_downloads ← get_prop stats "active_downloads";
  completed_downloads ← get_prop stats "completed_downloads";
  Ok (mkStatsView (text_content total_files) (to_string total_size_mb +:+ " MB")
        (text_content active_downloads) (text_content completed_downloads)).

(** ** Lemmas *)

Definition is_null (d : jval) : bool := match d with JNull => true | _ => false end.

Lemma history_item_null cfg fs now dp ld :
  history_item cfg fs now dp ld JNull = Throw (type_error_reading "null" "title").
Proof. reflexivity. Qed.

Lemma history_item_ok cfg fs now dp ld d :
  is_null d = false -> exists h, history_item cfg fs now dp ld d = Ok h.
Proof. destruct d; simpl; try discriminate; intros _; eexists; reflexivity. Qed.

(** The join stops at the first [null] element, with the same error
    whichever it is; without one it succeeds. *)
Lemma history_items_html_spec cfg fs now dp ld l :
  existsb is_null l = true ->
  history_items_html cfg fs now dp ld l = Throw (type_error_reading "null" "title").
Proof.
  induction l as [|d l IH]; simpl; [discriminate|].
  destruct (is_null d) eqn:Hd; simpl.
  - by destruct d.
  - intros Hl. destruct (history_item_ok cfg fs now dp ld d Hd) as [h ->]. simpl.
    by rewrite IH.
Qed.

(** ** Theorems *)

(** The HTML [UI.showHistory] writes is a function of
    the list of downloads the controller keeps ([showHistory_items]), and
    both throw the same error: the empty state for an empty list, the
    joined templates otherwise. *)
Theorem showHistory_refines cfg fs now dp ld downloads :
  showHistory cfg fs now dp ld downloads =
    (l ← showHistory_items downloads; render_history cfg fs now dp ld l).
Proof.
  unfold showHistory, showHistory_items.
  destruct (negb (truthy downloads) || length_is_zero downloads) eqn:E; [done|].
  destruct downloads as [|[| | | |l|]]; try done.
  destruct (existsb is_null l) eqn:Hn.
  - change (existsb (fun d => match d with JNull => true | _ => false end) l) with
      (existsb is_null l). rewrite Hn. simpl. by apply history_items_html_spec.
  - change (existsb (fun d => match d with JNull => true | _ => false end) l) with
      (existsb is_null l). rewrite Hn. simpl.
    destruct l; [vm_compute in E; discriminate | done].
Qed.

(** ** A double quote in a file name *)

(** The [download] attribute of a link whose file name is [a], a double
    quote and [b], followed by [post]: the attribute value ends after [a]
    and [b] stands in the tag as markup. *)
Definition download_attr (a b post : string) : string :=
  "download=" +:+ dq +:+ a +:+ dq +:+ b +:+ dq +:+ ">" +:+ post.

Lemma sub_skip (T : string -> string) x rest :
  (exists pre post, rest = pre +:+ T post) -> exists pre post, x +:+ rest = pre +:+ T post.
Proof. intros (pre & post & ->). exists (x +:+ pre), post. by rewrite string_app_assoc. Qed.

Lemma sub_download_attr a b R :
  exists pre post,
    "                       download=" +:+ (dq +:+ (a +:+ (dq +:+ (b +:+ (dq +:+ (">" +:+ R)))))) =
    pre +:+ download_attr a b post.
Proof.
  exists "                       ", R. reflexivity.
Qed.

Lemma escapeHtml_plain_str s :
  forallb plain_char (String.list_ascii_of_string s) = true -> escapeHtml (JV (JStr s)) = s.
Proof.
  intros H. unfold escapeHtml. rewrite text_content_str, escape_text_plain by done.
  apply String.string_of_list_ascii_of_string.
Qed.

(** The joined templates contain the template of every element. *)
Lemma history_items_html_in cfg fs now dp ld l d html :
  In d l -> history_items_html cfg fs now dp ld l = Ok html ->
  exists h pre post, history_item cfg fs now dp ld d = Ok h /\ html = pre +:+ h +:+ post.
Proof.
  revert html. induction l as [|d' l IH]; intros html Hin; [done|]. simpl.
  destruct (history_item cfg fs now dp ld d') as [h|m] eqn:Eh; simpl; [|discriminate].
  destruct (history_items_html cfg fs now dp ld l) as [t|m] eqn:Et; simpl; [|discriminate].
  intros [= <-]. destruct Hin as [->|Hin].
  - exists h, "", t. split; [done | reflexivity].
  - destruct (IH t Hin eq_refl) as (h' & pre & post & Hh' & ->).
    exists h', (h +:+ pre), post. split; [done|]. by rewrite !string_app_assoc.
Qed.

(** C40 (the [download] attribute is injectable): for every list of
    downloads [UI.showHistory] renders and every entry of it whose file
    name is [a], a double quote and [b] (no [&], [<], [>] or no-break
    space in them), whatever its other fields, the HTML holds
    [download="a"] followed by [b] inside the tag: [escapeHtml] leaves the
    quote, which ends the attribute, and the rest of the name becomes
    markup of the link. *)
Theorem history_filename_injects_attribute cfg fs now dp ld l flds a b html :
  showHistory cfg fs now dp ld (JV (JArr l)) = Ok html -> In (JObj flds) l ->
  assoc_last "filename" flds = JV (JStr (a +:+ dq +:+ b)) ->
  forallb plain_char (String.list_ascii_of_string (a +:+ dq +:+ b)) = true ->
  exists pre post, html = pre +:+ download_attr a b post.
Proof.
  intros Hs Hin Hf Hp. unfold showHistory in Hs.
  assert (length_is_zero (JV (JArr l)) = false) as Hz
    by (simpl; apply bool_decide_eq_false; intros ->; done).
  rewrite Hz in Hs. simpl in Hs.
  destruct (history_items_html_in cfg fs now dp ld l _ html Hin Hs) as (h & pre & post & Hh & ->).
  unfold history_item in Hh. rewrite !get_prop_obj in Hh. simpl in Hh. injection Hh as <-.
  rewrite Hf, escapeHtml_plain_str by done.
  rewrite !string_app_assoc.
  repeat first [apply sub_download_attr | apply sub_skip].
Qed.

Lemma history_filename_injects_attribute_witness :
  exists html,
    showHistory CONFIG_local (fun _ => "0 B") 0%Z (fun _ => None) (fun _ => "")
      (JV (JArr [JObj [("title", JStr "t"); ("filename", JStr attribute_breakout)]])) = Ok html /\
    exists pre post, html = pre +:+ download_attr "x.mp4" (" onmouseover=" +:+ dq +:+ "alert(1)") post.
Proof.
  eexists. split; [reflexivity|].
  apply (history_filename_injects_attribute CONFIG_local (fun _ => "0 B") 0%Z (fun _ => None)
           (fun _ => "") [JObj [("title", JStr "t"); ("filename", JStr attribute_breakout)]]
           [("title", JStr "t"); ("filename", JStr attribute_breakout)]);
    [reflexivity | left; reflexivity | reflexivity | reflexivity].
Defined.
