(* ===== verification/App.v ===== *)
(** * The controller: the [App] object of [src/unnamed/part_001]

    A [world] is everything the program's behaviour depends on: [App.state],
    the heap of [ProgressTracker] objects the controller has created (an old
    tracker stays alive as long as a request or a timer can still reach it),
    the browser runtime (timers and requests in flight), and the DOM.

    Each listener of [setupEventListeners] and each [await] continuation of
    an [async] method is a function on worlds; [step] dispatches an event to
    the code that runs for it, to completion.  Every [async] method is split
    at its [await]: the part before issues a request tagged with the
    continuation ([Runtime.cont]); the part after runs when the request
    settles ([ESettle]), with its [try]/[catch]/[finally] written out.  The
    tracker callbacks are the closures of [trackProgress]: they read
    [App.state] when they run, and they run inside the [try] of
    [checkProgress], so an error they throw reaches its [catch]. *)

From S2P Require Import Prelude JsValue Config Api Runtime Tracker Ui History.

Record app_state : Type := mkAppState {
  currentUrl : string;
  currentDownloadType : string;
  currentQuality : string;
  currentDownloadId : jsval;
  progressTracker : option nat;   (* the tracker object it references, or null *)
  videoInfo : jsval }.

Record world : Type := mkWorld {
  st : app_state;
  trackers : gmap nat tracker;
  next_tracker : nat;
  rt : runtime;
  dom : ui;
  historyList : list jval;        (* the downloads the history tab renders *)
  statsShown : option stats_view }. (* the statistics panel, once [updateStats] wrote it *)

Definition set_st (f : app_state -> app_state) (w : world) : world :=
  mkWorld (f (st w)) (trackers w) (next_tracker w) (rt w) (dom w) (historyList w) (statsShown w).
Definition set_dom (f : ui -> ui) (w : world) : world :=
  mkWorld (st w) (trackers w) (next_tracker w) (rt w) (f (dom w)) (historyList w) (statsShown w).
Definition set_rt (f : runtime -> runtime) (w : world) : world :=
  mkWorld (st w) (trackers w) (next_tracker w) (f (rt w)) (dom w) (historyList w) (statsShown w).
Definition set_tracker (tid : nat) (tr : tracker) (w : world) : world :=
  mkWorld (st w) (<[tid := tr]> (trackers w)) (next_tracker w) (rt w) (dom w)
          (historyList w) (statsShown w).

Definition with_currentUrl u (s : app_state) : app_state :=
  mkAppState u (currentDownloadType s) (currentQuality s) (currentDownloadId s)
             (progressTracker s) (videoInfo s).
Definition with_currentDownloadType t (s : app_state) : app_state :=
  mkAppState (currentUrl s) t (currentQuality s) (currentDownloadId s)
             (progressTracker s) (videoInfo s).
Definition with_currentQuality q (s : app_state) : app_state :=
  mkAppState (currentUrl s) (currentDownloadType s) q (currentDownloadId s)
             (progressTracker s) (videoInfo s).
Definition with_currentDownloadId d (s : app_state) : app_state :=
  mkAppState (currentUrl s) (currentDownloadType s) (currentQuality s) d
             (progressTracker s) (videoInfo s).
Definition with_progressTracker p (s : app_state) : app_state :=
  mkAppState (currentUrl s) (currentDownloadType s) (currentQuality s)
             (currentDownloadId s) p (videoInfo s).
Definition with_videoInfo v (s : app_state) : app_state :=
  mkAppState (currentUrl s) (currentDownloadType s) (currentQuality s)
             (currentDownloadId s) (progressTracker s) v.

(** The events of the page: the user's actions, a timer firing, a request
    settling with the network's answer. *)
Inductive event : Type :=
| ETypeUrl (s : string)          (* the user edits the URL input *)
| EPaste (s : string)            (* the user pastes; the input then holds [s] *)
| EFetchInfo                     (* "Get Info" click, or Enter in the input *)
| ESelectType (t : string)       (* a download-type button *)
| ESelectQuality (q : string)    (* the quality selector *)
| EDownload                      (* "Download" *)
| ENewDownload                   (* "New download" *)
| ERetry                         (* "Retry" *)
| EDownloadFile                  (* the file link *)
| ETab (tab : string)            (* a navigation button *)
| ERefreshHistory
| ERefreshStats
| ECleanup (confirmed : bool)    (* "Cleanup" and the answer to confirm() *)
| EFire (h : nat)
| ESettle (n : nat) (x : exchange).

(** The methods and listeners of the [App] object. *)
Module App.
Section App.
Context (cfg : config) (url_parses : string -> bool).

Definition app_state_init : app_state :=
  mkAppState "" (DOWNLOAD_TYPES_VIDEO cfg) (DEFAULT_VIDEO_QUALITY cfg) (JV JNull) None (JV JNull).

(** A request issued by the code, resuming at [k]. *)
Definition call (rq : request) (k : cont) (w : world) : world :=
  set_rt (fun rt => issue rt rq k) w.

(** [loadHistory()], [loadStats()], [checkServerHealth()]: the part before
    the [await]. *)
Definition loadHistory (w : world) : world := call (getDownloads cfg) KHistory w.
Definition loadStats (w : world) : world := call (getStats cfg) KStats w.
Definition checkServerHealth (w : world) : world := call (healthCheck cfg) KHealth w.

(** [init()]: health check, then history and statistics. *)
Definition init (w : world) : world := loadStats (loadHistory (checkServerHealth w)).

Definition world_init : world :=
  init (mkWorld app_state_init ∅ 0 rt_init ui_init [] None).

(** [fetchVideoInfo()] up to its [await]. *)
Definition fetchVideoInfo (w : world) : world :=
  let url := trim (urlInput (dom w)) in
  if String.eqb url "" then set_dom (showToast "Please enter a URL") w
  else if negb (isValidUrl cfg url_parses url) then set_dom (showToast "Please enter a valid URL") w
  else
    call (getVideoInfo cfg url) KFetchInfo
      (set_dom (setLoading true) (set_st (with_currentUrl url) w)).

(** The [catch] blocks of [fetchVideoInfo] and [startDownload]. *)
Definition report_error (m : string) (w : world) : world :=
  set_dom (fun d => showError (JV (JStr m)) (showToast ("Error: " +:+ m) d)) w.

(** [fetchVideoInfo()] after its [await], with [finally]. *)
Definition fetchVideoInfo_resume (r : res jval) (w : world) : world :=
  let w1 :=
    match r with
    | Throw m => report_error m w
    | Ok info =>
        let w' := set_st (with_videoInfo (JV info)) w in
        match showVideoInfo (JV info) (dom w') with
        | Ok d => set_dom (fun _ => showToast "Video info loaded successfully!" d) w'
        | Throw m => report_error m w'
        end
    end in
  set_dom (setLoading false) w1.

(** [startDownload()] up to its [await]. *)
Definition startDownload (w : world) : world :=
  if String.eqb (currentUrl (st w)) "" then set_dom (showToast "Please fetch video info first") w
  else
    call (API.startDownload cfg (currentUrl (st w)) (currentDownloadType (st w))
            (currentQuality (st w))) KStartDownload
      (set_dom (setLoading true) w).

(** [trackProgress()]: stop the referenced tracker, create a tracker for
    [currentDownloadId], reference it and start it. *)
Definition stop_tracker (tid : nat) (w : world) : world :=
  match trackers w !! tid with
  | Some tr => let '(tr', rt') := stop tr (rt w) in set_rt (fun _ => rt') (set_tracker tid tr' w)
  | None => w
  end.

Definition trackProgress (w : world) : world :=
  let w1 := match progressTracker (st w) with Some tid => stop_tracker tid w | None => w end in
  let tid := next_tracker w1 in
  let tr0 := new_tracker (currentDownloadId (st w1)) in
  let '(tr1, rt1) := start cfg tid tr0 (rt w1) in
  mkWorld (with_progressTracker (Some tid) (st w1)) (<[tid := tr1]> (trackers w1)) (S tid)
          rt1 (dom w1) (historyList w1) (statsShown w1).

(** [startDownload()] after its [await], with [finally]. *)
Definition startDownload_resume (r : res jval) (w : world) : world :=
  let w1 :=
    match r ≫= fun response => get_prop (JV response) "download_id" with
    | Throw m => report_error m w
    | Ok id =>
        trackProgress
          (set_dom (fun d => showToast "Download started!" (showProgress d))
             (set_st (with_currentDownloadId id) w))
    end in
  set_dom (setLoading false) w1.

(** The three closures [trackProgress] hands to the tracker. *)
Definition onUpdate (progress : jval) (w : world) : res world :=
  d ← updateProgress (JV progress) (dom w);
  Ok (set_dom (fun _ => d) w).

Definition onComplete (progress : jval) (w : world) : res world :=
  filename ← get_prop (JV progress) "filename";
  Ok (loadHistory
        (set_dom (fun d => showToast "✅ Download complete!"
                             (showSuccess cfg (currentDownloadId (st w)) filename d)) w)).

Definition onError (error : jsval) (w : world) : world :=
  set_dom (fun d => showToast ("❌ Download failed: " +:+ to_string error) (showError error d)) w.

(** The [catch] of [checkProgress] reached by an error thrown inside a
    callback: [this.stop(); this.onError(error.message)]. *)
Definition poll_catch (tid : nat) (m : string) (w : world) : world :=
  onError (JV (JStr m)) (stop_tracker tid w).

(** [checkProgress()] of tracker [tid] after its [await]. *)
Definition checkProgress_resume_app (tid : nat) (r : res jval) (w : world) : world :=
  match trackers w !! tid with
  | None => w
  | Some tr =>
      let '(tr', rt', s) := checkProgress_resume tr (rt w) r in
      let w1 := set_rt (fun _ => rt') (set_tracker tid tr' w) in
      match s with
      | SigUpdate p => match onUpdate p w1 with Ok w2 => w2 | Throw m => poll_catch tid m w1 end
      | SigComplete p => match onComplete p w1 with Ok w2 => w2 | Throw m => poll_catch tid m w1 end
      | SigError e => onError e w1
      end
  end.

(** [loadHistory()] after its [await]: [UI.showHistory(response.downloads)]
    (see [History]: the controller keeps the downloads it lists); a throw
    shows a toast. *)
Definition loadHistory_resume (r : res jval) (w : world) : world :=
  match (response ← r; downloads ← get_prop (JV response) "downloads"; showHistory_items downloads) with
  | Ok l => mkWorld (st w) (trackers w) (next_tracker w) (rt w) (dom w) l (statsShown w)
  | Throw _ => set_dom (showToast "Failed to load history") w
  end.

(** [loadStats()] after its [await]: [UI.updateStats(stats)] reads four
    fields of [stats], which throws on [null]. *)
Definition loadStats_resume (r : res jval) (w : world) : world :=
  match (stats ← r; updateStats (JV stats)) with
  | Ok v => mkWorld (st w) (trackers w) (next_tracker w) (rt w) (dom w) (historyList w) (Some v)
  | Throw _ => set_dom (showToast "Failed to load statistics") w
  end.

(** [manualCleanup()] up to its [await] (after [confirm]). *)
Definition manualCleanup (confirmed : bool) (w : world) : world :=
  if negb confirmed then w
  else call (cleanup cfg JUndef) KCleanup (set_dom (setLoading true) w).

(** [manualCleanup()] after its [await], with [finally]. *)
Definition manualCleanup_resume (r : res jval) (w : world) : world :=
  let w1 :=
    match r ≫= fun response => get_prop (JV response) "deleted" with
    | Ok deleted =>
        loadHistory (loadStats
          (set_dom (showToast ("Cleanup complete! Deleted " +:+ to_string deleted +:+ " files.")) w))
    | Throw m => set_dom (showToast ("Cleanup failed: " +:+ m)) w
    end in
  set_dom (setLoading false) w1.

(** [checkServerHealth()] after its [await]. *)
Definition checkServerHealth_resume (r : res jval) (w : world) : world :=
  match r with
  | Ok _ => w
  | Throw _ =>
      set_dom (showToast "⚠️ Cannot connect to server. Please check if backend is running.") w
  end.

(** The retry button: [UI.hideAllSections()], then the video info again
    when [App.state.videoInfo] is truthy, else the reset form.  An error
    thrown by a listener leaves the effects made before it. *)
Definition retry (w : world) : world :=
  let w1 := set_dom hideAllSections w in
  if truthy (videoInfo (st w1)) then
    match showVideoInfo (videoInfo (st w1)) (dom w1) with
    | Ok d => set_dom (fun _ => d) w1
    | Throw _ => w1
    end
  else set_dom resetDownloadUI w1.

(** A request settles: it leaves the table and its continuation runs. *)
Definition settle_request (n : nat) (x : exchange) (w : world) : world :=
  match rt_pending (rt w) !! n with
  | None => w
  | Some (_, k) =>
      let w1 := set_rt (fun rt => settle rt n) w in
      let r := read_response x in
      match k with
      | KFetchInfo => fetchVideoInfo_resume r w1
      | KStartDownload => startDownload_resume r w1
      | KPoll tid => checkProgress_resume_app tid r w1
      | KHistory => loadHistory_resume r w1
      | KStats => loadStats_resume r w1
      | KCleanup => manualCleanup_resume r w1
      | KHealth => checkServerHealth_resume r w1
      end
  end.

(** An interval timer fires: [this.checkProgress()] of its tracker. *)
(** The delayed callback of the paste listener. *)
Definition paste_check (w : world) : world :=
  let url := trim (urlInput (dom w)) in
  if negb (String.eqb url "") && isValidUrl cfg url_parses url
  then set_dom (showToast ("URL detected! Click " +:+ dq +:+ "Get Info" +:+ dq +:+
                           " to continue.")) w
  else w.

(** A timer fires: an interval runs its tracker's [checkProgress]; a
    one-shot timer runs the paste check and leaves the table. *)
Definition fire (h : nat) (w : world) : world :=
  match rt_timers (rt w) !! h with
  | None =>
      match rt_timeouts (rt w) !! h with
      | Some _ => paste_check (set_rt (fun rt => timeout_fired rt h) w)
      | None => w
      end
  | Some tid =>
      match trackers w !! tid with
      | Some tr => set_rt (checkProgress_issue cfg tid tr) w
      | None => w
      end
  end.

(** The value of the URL input set by the user. *)
Definition type_url (s : string) (w : world) : world :=
  set_dom (fun d => mkUi (loadingHidden d) (toasts d) (videoInfoHidden d) (videoThumbnail d)
      (videoTitle d) (videoUploader d) (qualityGroupHidden d) (progressHidden d)
      (progressStatus d) (progressPercent d) (progressSpeed d) (progressEta d)
      (progressDownloaded d) (successHidden d) (fileHref d) (fileDownload d)
      (errorHidden d) (errorMessage d) s (videoViews d) (videoDuration d)
    (navActive d) (tabActive d)) w.

(** The paste listener schedules its check ([setTimeout(..., 100)]); the
    browser then inserts the pasted text. *)
Definition paste (s : string) (w : world) : world :=
  type_url s (set_rt (fun rt => (setTimeout rt).2) w).

(** One event, run to completion. *)
Definition step (w : world) (e : event) : world :=
  match e with
  | ETypeUrl s => type_url s w
  | EPaste s => paste s w
  | EFetchInfo => fetchVideoInfo w
  | ESelectType t => set_dom (setDownloadType cfg t) (set_st (with_currentDownloadType t) w)
  | ESelectQuality q => set_st (with_currentQuality q) w
  | EDownload => startDownload w
  | ENewDownload => set_dom (fun d => switchTab "download" (resetDownloadUI d)) w
  | ERetry => retry w
  | EDownloadFile => set_dom (showToast "Download started in your browser!") w
  | ETab t =>
      let w1 := set_dom (switchTab t) w in
      if String.eqb t "history" then loadHistory w1
      else if String.eqb t "stats" then loadStats w1
      else w1
  | ERefreshHistory => loadHistory w
  | ERefreshStats => loadStats w
  | ECleanup c => manualCleanup c w
  | EFire h => fire h w
  | ESettle n x => settle_request n x w
  end.

Fixpoint run (w : world) (es : list event) : world :=
  match es with [] => w | e :: es' => run (step w e) es' end.

Inductive reachable : world -> Prop :=
| reach_init : reachable world_init
| reach_step w e : reachable w -> reachable (step w e).

End App.
End App.
Export App.

(** ** The controller invariant
    The runtime is well formed, tracker identifiers are below their
    counter, every tracker object is well formed against the runtime, every
    timer runs a tracker of the heap, only the tracker [App.state]
    references can be tracking, and that reference points into the heap. *)
Record app_inv (w : world) : Prop := {
  inv_rt : rt_wf (rt w);
  inv_keys : keys_below (trackers w) (next_tracker w);
  inv_wf : forall tid tr, trackers w !! tid = Some tr -> tracker_wf tid tr (rt w);
  inv_timer_owner : forall h tid, rt_timers (rt w) !! h = Some tid -> is_Some (trackers w !! tid);
  inv_tracking_current : forall tid tr, trackers w !! tid = Some tr ->
    isTracking tr = true -> progressTracker (st w) = Some tid;
  inv_current_exists : forall tid, progressTracker (st w) = Some tid -> is_Some (trackers w !! tid) }.

Create HintDb app discriminated.

(** A world that differs only outside the trackers, their timers and the
    reference keeps the invariant. *)
Lemma inv_frame w w' :
  app_inv w -> trackers w' = trackers w -> next_tracker w' = next_tracker w ->
  progressTracker (st w') = progressTracker (st w) ->
  rt_timers (rt w') = rt_timers (rt w) -> rt_wf (rt w') -> app_inv w'.
Proof.
  intros [] Htr Hn Hp Ht Hrt. split; rewrite ?Htr, ?Hn, ?Hp, ?Ht; try done.
  intros tid tr Hl. apply (tracker_wf_same_timers tid tr (rt w)); auto.
Qed.

Lemma inv_set_dom f w : app_inv w -> app_inv (set_dom f w).
Proof. intros H. by eapply inv_frame; eauto; apply H. Qed.

Lemma inv_call rq k w : app_inv w -> app_inv (call rq k w).
Proof. intros H. eapply inv_frame; eauto. apply rt_wf_issue, H. Qed.

Lemma inv_settle n w : app_inv w -> app_inv (set_rt (fun rt => settle rt n) w).
Proof. intros H. eapply inv_frame; eauto. apply rt_wf_settle, H. Qed.

Lemma inv_set_st f w :
  app_inv w -> progressTracker (f (st w)) = progressTracker (st w) -> app_inv (set_st f w).
Proof. intros H Hp. by eapply inv_frame; eauto; apply H. Qed.

#[export] Hint Resolve inv_set_dom inv_call inv_settle : app.

(** Replacing one tracker object of the heap and the runtime by the result
    of one of its own operations keeps the invariant. *)
Lemma inv_update_tracker w tid tr tr' rt' :
  app_inv w -> trackers w !! tid = Some tr ->
  rt_wf rt' -> tracker_wf tid tr' rt' ->
  (forall t tr'', t <> tid -> tracker_wf t tr'' (rt w) -> tracker_wf t tr'' rt') ->
  (forall h t, rt_timers rt' !! h = Some t -> rt_timers (rt w) !! h = Some t) ->
  (isTracking tr' = true -> isTracking tr = true) ->
  app_inv (set_rt (fun _ => rt') (set_tracker tid tr' w)).
Proof.
  intros [] Hl Hrt Hwf Hother Hsub Htrk. split; simpl; auto.
  - apply keys_below_insert_lt; [done|]. by apply (inv_keys0 tid tr).
  - intros t tr'' Ht. destruct (decide (t = tid)) as [->|Hne].
    + rewrite lookup_insert_eq in Ht. by injection Ht as <-.
    + rewrite lookup_insert_ne in Ht by congruence. eauto.
  - intros h t Ht%Hsub%inv_timer_owner0. destruct (decide (t = tid)) as [->|Hne].
    + by rewrite lookup_insert_eq.
    + by rewrite lookup_insert_ne by congruence.
  - intros t tr'' Ht Htr. destruct (decide (t = tid)) as [->|Hne].
    + rewrite lookup_insert_eq in Ht. injection Ht as <-. eauto.
    + rewrite lookup_insert_ne in Ht by congruence. eauto.
  - intros t Ht%inv_current_exists0. destruct (decide (t = tid)) as [->|Hne].
    + by rewrite lookup_insert_eq.
    + by rewrite lookup_insert_ne by congruence.
Qed.

Lemma inv_stop_tracker tid w : app_inv w -> app_inv (stop_tracker tid w).
Proof.
  intros Hinv. unfold stop_tracker.
  destruct (trackers w !! tid) as [tr|] eqn:Hl; [|done].
  pose proof (inv_wf _ Hinv tid tr Hl) as Hwf.
  pose proof (stop_wf tid tr (rt w) Hwf) as Hwf'.
  pose proof (rt_wf_stop tr (rt w) (inv_rt _ Hinv)) as Hrt.
  pose proof (stop_timers_sub tr (rt w)) as Hsub.
  pose proof (fun t tr'' Hne Hwf'' => tracker_wf_other_stop tid tr (rt w) t tr'' Hwf Hwf'' (not_eq_sym Hne))
    as Hother.
  destruct (stop tr (rt w)) as [tr' rt'] eqn:Es.
  eapply inv_update_tracker; eauto.
  unfold stop in Es. by injection Es as <- _.
Qed.

Lemma inv_resume_update tid tr r w :
  app_inv w -> trackers w !! tid = Some tr ->
  app_inv (set_rt (fun _ => (checkProgress_resume tr (rt w) r).1.2)
             (set_tracker tid (checkProgress_resume tr (rt w) r).1.1 w)).
Proof.
  intros Hinv Hl. pose proof (inv_wf _ Hinv tid tr Hl) as Hwf.
  eapply inv_update_tracker; eauto.
  - apply rt_wf_resume, Hinv.
  - by apply resume_wf.
  - intros t tr'' Hne Hwf''. eapply tracker_wf_other_resume; eauto.
  - apply resume_timers_sub.
  - apply resume_tracking.
Qed.

#[export] Hint Resolve inv_stop_tracker : app.

Lemma stop_tracker_st tid w : st (stop_tracker tid w) = st w.
Proof. unfold stop_tracker. destruct (trackers w !! tid); [|done]. by destruct (stop _ _). Qed.

Lemma stop_tracker_next tid w : next_tracker (stop_tracker tid w) = next_tracker w.
Proof. unfold stop_tracker. destruct (trackers w !! tid); [|done]. by destruct (stop _ _). Qed.

Lemma stop_tracker_stopped tid w tr :
  trackers (stop_tracker tid w) !! tid = Some tr -> isTracking tr = false.
Proof.
  unfold stop_tracker. destruct (trackers w !! tid) as [tr0|] eqn:Hl; [|by rewrite Hl].
  destruct (stop tr0 (rt w)) as [tr' rt'] eqn:Es. simpl.
  rewrite lookup_insert_eq. intros [= <-]. unfold stop in Es. by injection Es as <- _.
Qed.

(** After [trackProgress] has stopped the referenced tracker, no tracker of
    the heap is tracking. *)
Lemma stop_current_quiet w :
  app_inv w ->
  let w1 := match progressTracker (st w) with Some tid => stop_tracker tid w | None => w end in
  app_inv w1 /\ st w1 = st w /\ next_tracker w1 = next_tracker w /\
  (forall t tr, trackers w1 !! t = Some tr -> isTracking tr = false).
Proof.
  intros Hinv. destruct (progressTracker (st w)) as [c|] eqn:Hc; simpl.
  - split; [by apply inv_stop_tracker|]. rewrite stop_tracker_st, stop_tracker_next.
    split; [done|]. split; [done|]. intros t tr Ht.
    destruct (isTracking tr) eqn:Htr; [|done].
    pose proof (inv_tracking_current _ (inv_stop_tracker c w Hinv) t tr Ht Htr) as Hp.
    rewrite stop_tracker_st, Hc in Hp. injection Hp as ->.
    apply stop_tracker_stopped in Ht. congruence.
  - do 3 (split; [done|]). intros t tr Ht.
    destruct (isTracking tr) eqn:Htr; [|done].
    pose proof (inv_tracking_current _ Hinv t tr Ht Htr). congruence.
Qed.

Lemma inv_trackProgress cfg w : app_inv w -> app_inv (trackProgress cfg w).
Proof.
  intros Hinv. unfold trackProgress.
  destruct (stop_current_quiet w Hinv) as (Hinv1 & _ & _ & Hquiet).
  set (w1 := match progressTracker (st w) with Some tid => stop_tracker tid w | None => w end)
    in *.
  set (n := next_tracker w1).
  assert (trackers w1 !! n = None) as Hfresh by (apply keys_below_fresh, Hinv1).
  assert (tracker_wf n (new_tracker (currentDownloadId (st w1))) (rt w1)) as Hwf0.
  { apply tracker_wf_new. intros h Hh. apply (inv_timer_owner _ Hinv1) in Hh.
    rewrite Hfresh in Hh. by destruct Hh. }
  pose proof (start_wf cfg n _ _ (inv_rt _ Hinv1) Hwf0) as Hwf1.
  pose proof (rt_wf_start cfg n (new_tracker (currentDownloadId (st w1))) _ (inv_rt _ Hinv1))
    as Hrt1.
  pose proof (start_timers cfg n (new_tracker (currentDownloadId (st w1))) (rt w1)) as Htim.
  assert (forall t tr, trackers w1 !! t = Some tr ->
            tracker_wf t tr (start cfg n (new_tracker (currentDownloadId (st w1))) (rt w1)).2)
    as Hother.
  { intros t tr Ht. apply tracker_wf_other_start; [apply Hinv1 | by apply (inv_wf _ Hinv1) |].
    intros ->. congruence. }
  destruct (start cfg n _ (rt w1)) as [tr1 rt1]. simpl in *.
  split; simpl.
  - done.
  - apply keys_below_insert, Hinv1.
  - intros t tr Ht. destruct (decide (t = n)) as [->|Hne].
    + rewrite lookup_insert_eq in Ht. by injection Ht as <-.
    + rewrite lookup_insert_ne in Ht by congruence. eauto.
  - intros h t Ht. destruct (decide (t = n)) as [->|Hne]; [by rewrite lookup_insert_eq|].
    rewrite lookup_insert_ne by congruence.
    destruct (Htim h t Ht) as [->|Ht']; [done|]. by apply (inv_timer_owner _ Hinv1 h).
  - intros t tr Ht Htr. destruct (decide (t = n)) as [->|Hne]; [done|].
    rewrite lookup_insert_ne in Ht by congruence. rewrite (Hquiet t tr Ht) in Htr. discriminate.
  - intros t [= <-]. by rewrite lookup_insert_eq.
Qed.

Lemma inv_mkWorld_history w l : app_inv w ->
  app_inv (mkWorld (st w) (trackers w) (next_tracker w) (rt w) (dom w) l (statsShown w)).
Proof. intros H. eapply inv_frame; eauto. apply H. Qed.

Lemma inv_mkWorld_stats w s : app_inv w ->
  app_inv (mkWorld (st w) (trackers w) (next_tracker w) (rt w) (dom w) (historyList w) s).
Proof. intros H. eapply inv_frame; eauto. apply H. Qed.

#[export] Hint Resolve inv_set_st inv_mkWorld_history inv_mkWorld_stats : app.

Ltac inv_auto :=
  repeat (js_cases || match goal with
                      | |- app_inv _ => progress eauto with app
                      end).

Section Preservation.
Context (cfg : config) (url_parses : string -> bool).

Lemma inv_onUpdate p w w' : app_inv w -> onUpdate p w = Ok w' -> app_inv w'.
Proof.
  unfold onUpdate. intros H E. destruct (updateProgress _ _) eqn:U; simpl in E; [|done].
  injection E as <-. auto with app.
Qed.

Lemma inv_onComplete p w w' : app_inv w -> onComplete cfg p w = Ok w' -> app_inv w'.
Proof.
  unfold onComplete, loadHistory. intros H E.
  destruct (get_prop _ _) eqn:U; simpl in E; [|done]. injection E as <-. auto with app.
Qed.

Lemma inv_onError e w : app_inv w -> app_inv (onError e w).
Proof. unfold onError. auto with app. Qed.

Lemma inv_poll_catch tid m w : app_inv w -> app_inv (poll_catch tid m w).
Proof. unfold poll_catch. auto using inv_onError with app. Qed.

Lemma inv_checkProgress_resume_app tid r w :
  app_inv w -> app_inv (checkProgress_resume_app cfg tid r w).
Proof.
  intros Hinv. unfold checkProgress_resume_app.
  destruct (trackers w !! tid) as [tr|] eqn:Hl; [|done].
  pose proof (inv_resume_update tid tr r w Hinv Hl) as H1.
  destruct (checkProgress_resume tr (rt w) r) as [[tr' rt'] s]. simpl in H1.
  destruct s as [p|p|e].
  - destruct (onUpdate p _) eqn:E; eauto using inv_onUpdate, inv_poll_catch.
  - destruct (onComplete cfg p _) eqn:E; eauto using inv_onComplete, inv_poll_catch.
  - by apply inv_onError.
Qed.

Lemma inv_fetchVideoInfo_resume r w : app_inv w -> app_inv (fetchVideoInfo_resume r w).
Proof. intros H. unfold fetchVideoInfo_resume, report_error. inv_auto. Qed.

Lemma inv_startDownload_resume r w : app_inv w -> app_inv (startDownload_resume cfg r w).
Proof.
  intros H. pose proof inv_trackProgress. unfold startDownload_resume, report_error. inv_auto.
Qed.

Lemma inv_loadHistory_resume r w : app_inv w -> app_inv (loadHistory_resume r w).
Proof. intros H. unfold loadHistory_resume. inv_auto. Qed.

Lemma inv_loadStats_resume r w : app_inv w -> app_inv (loadStats_resume r w).
Proof. intros H. unfold loadStats_resume. inv_auto. Qed.

Lemma inv_manualCleanup_resume r w : app_inv w -> app_inv (manualCleanup_resume cfg r w).
Proof. intros H. unfold manualCleanup_resume, loadHistory, loadStats. inv_auto. Qed.

Lemma inv_settle_request n x w : app_inv w -> app_inv (settle_request cfg n x w).
Proof.
  intros H. unfold settle_request.
  destruct (rt_pending (rt w) !! n) as [[rq []]|]; [..|done];
    pose proof (inv_settle n w H).
  - by apply inv_fetchVideoInfo_resume.
  - by apply inv_startDownload_resume.
  - by apply inv_checkProgress_resume_app.
  - by apply inv_loadHistory_resume.
  - by apply inv_loadStats_resume.
  - by apply inv_manualCleanup_resume.
  - unfold checkServerHealth_resume. inv_auto.
Qed.

Lemma inv_paste_check w : app_inv w -> app_inv (paste_check cfg url_parses w).
Proof. intros H. unfold paste_check. case_match; auto using inv_set_dom. Qed.

Lemma inv_fire h w : app_inv w -> app_inv (fire cfg url_parses h w).
Proof.
  intros H. unfold fire. repeat case_match; try done.
  - eapply inv_frame; eauto. apply rt_wf_issue, H.
  - apply inv_paste_check. eapply inv_frame; eauto. apply rt_wf_timeout_fired, H.
Qed.

Lemma inv_paste s w : app_inv w -> app_inv (paste s w).
Proof.
  intros H. apply inv_set_dom. eapply inv_frame; eauto. apply rt_wf_setTimeout, H.
Qed.

Lemma inv_step w e : app_inv w -> app_inv (step cfg url_parses w e).
Proof.
  intros H. destruct e; simpl;
    unfold fetchVideoInfo, startDownload, manualCleanup, retry, loadHistory, loadStats;
    eauto using inv_fire, inv_settle_request, inv_paste, inv_set_dom; inv_auto.
Qed.

Lemma inv_world_init : app_inv (world_init cfg).
Proof.
  unfold world_init, init, loadStats, loadHistory, checkServerHealth.
  repeat apply inv_call. split; simpl; try done. apply rt_wf_init.
Qed.

Lemma reachable_inv w : reachable cfg url_parses w -> app_inv w.
Proof. induction 1; auto using inv_world_init, inv_step. Qed.

End Preservation.

(** ** Functional behaviour of the controller *)

Lemma stop_tracker_frame tid w :
  rt_pending (rt (stop_tracker tid w)) = rt_pending (rt w) /\
  rt_next_req (rt (stop_tracker tid w)) = rt_next_req (rt w) /\
  dom (stop_tracker tid w) = dom w.
Proof.
  unfold stop_tracker. destruct (trackers w !! tid) as [tr|]; [|done].
  pose proof (stop_pending tr (rt w)) as Hp.
  destruct (stop tr (rt w)) as [tr' rt'] eqn:Es. simpl in *. split; [done|].
  split; [|done]. unfold stop in Es. injection Es as _ <-. by destruct (interval tr).
Qed.

Lemma trackProgress_spec cfg w :
  app_inv w ->
  let n := next_tracker w in
  let w' := trackProgress cfg w in
  progressTracker (st w') = Some n /\ dom w' = dom w /\
  currentDownloadId (st w') = currentDownloadId (st w) /\
  (exists tr, trackers w' !! n = Some tr /\ downloadId tr = currentDownloadId (st w) /\
              isTracking tr = true) /\
  rt_pending (rt w') !! rt_next_req (rt w) =
    Some (getProgress cfg (currentDownloadId (st w)), KPoll n) /\
  next_tracker w' = S n /\
  rt_pending (rt w') =
    <[rt_next_req (rt w) := (getProgress cfg (currentDownloadId (st w)), KPoll n)]> (rt_pending (rt w)) /\
  (forall t tr, t <> n -> trackers w' !! t = Some tr -> isTracking tr = false).
Proof.
  intros Hinv. unfold trackProgress.
  destruct (stop_current_quiet w Hinv) as (Hinv1 & Hst & Hn & Hquiet).
  assert (rt_pending (rt (match progressTracker (st w) with Some tid => stop_tracker tid w
                                                          | None => w end)) = rt_pending (rt w) /\
          rt_next_req (rt (match progressTracker (st w) with Some tid => stop_tracker tid w
                                                          | None => w end)) = rt_next_req (rt w) /\
          dom (match progressTracker (st w) with Some tid => stop_tracker tid w
                                               | None => w end) = dom w) as (Hp & Hr & Hd)
    by (destruct (progressTracker (st w)); [apply stop_tracker_frame | done]).
  set (w1 := match progressTracker (st w) with Some tid => stop_tracker tid w | None => w end)
    in *.
  assert (tracker_wf (next_tracker w1) (new_tracker (currentDownloadId (st w1))) (rt w1)) as Hwf0.
  { apply tracker_wf_new. intros h Hh. apply (inv_timer_owner _ Hinv1) in Hh.
    rewrite (keys_below_fresh _ _ (inv_keys _ Hinv1)) in Hh. by destruct Hh. }
  pose proof (start_spec cfg (next_tracker w1) (new_tracker (currentDownloadId (st w1)))
                (rt w1) (inv_rt _ Hinv1) Hwf0 eq_refl) as Hstart.
  pose proof (start_downloadId cfg (next_tracker w1) (new_tracker (currentDownloadId (st w1)))
                (rt w1)) as Hid.
  destruct (start cfg (next_tracker w1) _ (rt w1)) as [tr1 rt1].
  destruct Hstart as (Htr1 & Hpoll & Hpend & _). simpl in *.
  rewrite Hst, Hn in *. rewrite Hr in Hpoll. rewrite Hr, Hp in Hpend.
  split; [done|]. split; [done|]. split; [done|].
  split; [exists tr1; by rewrite lookup_insert_eq, Hid|]. do 3 (split; [done|]).
  intros t tr Ht Hl. rewrite lookup_insert_ne in Hl by congruence. eauto.
Qed.

(** What [startDownload] does once its request settles with a JSON
    object, under the invariant. *)
Lemma startDownload_resume_spec cfg w fs :
  app_inv w ->
  let d := assoc_last "download_id" fs in
  let w' := startDownload_resume cfg (Ok (JObj fs)) w in
  visible_screen (dom w') = SProgress /\ loadingHidden (dom w') = true /\
  currentDownloadId (st w') = d /\ progressTracker (st w') = Some (next_tracker w) /\
  (exists tr, trackers w' !! next_tracker w = Some tr /\ downloadId tr = d /\
              isTracking tr = true) /\
  rt_pending (rt w') !! rt_next_req (rt w) = Some (getProgress cfg d, KPoll (next_tracker w)) /\
  (forall t tr, t <> next_tracker w -> trackers w' !! t = Some tr -> isTracking tr = false) /\
  next_tracker w' = S (next_tracker w) /\
  rt_pending (rt w') =
    <[rt_next_req (rt w) := (getProgress cfg d, KPoll (next_tracker w))]> (rt_pending (rt w)).
Proof.
  intros Hinv. unfold startDownload_resume. simpl.
  set (w0 := set_dom (fun d => showToast "Download started!" (showProgress d))
               (set_st (with_currentDownloadId (assoc_last "download_id" fs)) w)).
  assert (app_inv w0) as H0 by (unfold w0; auto with app).
  destruct (trackProgress_spec cfg w0 H0) as (Hp & Hd & Hid & Htr & Hpoll & Hn & Hpend & Hq).
  simpl in *. rewrite Hd. autorewrite with js_rw. simpl.
  repeat split; try done.
Qed.

(** C7: when the request of [startDownload] settles with a JSON object,
    the progress section is shown, the overlay hidden, the id the server
    sent becomes [currentDownloadId], a new tracker for that id becomes the
    referenced tracker, is tracking and has already issued its first poll,
    and every other tracker is stopped. *)
Theorem startDownload_resume_success cfg w fs :
  app_inv w ->
  let d := assoc_last "download_id" fs in
  let w' := startDownload_resume cfg (Ok (JObj fs)) w in
  visible_screen (dom w') = SProgress /\ loadingHidden (dom w') = true /\
  currentDownloadId (st w') = d /\ progressTracker (st w') = Some (next_tracker w) /\
  (exists tr, trackers w' !! next_tracker w = Some tr /\ downloadId tr = d /\
              isTracking tr = true) /\
  rt_pending (rt w') !! rt_next_req (rt w) = Some (getProgress cfg d, KPoll (next_tracker w)) /\
  (forall t tr, t <> next_tracker w -> trackers w' !! t = Some tr -> isTracking tr = false).
Proof.
  intros Hinv. destruct (startDownload_resume_spec cfg w fs Hinv) as (? & ? & ? & ? & ? & ? & ? & _).
  by repeat split.
Qed.

Lemma startDownload_resume_success_witness :
  app_inv (world_init CONFIG_local) /\
  visible_screen (dom (startDownload_resume CONFIG_local
    (Ok (JObj [("download_id", JStr "d1")])) (world_init CONFIG_local))) = SProgress.
Proof.
  split; [apply inv_world_init|].
  exact (proj1 (startDownload_resume_success CONFIG_local _ [("download_id", JStr "d1")]
                  (inv_world_init CONFIG_local))).
Defined.

Lemma run_reachable cfg P w es : reachable cfg P w -> reachable cfg P (run cfg P w es).
Proof. revert w. induction es as [|e es IH]; intros w H; simpl; [done|]. apply IH. by constructor. Qed.

(** Under the invariant, the live timers are one handle of the
    referenced tracker. *)
Lemma inv_single_timer w :
  app_inv w ->
  forall h1 h2 t1 t2, rt_timers (rt w) !! h1 = Some t1 -> rt_timers (rt w) !! h2 = Some t2 ->
  h1 = h2 /\ t1 = t2 /\ progressTracker (st w) = Some t1.
Proof.
  intros Hr h1 h2 t1 t2 H1 H2.
  destruct (inv_timer_owner _ Hr h1 t1 H1) as [tr1 Ht1].
  destruct (inv_timer_owner _ Hr h2 t2 H2) as [tr2 Ht2].
  pose proof (inv_wf _ Hr t1 tr1 Ht1) as [Hk1 Hw1].
  pose proof (inv_wf _ Hr t2 tr2 Ht2) as [Hk2 Hw2].
  apply Hw1 in H1. apply Hw2 in H2.
  assert (isTracking tr1 = true) as Hs1 by (apply Hk1; by eexists).
  assert (isTracking tr2 = true) as Hs2 by (apply Hk2; by eexists).
  pose proof (inv_tracking_current _ Hr t1 tr1 Ht1 Hs1) as Hc1.
  pose proof (inv_tracking_current _ Hr t2 tr2 Ht2 Hs2) as Hc2.
  rewrite Hc1 in Hc2. injection Hc2 as <-. rewrite Ht1 in Ht2. injection Ht2 as <-.
  rewrite H1 in H2. by injection H2 as ->.
Qed.

(** C1 (spec P1, for timers): in every reachable world at most one
    interval timer is live, and it runs the tracker [App.state]
    references: [trackProgress] stops the referenced tracker before it
    starts another, and nothing else starts one. *)
Theorem reachable_single_timer cfg P w :
  reachable cfg P w ->
  forall h1 h2 t1 t2, rt_timers (rt w) !! h1 = Some t1 -> rt_timers (rt w) !! h2 = Some t2 ->
  h1 = h2 /\ t1 = t2 /\ progressTracker (st w) = Some t1.
Proof. intros Hr%reachable_inv. by apply inv_single_timer. Qed.

(** A stand-in for the URL parser in concrete runs: it accepts the
    strings that start with [https://]. *)
Definition url_parses_https (s : string) : bool := String.prefix "https://" s.

Definition ok_json (v : jval) : exchange := Response true (BodyJson v).

(** The page loaded, a URL typed and its video info fetched: requests 0 to
    2 are those of [init], request 3 the info request. *)
Definition info_loaded : list event :=
  [ETypeUrl "https://youtu.be/x"; EFetchInfo; ESettle 3 (ok_json (JObj [("title", JStr "T")]))].

Definition one_download : world :=
  run CONFIG_local url_parses_https (world_init CONFIG_local)
    ((info_loaded ++ [EDownload; ESettle 4 (ok_json (JObj [("download_id", JStr "d1")]))])%list).

Lemma reachable_single_timer_witness :
  reachable CONFIG_local url_parses_https one_download /\
  rt_timers (rt one_download) !! 1 = Some 0 /\
  (1 = 1 /\ 0 = 0 /\ progressTracker (st one_download) = Some 0).
Proof.
  assert (reachable CONFIG_local url_parses_https one_download) as Hr
    by (apply run_reachable, reach_init).
  assert (rt_timers (rt one_download) !! 1 = Some 0) as Ht by (vm_compute; reflexivity).
  split; [exact Hr|]. split; [exact Ht|].
  exact (reachable_single_timer CONFIG_local url_parses_https one_download Hr 1 1 0 0 Ht Ht).
Defined.

(** C21 (spec section 7): when the info request or the download request
    fails with message [m], the error section is the one on screen with
    [m] as its text, the overlay is hidden, and neither the controller
    state, the trackers nor the runtime change. *)
Theorem dispatch_failure_shows_error cfg w m :
  let w1 := fetchVideoInfo_resume (Throw m) w in
  let w2 := startDownload_resume cfg (Throw m) w in
  visible_screen (dom w1) = SError /\ errorMessage (dom w1) = m /\ loadingHidden (dom w1) = true /\
  st w1 = st w /\ trackers w1 = trackers w /\ rt w1 = rt w /\
  visible_screen (dom w2) = SError /\ errorMessage (dom w2) = m /\ loadingHidden (dom w2) = true /\
  st w2 = st w /\ trackers w2 = trackers w /\ rt w2 = rt w.
Proof. repeat split. Qed.

(** C22 (spec section 7): a poll that fails in transport with message [m]
    shows the error section with [m], and its tracker stops with no timer
    left, whichever tracker the poll belongs to. *)
Theorem poll_failure_shows_error cfg w tid tr m :
  app_inv w -> trackers w !! tid = Some tr ->
  let w' := checkProgress_resume_app cfg tid (Throw m) w in
  visible_screen (dom w') = SError /\ errorMessage (dom w') = m /\
  (exists tr', trackers w' !! tid = Some tr' /\ isTracking tr' = false) /\
  timers_of (rt w') tid = [].
Proof.
  intros Hinv Hl. unfold checkProgress_resume_app. rewrite Hl.
  pose proof (stop_no_timers tid tr (rt w) (inv_wf _ Hinv tid tr Hl)) as [Hs Ht].
  change (checkProgress_resume tr (rt w) (Throw m)) with
    (let '(tr', rt') := stop tr (rt w) in (tr', rt', SigError (JV (JStr m)))).
  destruct (stop tr (rt w)) as [tr' rt'] eqn:Es. cbn [fst snd] in *.
  split; [done|]. split; [done|]. split; [|exact Ht].
  exists tr'. simpl. by rewrite lookup_insert_eq.
Qed.

Lemma poll_failure_shows_error_witness :
  app_inv one_download /\ trackers one_download !! 0 = Some (mkTracker (JV (JStr "d1")) (Some 1) true) /\
  visible_screen (dom (checkProgress_resume_app CONFIG_local 0 (Throw "Failed to fetch") one_download))
  = SError.
Proof.
  assert (app_inv one_download) as Hi
    by (apply (reachable_inv CONFIG_local url_parses_https), run_reachable, reach_init).
  assert (trackers one_download !! 0 = Some (mkTracker (JV (JStr "d1")) (Some 1) true)) as Hl
    by (vm_compute; reflexivity).
  split; [exact Hi|]. split; [exact Hl|].
  exact (proj1 (poll_failure_shows_error CONFIG_local _ _ _ "Failed to fetch" Hi Hl)).
Defined.

(** "Download" before any video info was fetched only shows a toast:
    no request, no tracker, no change to the controller state. *)
Theorem startDownload_requires_url cfg P w :
  currentUrl (st w) = "" ->
  let w' := step cfg P w EDownload in
  rt w' = rt w /\ trackers w' = trackers w /\ st w' = st w /\
  head (toasts (dom w')) = Some "Please fetch video info first".
Proof. intros H. simpl. unfold startDownload. rewrite H. repeat split. Qed.

Lemma startDownload_requires_url_witness :
  currentUrl (st (world_init CONFIG_local)) = "" /\
  rt (step CONFIG_local url_parses_https (world_init CONFIG_local) EDownload) =
  rt (world_init CONFIG_local).
Proof.
  split; [reflexivity|].
  exact (proj1 (startDownload_requires_url CONFIG_local url_parses_https (world_init CONFIG_local) eq_refl)).
Defined.

(** C24: "Get Info" with an input that is empty after trimming, or that
    fails [isValidUrl], issues no request and leaves [currentUrl]. *)
Theorem fetchVideoInfo_rejects cfg P w :
  (trim (urlInput (dom w)) = "" \/ isValidUrl cfg P (trim (urlInput (dom w))) = false) ->
  let w' := step cfg P w EFetchInfo in
  rt w' = rt w /\ st w' = st w /\ trackers w' = trackers w.
Proof.
  intros H. cbn [step]. unfold fetchVideoInfo. cbv zeta.
  destruct (String.eqb_spec (trim (urlInput (dom w))) "") as [E|Hne]; [done|].
  destruct H as [H|Hv]; [done|]. by rewrite Hv.
Qed.

Lemma fetchVideoInfo_rejects_witness :
  (trim (urlInput (dom (world_init CONFIG_local))) = "" \/
   isValidUrl CONFIG_local url_parses_https (trim (urlInput (dom (world_init CONFIG_local)))) = false) /\
  rt (step CONFIG_local url_parses_https (world_init CONFIG_local) EFetchInfo) =
  rt (world_init CONFIG_local).
Proof.
  assert (trim (urlInput (dom (world_init CONFIG_local))) = "" \/
          isValidUrl CONFIG_local url_parses_https
            (trim (urlInput (dom (world_init CONFIG_local)))) = false) as H
    by (left; reflexivity).
  split; [exact H|].
  exact (proj1 (fetchVideoInfo_rejects CONFIG_local url_parses_https _ H)).
Defined.

(** C25: "Get Info" with a valid trimmed URL records it as [currentUrl],
    shows the overlay and posts it to the info endpoint. *)
Theorem fetchVideoInfo_issues cfg P w :
  trim (urlInput (dom w)) <> "" -> isValidUrl cfg P (trim (urlInput (dom w))) = true ->
  let url := trim (urlInput (dom w)) in
  let w' := step cfg P w EFetchInfo in
  currentUrl (st w') = url /\ loadingHidden (dom w') = false /\
  rt_pending (rt w') = <[rt_next_req (rt w) := (getVideoInfo cfg url, KFetchInfo)]> (rt_pending (rt w)) /\
  trackers w' = trackers w.
Proof.
  intros Hne Hv. cbn [step]. unfold fetchVideoInfo. cbv zeta.
  destruct (String.eqb_spec (trim (urlInput (dom w))) "") as [E|_]; [done|].
  rewrite Hv. repeat split.
Qed.

Lemma fetchVideoInfo_issues_witness :
  let w := step CONFIG_local url_parses_https (world_init CONFIG_local)
             (ETypeUrl " https://youtu.be/x ") in
  trim (urlInput (dom w)) <> "" /\
  isValidUrl CONFIG_local url_parses_https (trim (urlInput (dom w))) = true /\
  currentUrl (st (step CONFIG_local url_parses_https w EFetchInfo)) = "https://youtu.be/x".
Proof.
  intros w.
  assert (trim (urlInput (dom w)) <> "") as H1 by (vm_compute; discriminate).
  assert (isValidUrl CONFIG_local url_parses_https (trim (urlInput (dom w))) = true) as H2
    by reflexivity.
  split; [exact H1|]. split; [exact H2|].
  exact (proj1 (fetchVideoInfo_issues CONFIG_local url_parses_https w H1 H2)).
Defined.

(** C23 (the spec says a new download stops any live tracker): the
    "New download" button only resets the page; every tracker, timer and
    request in flight survives, and so does [App.state]. *)
Theorem new_download_keeps_polling cfg P w :
  let w' := step cfg P w ENewDownload in
  trackers w' = trackers w /\ rt w' = rt w /\ st w' = st w /\
  visible_screen (dom w') = SNone /\ urlInput (dom w') = "".
Proof. repeat split. Qed.

(** A request of [startDownload] in flight settles with a JSON object. *)
Lemma settle_dispatch cfg P w n rq fs :
  rt_pending (rt w) !! n = Some (rq, KStartDownload) ->
  step cfg P w (ESettle n (ok_json (JObj fs))) =
    startDownload_resume cfg (Ok (JObj fs)) (set_rt (fun rt => settle rt n) w).
Proof. intros Hn. cbn [step]. unfold settle_request. by rewrite Hn. Qed.

(** A poll of tracker [tid] settles with a [completed] report. *)
Lemma resume_app_completed cfg w tid tr fs :
  trackers w !! tid = Some tr -> assoc_last "status" fs = JV (JStr "completed") ->
  let w' := checkProgress_resume_app cfg tid (Ok (JObj fs)) w in
  visible_screen (dom w') = SSuccess /\
  fileHref (dom w') = getFileUrl cfg (currentDownloadId (st w)) /\
  fileDownload (dom w') = to_string (assoc_last "filename" fs) /\
  st w' = st w.
Proof.
  intros Hl Hs. unfold checkProgress_resume_app. rewrite Hl.
  pose proof (resume_outcome tr (rt w) (Ok (JObj fs))) as Ho.
  assert (outcome (Ok (JObj fs)) = SigComplete (JObj fs)) as Hout
    by (unfold outcome, classify; simpl; by rewrite Hs).
  destruct (checkProgress_resume tr (rt w) (Ok (JObj fs))) as [[tr' rt'] sg].
  simpl in Ho. rewrite Hout in Ho. subst sg.
  unfold onComplete. autorewrite with js_rw. simpl. by repeat split.
Qed.

(** C9: a completion is shown as the success of the download [App.state]
    names when the report arrives, not of the download the reporting
    tracker polls.  For every world, every tracker of the heap (a tracker
    superseded by a later download included) and every report with status
    [completed], the success section is shown, its link is the file URL of
    [currentDownloadId], under the report's file name, and [App.state]
    does not change. *)
Theorem stale_completion_links_current_download cfg w tid tr fs :
  trackers w !! tid = Some tr -> assoc_last "status" fs = JV (JStr "completed") ->
  let w' := checkProgress_resume_app cfg tid (Ok (JObj fs)) w in
  visible_screen (dom w') = SSuccess /\
  fileHref (dom w') = getFileUrl cfg (currentDownloadId (st w)) /\
  fileDownload (dom w') = to_string (assoc_last "filename" fs) /\
  st w' = st w.
Proof. apply resume_app_completed. Qed.

(** C10 (spec scenario C does not hold): when two requests of
    [startDownload] are in flight, the one that settles last wins,
    whichever was issued last: its id becomes [currentDownloadId], its
    tracker is the referenced one and polls, and every other tracker, the
    one of the download that settled first included, is stopped. *)
Theorem later_settlement_wins cfg P w n1 n2 rq1 rq2 fs1 fs2 :
  app_inv w -> n1 <> n2 ->
  rt_pending (rt w) !! n1 = Some (rq1, KStartDownload) ->
  rt_pending (rt w) !! n2 = Some (rq2, KStartDownload) ->
  let w' := run cfg P w [ESettle n1 (ok_json (JObj fs1)); ESettle n2 (ok_json (JObj fs2))] in
  currentDownloadId (st w') = assoc_last "download_id" fs2 /\
  progressTracker (st w') = Some (S (next_tracker w)) /\
  (exists tr, trackers w' !! S (next_tracker w) = Some tr /\
              downloadId tr = assoc_last "download_id" fs2 /\ isTracking tr = true) /\
  (forall t tr, t <> S (next_tracker w) -> trackers w' !! t = Some tr -> isTracking tr = false).
Proof.
  intros Hinv Hne H1 H2. cbn [run]. rewrite (settle_dispatch cfg P w n1 rq1 fs1 H1).
  set (w0 := set_rt (fun rt => settle rt n1) w).
  assert (app_inv w0) as Hi0 by (unfold w0; auto with app).
  destruct (startDownload_resume_spec cfg w0 fs1 Hi0) as (_ & _ & _ & _ & _ & _ & _ & Hn1 & Hp1).
  set (w1 := startDownload_resume cfg (Ok (JObj fs1)) w0) in *.
  assert (n2 <> rt_next_req (rt w)) as Hfresh.
  { intros ->. by rewrite (keys_below_fresh _ _ (rt_wf_pending _ (inv_rt _ Hinv))) in H2. }
  assert (rt_pending (rt w1) !! n2 = Some (rq2, KStartDownload)) as H2'.
  { rewrite Hp1. simpl. rewrite lookup_insert_ne by done. by rewrite lookup_delete_ne by done. }
  rewrite (settle_dispatch cfg P w1 n2 rq2 fs2 H2').
  assert (app_inv (set_rt (fun rt => settle rt n2) w1)) as Hi1
    by (apply inv_settle, inv_startDownload_resume, Hi0).
  destruct (startDownload_resume_spec cfg _ fs2 Hi1) as (_ & _ & Hd & Hp & Htr & _ & Hq & _).
  simpl in *. rewrite Hn1 in *. by repeat split.
Qed.

(** Two downloads dispatched one after the other: tracker 0 polls [d1],
    tracker 1 polls [d2]. *)
Definition two_downloads : world :=
  run CONFIG_local url_parses_https (world_init CONFIG_local)
    (info_loaded ++
     [EDownload; ESettle 4 (ok_json (JObj [("download_id", JStr "d1")]));
      EDownload; ESettle 6 (ok_json (JObj [("download_id", JStr "d2")]))]).

Lemma stale_completion_links_current_download_witness :
  trackers two_downloads !! 0 = Some (mkTracker (JV (JStr "d1")) None false) /\
  fileHref (dom (checkProgress_resume_app CONFIG_local 0
    (Ok (JObj [("status", JStr "completed"); ("filename", JStr "a.mp4")])) two_downloads)) =
  "http://localhost:5000/api/file/d2".
Proof.
  assert (trackers two_downloads !! 0 = Some (mkTracker (JV (JStr "d1")) None false)) as Hl
    by (vm_compute; reflexivity).
  split; [exact Hl|].
  rewrite (proj1 (proj2 (stale_completion_links_current_download CONFIG_local two_downloads 0 _
             [("status", JStr "completed"); ("filename", JStr "a.mp4")] Hl eq_refl))).
  vm_compute. reflexivity.
Defined.

(** Two "Download" clicks whose requests (4 and 5) are both in flight. *)
Definition two_dispatches : world :=
  run CONFIG_local url_parses_https (world_init CONFIG_local) (info_loaded ++ [EDownload; EDownload]).

Lemma later_settlement_wins_witness :
  app_inv two_dispatches /\ 5 <> 4 /\
  rt_pending (rt two_dispatches) !! 5 =
    Some (API.startDownload CONFIG_local "https://youtu.be/x" "video" "best", KStartDownload) /\
  rt_pending (rt two_dispatches) !! 4 =
    Some (API.startDownload CONFIG_local "https://youtu.be/x" "video" "best", KStartDownload) /\
  currentDownloadId (st (run CONFIG_local url_parses_https two_dispatches
    [ESettle 5 (ok_json (JObj [("download_id", JStr "d2")]));
     ESettle 4 (ok_json (JObj [("download_id", JStr "d1")]))])) = JV (JStr "d1").
Proof.
  assert (app_inv two_dispatches) as Hi
    by (apply (reachable_inv CONFIG_local url_parses_https), run_reachable, reach_init).
  assert (rt_pending (rt two_dispatches) !! 5 =
    Some (API.startDownload CONFIG_local "https://youtu.be/x" "video" "best", KStartDownload)) as H5
    by (vm_compute; reflexivity).
  assert (rt_pending (rt two_dispatches) !! 4 =
    Some (API.startDownload CONFIG_local "https://youtu.be/x" "video" "best", KStartDownload)) as H4
    by (vm_compute; reflexivity).
  do 4 (split; [first [assumption | lia]|]).
  exact (proj1 (later_settlement_wins CONFIG_local url_parses_https two_dispatches 5 4 _ _
                  [("download_id", JStr "d2")] [("download_id", JStr "d1")] Hi ltac:(lia) H5 H4)).
Defined.

(** ** The success section is unhidden only when a poll settles *)

Lemma trackProgress_dom cfg w : dom (trackProgress cfg w) = dom w.
Proof.
  unfold trackProgress. destruct (start _ _ _ _). cbn [dom].
  destruct (progressTracker (st w)); first [apply stop_tracker_frame | reflexivity].
Qed.

(** Case on the tests of a handler and read [successHidden] through the
    DOM updates. *)
Ltac success_kept :=
  repeat match goal with
         | E : showVideoInfo _ _ = Ok _ |- _ => apply showVideoInfo_successHidden in E
         | |- context [match ?x with _ => _ end] => destruct x eqn:?
         | |- context [if ?b then _ else _] => destruct b eqn:?
         end;
  simpl in *; rewrite ?trackProgress_dom; simpl; try congruence.

Lemma step_success_hidden cfg P w e :
  successHidden (dom w) = true ->
  (forall n x rq tid, e = ESettle n x -> rt_pending (rt w) !! n <> Some (rq, KPoll tid)) ->
  successHidden (dom (step cfg P w e)) = true.
Proof.
  intros H Hp. destruct e as [s|s| |t|q| | | | |t| | |c|h|n x]; cbn [step];
    unfold fetchVideoInfo, startDownload, manualCleanup, retry, loadHistory, loadStats, fire,
      paste_check, paste, type_url, call; try (success_kept; fail).
  unfold settle_request. destruct (rt_pending (rt w) !! n) as [[rq k]|] eqn:En; [|done].
  destruct k as [| |tid| | | |].
  - unfold fetchVideoInfo_resume, report_error. success_kept.
  - unfold startDownload_resume, report_error.
    destruct (_ ≫= _); cbn [set_dom dom]; [rewrite trackProgress_dom|]; simpl; congruence.
  - exfalso. by apply (Hp n x rq tid).
  - unfold loadHistory_resume. success_kept.
  - unfold loadStats_resume. success_kept.
  - unfold manualCleanup_resume, loadHistory, loadStats, call. success_kept.
  - unfold checkServerHealth_resume. success_kept.
Qed.

(** C33: an event that unhides the success section is the settlement of
    a poll request: no user action, timer or other request can show it. *)
Theorem success_only_from_poll cfg P w e :
  successHidden (dom w) = true -> successHidden (dom (step cfg P w e)) = false ->
  exists n x rq tid, e = ESettle n x /\ rt_pending (rt w) !! n = Some (rq, KPoll tid).
Proof.
  intros H1 H2.
  destruct e as [s|s| |t|q| | | | |t| | |c|h|n x];
    try (rewrite (step_success_hidden cfg P w _ H1) in H2; [discriminate | congruence]).
  destruct (rt_pending (rt w) !! n) as [[rq [| |tid| | | |]]|] eqn:En;
    try (rewrite (step_success_hidden cfg P w _ H1) in H2;
         [discriminate | intros ? ? ? ? [= <- <-]; congruence]).
  by exists n, x, rq, tid.
Qed.

Lemma success_only_from_poll_witness :
  let w := step CONFIG_local url_parses_https one_download ENewDownload in
  successHidden (dom w) = true /\
  successHidden (dom (step CONFIG_local url_parses_https w (ESettle 5 (ok_json
    (JObj [("status", JStr "completed"); ("filename", JStr "x.mp4")]))))) = false /\
  exists n x rq tid, ESettle 5 (ok_json (JObj [("status", JStr "completed");
                                               ("filename", JStr "x.mp4")])) = ESettle n x /\
                     rt_pending (rt w) !! n = Some (rq, KPoll tid).
Proof.
  intros w.
  assert (successHidden (dom w) = true) as H1 by (vm_compute; reflexivity).
  assert (successHidden (dom (step CONFIG_local url_parses_https w (ESettle 5 (ok_json
    (JObj [("status", JStr "completed"); ("filename", JStr "x.mp4")]))))) = false) as H2
    by (vm_compute; reflexivity).
  split; [exact H1|]. split; [exact H2|].
  exact (success_only_from_poll CONFIG_local url_parses_https w _ H1 H2).
Defined.

Definition paste_toast : string :=
  "URL detected! Click " +:+ dq +:+ "Get Info" +:+ dq +:+ " to continue.".

(** C19 (the paste check reads the input when its timer fires): after a
    paste, the delayed check shows its toast exactly when the input's
    trimmed value at the time the one-shot timer fires, here after a later
    edit, is a non-empty valid URL; the timer then leaves the table. *)
Theorem paste_check_reads_current_input cfg P w s s' :
  rt_wf (rt w) ->
  let w1 := run cfg P w [EPaste s; ETypeUrl s'; EFire (rt_next_timer (rt w))] in
  toasts (dom w1) =
    ((if negb (String.eqb (trim s') "") && isValidUrl cfg P (trim s') then [paste_toast] else [])
      ++ toasts (dom w))%list /\
  rt_timeouts (rt w1) = rt_timeouts (rt w).
Proof.
  intros Hwf. simpl. unfold paste, type_url, fire. cbn [set_dom set_rt rt dom setTimeout snd rt_timers rt_timeouts].
  rewrite (keys_below_fresh _ _ (rt_wf_timers _ Hwf)), lookup_insert_eq.
  unfold paste_check.
  cbn [set_rt set_dom dom urlInput toasts rt rt_timeouts timeout_fired].
  assert (delete (rt_next_timer (rt w)) (<[rt_next_timer (rt w) := tt]> (rt_timeouts (rt w)))
          = rt_timeouts (rt w)) as Hd
    by (apply delete_insert_id, (keys_below_fresh _ _ (rt_wf_timeouts _ Hwf))).
  destruct (_ && _); simpl; split; by rewrite ?Hd.
Qed.

Lemma paste_check_reads_current_input_witness :
  let w := world_init CONFIG_local in
  let w1 := run CONFIG_local url_parses_https w
              [EPaste "https://youtu.be/x"; ETypeUrl "youtu.be/x"; EFire (rt_next_timer (rt w))] in
  toasts (dom w1) = toasts (dom w) /\
  toasts (dom w1) =
    ((if negb (String.eqb (trim "youtu.be/x") "") &&
         isValidUrl CONFIG_local url_parses_https (trim "youtu.be/x")
      then [paste_toast] else []) ++ toasts (dom w))%list /\
  rt_timeouts (rt w1) = rt_timeouts (rt w).
Proof.
  intros w w1. split; [vm_compute; reflexivity|].
  apply (paste_check_reads_current_input CONFIG_local url_parses_https w).
  apply (inv_rt _ (reachable_inv CONFIG_local url_parses_https w (reach_init _ _))).
Defined.

(** ** The navigation tabs stay consistent *)

(** The tab state of the page. *)
Definition tabs_of (w : world) := (navActive (dom w), tabActive (dom w)).

Ltac tabs_frame :=
  repeat match goal with
         | E : showVideoInfo _ _ = Ok _ |- _ => apply showVideoInfo_tabs in E as [? ?]
         | E : updateProgress _ _ = Ok _ |- _ => apply updateProgress_tabs in E as [? ?]
         | |- context [match ?x with _ => _ end] => destruct x eqn:?
         | |- context [if ?b then _ else _] => destruct b eqn:?
         end;
  unfold tabs_of in *; simpl in *; rewrite ?trackProgress_dom; simpl; try congruence.

Lemma stop_tracker_dom tid w : dom (stop_tracker tid w) = dom w.
Proof. apply stop_tracker_frame. Qed.

Ltac tab_simpl := unfold tabs_of, set_dom, set_rt, set_tracker, set_st; simpl; rewrite ?stop_tracker_dom; simpl.

Lemma resume_app_tabs cfg tid r w :
  tabs_of (checkProgress_resume_app cfg tid r w) = tabs_of w.
Proof.
  unfold checkProgress_resume_app, onUpdate, onComplete, onError, poll_catch, loadHistory, call.
  destruct (trackers w !! tid); [|done].
  destruct (checkProgress_resume _ _ _) as [[tr' rt'] s].
  destruct s as [p|p|e].
  - destruct (updateProgress _ _) eqn:E; cbn [mbind res_bind].
    + apply updateProgress_tabs in E as [H1 H2]. revert H1 H2. tab_simpl. intros -> ->. done.
    + tab_simpl. done.
  - destruct (get_prop _ _); cbn [mbind res_bind]; tab_simpl; done.
  - tab_simpl. done.
Qed.

Lemma tabs_ok_of w w' : tabs_of w' = tabs_of w -> tabs_ok (dom w) -> tabs_ok (dom w').
Proof. unfold tabs_of. intros [= H1 H2] H. by apply (tabs_ok_same (dom w)). Qed.

Ltac tabs_kept :=
  repeat match goal with
         | E : showVideoInfo _ _ = Ok _ |- _ => apply showVideoInfo_tabs in E as [? ?]
         | |- context [match ?x with _ => _ end] => destruct x eqn:?
         | |- context [if ?b then _ else _] => destruct b eqn:?
         end;
  tab_simpl; unfold set_dom, set_rt, set_tracker, set_st in *; simpl in *;
  rewrite ?trackProgress_dom; simpl; try congruence.

Lemma step_tabs_frame cfg P w e :
  (forall t, e <> ETab t) -> e <> ENewDownload -> tabs_of (step cfg P w e) = tabs_of w.
Proof.
  intros Ht Hn. destruct e as [s|s| |t|q| | | | |t| | |c|h|n x]; cbn [step];
    try (by destruct (Ht t)); try done;
    unfold fetchVideoInfo, startDownload, manualCleanup, retry, loadHistory, loadStats, fire,
      paste_check, paste, type_url, call; try (tabs_kept; fail).
  unfold settle_request. destruct (rt_pending (rt w) !! n) as [[rq k]|] eqn:En; [|done].
  destruct k as [| |tid| | | |].
  - unfold fetchVideoInfo_resume, report_error. tabs_kept.
  - unfold startDownload_resume, report_error.
    destruct (_ ≫= _); unfold tabs_of; cbn [set_dom dom]; [rewrite trackProgress_dom|];
      tab_simpl; done.
  - rewrite resume_app_tabs. tab_simpl. done.
  - unfold loadHistory_resume. tabs_kept.
  - unfold loadStats_resume. tabs_kept.
  - unfold manualCleanup_resume, loadHistory, loadStats, call. tabs_kept.
  - unfold checkServerHealth_resume. tabs_kept.
Qed.

(** C26 (type of the tab state): in every reachable world the navigation
    buttons and tab contents are the page's three tabs in order, a content
    is active exactly when its button is, and at most one tab is active:
    [switchTab] is the only writer and keeps all three. *)
Theorem reachable_tabs_ok cfg P w : reachable cfg P w -> tabs_ok (dom w).
Proof.
  induction 1 as [|w e _ IH].
  - exact tabs_ok_init.
  - destruct e as [s|s| |t|q| | | | |t| | |c|h|n x];
      try (apply (tabs_ok_of w); [apply step_tabs_frame; [intros ? [=] | discriminate] | done];
           fail).
    + apply tabs_ok_switchTab. by apply (tabs_ok_same (dom w)).
    + cbn [step]. apply (tabs_ok_of (set_dom (switchTab t) w));
        [by repeat case_match | by apply tabs_ok_switchTab].
Qed.

Lemma reachable_tabs_ok_witness :
  let w := run CONFIG_local url_parses_https (world_init CONFIG_local) [ETab "history"] in
  map snd (navActive (dom w)) = [false; true; false] /\ tabs_ok (dom w).
Proof.
  split; [vm_compute; reflexivity|].
  apply (reachable_tabs_ok CONFIG_local url_parses_https).
  apply run_reachable, reach_init.
Defined.

(** ** What [App.state.currentUrl] can hold *)

Ltac st_simpl := unfold set_dom, set_rt, set_tracker, set_st in *; simpl in *;
  rewrite ?stop_tracker_st; simpl.

Lemma trackProgress_url cfg w : currentUrl (st (trackProgress cfg w)) = currentUrl (st w).
Proof.
  unfold trackProgress. destruct (start _ _ _ _). cbn [st].
  destruct (progressTracker (st w)); simpl; rewrite ?stop_tracker_st; reflexivity.
Qed.

Lemma resume_app_url cfg tid r w :
  currentUrl (st (checkProgress_resume_app cfg tid r w)) = currentUrl (st w).
Proof.
  unfold checkProgress_resume_app, onUpdate, onComplete, onError, poll_catch, loadHistory, call.
  destruct (trackers w !! tid); [|done].
  destruct (checkProgress_resume _ _ _) as [[tr' rt'] s].
  destruct s as [p|p|e]; [destruct (updateProgress _ _) | destruct (get_prop _ _) |];
    cbn [mbind res_bind]; st_simpl; done.
Qed.

Ltac url_kept :=
  repeat match goal with
         | |- context [match ?x with _ => _ end] => destruct x eqn:?
         | |- context [if ?b then _ else _] => destruct b eqn:?
         end;
  st_simpl; rewrite ?trackProgress_url; simpl; try congruence.

Lemma step_url_frame cfg P w e :
  e <> EFetchInfo -> currentUrl (st (step cfg P w e)) = currentUrl (st w).
Proof.
  intros Hf. destruct e as [s|s| |t|q| | | | |t| | |c|h|n x]; try by destruct Hf. all: cbn [step];
    unfold startDownload, manualCleanup, retry, loadHistory, loadStats, fire,
      paste_check, paste, type_url, call; try (url_kept; fail).
  unfold settle_request. destruct (rt_pending (rt w) !! n) as [[rq k]|] eqn:En; [|done].
  destruct k as [| |tid| | | |].
  - unfold fetchVideoInfo_resume, report_error. url_kept.
  - unfold startDownload_resume, report_error.
    destruct (_ ≫= _); cbn [set_dom st]; [rewrite trackProgress_url|]; st_simpl; done.
  - rewrite resume_app_url. st_simpl. done.
  - unfold loadHistory_resume. url_kept.
  - unfold loadStats_resume. url_kept.
  - unfold manualCleanup_resume, loadHistory, loadStats, call. url_kept.
  - unfold checkServerHealth_resume. url_kept.
Qed.

(** C20 (type of [App.state.currentUrl]): in every reachable world the
    URL of the session is empty or a string [UI.isValidUrl] accepts (one
    the URL parser takes, of at most [MAX_URL_LENGTH] characters): only
    [fetchVideoInfo] writes it, after its two guards. *)
Theorem reachable_currentUrl_valid cfg P w :
  reachable cfg P w ->
  currentUrl (st w) = "" \/ isValidUrl cfg P (currentUrl (st w)) = true.
Proof.
  induction 1 as [|w e _ IH]; [by left|].
  destruct e as [s|s| |t|q| | | | |t| | |c|h|n x];
    try (rewrite step_url_frame; [exact IH | discriminate]).
  cbn [step]. unfold fetchVideoInfo.
  destruct (String.eqb (trim (urlInput (dom w))) ""); [exact IH|].
  destruct (isValidUrl cfg P (trim (urlInput (dom w)))) eqn:Hv; simpl; [|exact IH].
  right. exact Hv.
Qed.

Lemma reachable_currentUrl_valid_witness :
  let w := run CONFIG_local url_parses_https (world_init CONFIG_local) info_loaded in
  currentUrl (st w) = "https://youtu.be/x" /\
  (currentUrl (st w) = "" \/ isValidUrl CONFIG_local url_parses_https (currentUrl (st w)) = true).
Proof.
  split; [vm_compute; reflexivity|].
  apply (reachable_currentUrl_valid CONFIG_local url_parses_https).
  apply run_reachable, reach_init.
Defined.
