(* ===== verification/Lifecycle.v ===== *)
(** * The download lifecycle of the specification against the controller

    Section 4.3 of the specification describes a single download session
    as a state machine over eight states.  The code keeps no such state:
    the lifecycle is what the page shows.  [project] reads it off a world:
    the download section on screen, the progress text, and which request of
    the controller is in flight.  [lstep] is the machine of the
    specification; a run of the code refines it when consecutive
    projections are equal or related by [lstep].  The theorems take each
    transition of the code in turn ("Get Info", the info answer, the
    dispatch answer, a settled poll, "Retry", "New download") and say
    where it refines the machine and where it leaves it. *)

From S2P Require Import Prelude JsValue Config Api Runtime Tracker Ui App.

Inductive lstate : Type :=
| IDLE | FETCHING_INFO | INFO_READY | STARTING | IN_PROGRESS | PROCESSING | SUCCEEDED | FAILED.

#[export] Instance lstate_eq_dec : EqDecision lstate.
Proof. solve_decision. Defined.

(** The transitions of specification section 4.3. *)
Inductive lstep : lstate -> lstate -> Prop :=
| l_fetch : lstep IDLE FETCHING_INFO
| l_info_ok : lstep FETCHING_INFO INFO_READY
| l_info_fail : lstep FETCHING_INFO FAILED
| l_start : lstep INFO_READY STARTING
| l_dispatch_ok : lstep STARTING IN_PROGRESS
| l_dispatch_fail : lstep STARTING FAILED
| l_progress : lstep IN_PROGRESS IN_PROGRESS
| l_processing : lstep IN_PROGRESS PROCESSING
| l_success_p : lstep PROCESSING SUCCEEDED
| l_success_i : lstep IN_PROGRESS SUCCEEDED
| l_fail_p : lstep PROCESSING FAILED
| l_fail_i : lstep IN_PROGRESS FAILED
| l_retry_info : lstep FAILED INFO_READY
| l_retry_idle : lstep FAILED IDLE
| l_new_s : lstep SUCCEEDED IDLE
| l_new_f : lstep FAILED IDLE.

(** Spec property P4 holds of the machine itself: a terminal state is
    entered only from a state with a request in flight. *)
Lemma lstep_terminal_sources s t :
  lstep s t -> (t = SUCCEEDED \/ t = FAILED) ->
  s = FETCHING_INFO \/ s = STARTING \/ s = IN_PROGRESS \/ s = PROCESSING.
Proof. intros Hs [-> | ->]; inversion Hs; auto. Qed.

(** Whether a request resuming at [k] is in flight. *)
Definition pending_cont (w : world) (k : cont) : bool :=
  existsb (fun nk : nat * (request * cont) => bool_decide (nk.2.2 = k))
    (map_to_list (rt_pending (rt w))).

(** The lifecycle state a world shows. *)
Definition project (w : world) : lstate :=
  match visible_screen (dom w) with
  | SError => FAILED
  | SSuccess => SUCCEEDED
  | SProgress =>
      if String.eqb (progressStatus (dom w)) "Processing file..." then PROCESSING
      else IN_PROGRESS
  | _ =>
      if pending_cont w KStartDownload then STARTING
      else if pending_cont w KFetchInfo then FETCHING_INFO
      else if negb (videoInfoHidden (dom w)) then INFO_READY
      else IDLE
  end.

(** A sequence of lifecycle states the machine allows, stuttering
    included. *)
Inductive lpath : list lstate -> Prop :=
| lpath_nil : lpath []
| lpath_one s : lpath [s]
| lpath_stay s l : lpath (s :: l) -> lpath (s :: s :: l)
| lpath_step s t l : lstep s t -> lpath (t :: l) -> lpath (s :: t :: l).

(** The projections of every world along a run. *)
Fixpoint trace (cfg : config) (P : string -> bool) (w : world) (es : list event) : list lstate :=
  match es with
  | [] => [project w]
  | e :: es' => project w :: trace cfg P (step cfg P w e) es'
  end.

(** The machine as a boolean test, and its reflection. *)
Definition lstepb (s t : lstate) : bool :=
  match s, t with
  | IDLE, FETCHING_INFO | FETCHING_INFO, INFO_READY | FETCHING_INFO, FAILED
  | INFO_READY, STARTING | STARTING, IN_PROGRESS | STARTING, FAILED
  | IN_PROGRESS, IN_PROGRESS | IN_PROGRESS, PROCESSING | PROCESSING, SUCCEEDED
  | IN_PROGRESS, SUCCEEDED | PROCESSING, FAILED | IN_PROGRESS, FAILED
  | FAILED, INFO_READY | FAILED, IDLE | SUCCEEDED, IDLE => true
  | _, _ => false
  end.

Lemma lstepb_spec s t : lstepb s t = true <-> lstep s t.
Proof.
  split.
  - destruct s, t; simpl; try discriminate; constructor.
  - by intros []. 
Qed.

Fixpoint lpathb (l : list lstate) : bool :=
  match l with
  | s :: (t :: _) as l' => (bool_decide (s = t) || lstepb s t) && lpathb l'
  | _ => true
  end.

Lemma lpathb_sound l : lpathb l = true -> lpath l.
Proof.
  induction l as [|s [|t l] IH]; simpl; [constructor | constructor|].
  intros [Hst Hl]%andb_prop. specialize (IH Hl).
  apply orb_prop in Hst as [Heq%bool_decide_eq_true | Hs%lstepb_spec].
  - subst. by apply lpath_stay.
  - by apply lpath_step.
Qed.

Definition completed_report (filename : string) : exchange :=
  ok_json (JObj [("status", JStr "completed"); ("filename", JStr filename)]).

(** Spec scenario A on the main path: the run through
    the controller (info, dispatch, [starting], [downloading],
    [processing], [completed], each poll answered before the next tick)
    shows a sequence of lifecycle states the machine of section 4.3
    allows: IDLE, FETCHING_INFO, INFO_READY, STARTING, IN_PROGRESS,
    PROCESSING, SUCCEEDED. *)
Theorem main_path_refines :
  let es := (info_loaded ++
    [EDownload; ESettle 4 (ok_json (JObj [("download_id", JStr "d1")]));
     ESettle 5 (ok_json (JObj [("status", JStr "starting")])); EFire 1;
     ESettle 6 (ok_json (JObj [("status", JStr "downloading"); ("percent", JStr "42%")]));
     EFire 1; ESettle 7 (ok_json (JObj [("status", JStr "processing")])); EFire 1;
     ESettle 8 (completed_report "x.mp4")])%list in
  let l := trace CONFIG_local url_parses_https (world_init CONFIG_local) es in
  lpath l /\
  l = [IDLE; IDLE; FETCHING_INFO; INFO_READY; STARTING; IN_PROGRESS; IN_PROGRESS;
       IN_PROGRESS; IN_PROGRESS; IN_PROGRESS; PROCESSING; PROCESSING; SUCCEEDED].
Proof.
  assert (trace CONFIG_local url_parses_https (world_init CONFIG_local)
    ((info_loaded ++
    [EDownload; ESettle 4 (ok_json (JObj [("download_id", JStr "d1")]));
     ESettle 5 (ok_json (JObj [("status", JStr "starting")])); EFire 1;
     ESettle 6 (ok_json (JObj [("status", JStr "downloading"); ("percent", JStr "42%")]));
     EFire 1; ESettle 7 (ok_json (JObj [("status", JStr "processing")])); EFire 1;
     ESettle 8 (completed_report "x.mp4")])%list) =
    [IDLE; IDLE; FETCHING_INFO; INFO_READY; STARTING; IN_PROGRESS; IN_PROGRESS;
     IN_PROGRESS; IN_PROGRESS; IN_PROGRESS; PROCESSING; PROCESSING; SUCCEEDED]) as E
    by (vm_compute; reflexivity).
  cbv zeta. rewrite E. split; [|reflexivity]. apply lpathb_sound. reflexivity.
Qed.

(** [set_dom] changes no request table, hence no in-flight continuation. *)
Lemma pending_cont_set_dom f w k : pending_cont (set_dom f w) k = pending_cont w k.
Proof. reflexivity. Qed.

(** With no request in flight, the section on screen decides the state. *)
Lemma project_idle w :
  visible_screen (dom w) = SNone ->
  pending_cont w KStartDownload = false -> pending_cont w KFetchInfo = false ->
  project w = if videoInfoHidden (dom w) then IDLE else INFO_READY.
Proof.
  intros Hv Hs Hf. unfold project. rewrite Hv, Hs, Hf. by destruct (videoInfoHidden _).
Qed.

(** C34 (refinement of the retry transition): "Retry" from a failed page
    with no info or dispatch request in flight is a transition of the
    machine: to INFO_READY when the controller still holds video info (the
    info section is shown again), to IDLE otherwise (the form is reset). *)
Theorem retry_refines cfg P w :
  project w = FAILED ->
  pending_cont w KStartDownload = false -> pending_cont w KFetchInfo = false ->
  project (step cfg P w ERetry) = (if truthy (videoInfo (st w)) then INFO_READY else IDLE) /\
  lstep FAILED (project (step cfg P w ERetry)).
Proof.
  intros _ Hs Hf.
  cut (project (step cfg P w ERetry) = if truthy (videoInfo (st w)) then INFO_READY else IDLE).
  { intros ->. split; [done|]. destruct (truthy _); constructor. }
  cbn [step]. unfold retry. change (st (set_dom hideAllSections w)) with (st w).
  destruct (truthy (videoInfo (st w))) eqn:Ht.
  - destruct (showVideoInfo_truthy _ (dom (set_dom hideAllSections w)) Ht) as (u & -> & Hh & Hv).
    rewrite project_idle; [simpl; by rewrite Hh | simpl; by rewrite Hv | done | done].
  - rewrite project_idle; [done | apply resetDownloadUI_screen | done | done].
Qed.

(** A failed info request: the page shows the error and "Retry". *)
Definition info_failed : world :=
  run CONFIG_local url_parses_https (world_init CONFIG_local)
    [ETypeUrl "https://youtu.be/x"; EFetchInfo; ESettle 3 (NetworkFailure "Failed to fetch")].

Lemma retry_refines_witness :
  project (step CONFIG_local url_parses_https info_failed ERetry) = IDLE /\
  lstep FAILED (project (step CONFIG_local url_parses_https info_failed ERetry)).
Proof.
  destruct (retry_refines CONFIG_local url_parses_https info_failed) as [H1 H2];
    try (vm_compute; reflexivity).
  split; [rewrite H1; vm_compute; reflexivity | exact H2].
Defined.

(** ** Polls settling on the progress screen *)

(** The state a world shows when one of the three sections is on screen. *)
Lemma project_screen w :
  (visible_screen (dom w) = SSuccess -> project w = SUCCEEDED) /\
  (visible_screen (dom w) = SError -> project w = FAILED) /\
  (visible_screen (dom w) = SProgress -> project w =
     if String.eqb (progressStatus (dom w)) "Processing file..." then PROCESSING else IN_PROGRESS).
Proof. unfold project. repeat split; by intros ->. Qed.



(** C5 (spec P4 does not hold): the page can go from IDLE straight to
    SUCCEEDED, which the machine forbids.  In every world where a poll of
    some tracker is in flight and no info or dispatch request is, "New
    download" shows IDLE, but the tracker is not stopped; when its poll
    reports completion the success section appears. *)
Theorem idle_to_succeeded cfg P w n rq tid tr fs :
  trackers w !! tid = Some tr -> rt_pending (rt w) !! n = Some (rq, KPoll tid) ->
  pending_cont w KStartDownload = false -> pending_cont w KFetchInfo = false ->
  assoc_last "status" fs = JV (JStr "completed") ->
  let w1 := step cfg P w ENewDownload in
  project w1 = IDLE /\
  project (step cfg P w1 (ESettle n (ok_json (JObj fs)))) = SUCCEEDED /\
  ~ lstep IDLE SUCCEEDED.
Proof.
  intros Ht Hn Hs Hf Hc w1. split; [|split].
  - unfold w1. rewrite project_idle; [reflexivity | reflexivity | exact Hs | exact Hf].
  - cbn [step]. unfold settle_request. cbn [w1 step set_dom rt]. rewrite Hn.
    apply (project_screen _). change (read_response (ok_json (JObj fs))) with (Ok (JObj fs)).
    exact (proj1 (resume_app_completed cfg (set_rt (fun rt => settle rt n)
      (set_dom (fun d => switchTab "download" (resetDownloadUI d)) w)) tid tr fs Ht Hc)).
  - intros H%lstepb_spec. discriminate.
Qed.

Lemma idle_to_succeeded_witness :
  trackers one_download !! 0 = Some (mkTracker (JV (JStr "d1")) (Some 1) true) /\
  rt_pending (rt one_download) !! 5 = Some (getProgress CONFIG_local (JV (JStr "d1")), KPoll 0) /\
  pending_cont one_download KStartDownload = false /\ pending_cont one_download KFetchInfo = false /\
  project (step CONFIG_local url_parses_https
    (step CONFIG_local url_parses_https one_download ENewDownload)
    (ESettle 5 (ok_json (JObj [("status", JStr "completed"); ("filename", JStr "x.mp4")]))))
  = SUCCEEDED.
Proof.
  assert (trackers one_download !! 0 = Some (mkTracker (JV (JStr "d1")) (Some 1) true)) as Ht
    by (vm_compute; reflexivity).
  assert (rt_pending (rt one_download) !! 5 = Some (getProgress CONFIG_local (JV (JStr "d1")), KPoll 0))
    as Hn by (vm_compute; reflexivity).
  assert (pending_cont one_download KStartDownload = false) as Hs by (vm_compute; reflexivity).
  assert (pending_cont one_download KFetchInfo = false) as Hf by (vm_compute; reflexivity).
  do 4 (split; [assumption|]).
  exact (proj1 (proj2 (idle_to_succeeded CONFIG_local url_parses_https one_download 5 _ 0 _
                         [("status", JStr "completed"); ("filename", JStr "x.mp4")]
                         Ht Hn Hs Hf eq_refl))).
Defined.

(** ** The transitions of the info request and of "New download" *)

Lemma pending_cont_spec w k :
  pending_cont w k = true <-> exists n rq, rt_pending (rt w) !! n = Some (rq, k).
Proof.
  unfold pending_cont. rewrite existsb_exists. split.
  - intros ([n [rq k']] & Hin & Hk%bool_decide_eq_true). simpl in Hk. subst k'.
    exists n, rq. by apply elem_of_map_to_list, list_elem_of_In.
  - intros (n & rq & H). exists (n, (rq, k)).
    split; [by apply list_elem_of_In, elem_of_map_to_list | by apply bool_decide_eq_true].
Qed.

(** Settling request [n] leaves no request with continuation [k] when [n]
    was the only one. *)
Lemma pending_cont_settle w n k :
  (forall m rq, rt_pending (rt w) !! m = Some (rq, k) -> m = n) ->
  pending_cont (set_rt (fun rt => settle rt n) w) k = false.
Proof.
  intros Hu. apply not_true_iff_false. intros (m & rq & Hm)%pending_cont_spec. simpl in Hm.
  destruct (decide (m = n)) as [->|Hne]; [by rewrite lookup_delete_eq in Hm|].
  rewrite lookup_delete_ne in Hm by congruence. by apply Hne, (Hu m rq).
Qed.

Lemma pending_cont_rt w w' k : rt w' = rt w -> pending_cont w' k = pending_cont w k.
Proof. unfold pending_cont. by intros ->. Qed.

(** With no section on screen (or several), no request in flight decides
    the state: the video info does. *)
Lemma project_quiet w :
  visible_screen (dom w) = SNone \/ visible_screen (dom w) = SMixed ->
  pending_cont w KStartDownload = false -> pending_cont w KFetchInfo = false ->
  project w = if videoInfoHidden (dom w) then IDLE else INFO_READY.
Proof.
  intros Hv Hs Hf. unfold project. rewrite Hs, Hf.
  destruct Hv as [-> | ->]; by destruct (videoInfoHidden _).
Qed.

Lemma project_fetching w :
  project w = FETCHING_INFO ->
  (visible_screen (dom w) = SNone \/ visible_screen (dom w) = SMixed) /\
  pending_cont w KStartDownload = false.
Proof.
  unfold project. intros H.
  destruct (visible_screen (dom w)); repeat case_match; try discriminate H; split; auto.
Qed.

Lemma fetchVideoInfo_resume_rt r w : rt (fetchVideoInfo_resume r w) = rt w.
Proof. unfold fetchVideoInfo_resume. destruct r; [destruct (showVideoInfo _ _)|]; reflexivity. Qed.

(** A request issued with continuation [k] is in flight afterwards, and
    no request with another continuation appears. *)
Lemma pending_cont_call rq k k' w :
  pending_cont (call rq k w) k = true /\
  (k <> k' -> pending_cont w k' = false -> pending_cont (call rq k w) k' = false).
Proof.
  split.
  - apply pending_cont_spec. exists (rt_next_req (rt w)), rq. apply lookup_insert_eq.
  - intros Hne Hf. apply not_true_iff_false. intros (m & rq' & Hm)%pending_cont_spec.
    simpl in Hm. destruct (decide (m = rt_next_req (rt w))) as [->|Hm'].
    + rewrite lookup_insert_eq in Hm. congruence.
    + rewrite lookup_insert_ne in Hm by congruence.
      assert (pending_cont w k' = true) by (apply pending_cont_spec; eauto). congruence.
Qed.

Lemma project_idle_inv w :
  project w = IDLE ->
  (visible_screen (dom w) = SNone \/ visible_screen (dom w) = SMixed) /\
  pending_cont w KStartDownload = false.
Proof.
  unfold project. intros H.
  destruct (visible_screen (dom w)); repeat case_match; try discriminate H; split; auto.
Qed.

(** C28 (refinement of "Get Info"): from IDLE, "Get Info" with a valid
    trimmed URL is the machine's transition to FETCHING_INFO: the info
    request is in flight and no section is shown. *)
Theorem fetch_refines cfg P w :
  project w = IDLE -> trim (urlInput (dom w)) <> "" ->
  isValidUrl cfg P (trim (urlInput (dom w))) = true ->
  project (step cfg P w EFetchInfo) = FETCHING_INFO /\
  lstep (project w) (project (step cfg P w EFetchInfo)).
Proof.
  intros Hi Hne Hv. destruct (project_idle_inv w Hi) as [Hs Hp].
  assert (project (step cfg P w EFetchInfo) = FETCHING_INFO) as ->; [|split; [done | rewrite Hi; constructor]].
  cbn [step]. unfold fetchVideoInfo.
  destruct (String.eqb_spec (trim (urlInput (dom w))) "") as [E|_]; [done|]. rewrite Hv. cbn [negb].
  set (w1 := set_dom (setLoading true) (set_st (with_currentUrl (trim (urlInput (dom w)))) w)).
  destruct (pending_cont_call (getVideoInfo cfg (trim (urlInput (dom w)))) KFetchInfo KStartDownload w1)
    as [Hf Hs'].
  unfold project. rewrite (Hs' ltac:(discriminate) Hp).
  rewrite Hf. cbn [dom call set_rt w1 set_dom set_st]. rewrite setLoading_screen.
  by destruct Hs as [-> | ->].
Qed.

(** C39 (the progress text of the previous download stays): when a
    request of [startDownload] settles with a JSON object, the progress
    section shows the status text it showed last, which [showProgress] and
    [resetDownloadUI] never reset.  From STARTING the page therefore moves
    to IN_PROGRESS, a transition of the machine, unless an earlier
    download had reached "Processing file...", in which case the new
    download shows PROCESSING before any poll has answered, which the
    machine does not allow. *)
Theorem dispatch_settle_refines cfg P w n rq fs :
  app_inv w -> project w = STARTING -> rt_pending (rt w) !! n = Some (rq, KStartDownload) ->
  let t := project (step cfg P w (ESettle n (ok_json (JObj fs)))) in
  t = (if String.eqb (progressStatus (dom w)) "Processing file..." then PROCESSING else IN_PROGRESS) /\
  (lstep STARTING t <-> progressStatus (dom w) <> "Processing file...").
Proof.
  intros Hinv _ Hn t.
  set (w0 := set_rt (fun rt => settle rt n) w).
  assert (t = project (startDownload_resume cfg (Ok (JObj fs)) w0)) as ->
    by (unfold t; by rewrite (settle_dispatch cfg P w n rq fs Hn)).
  assert (app_inv w0) as H0 by (unfold w0; auto with app).
  destruct (startDownload_resume_spec cfg w0 fs H0) as (Hv & _).
  rewrite (proj2 (proj2 (project_screen _)) Hv).
  assert (progressStatus (dom (startDownload_resume cfg (Ok (JObj fs)) w0)) = progressStatus (dom w))
    as -> by (unfold startDownload_resume; cbn -[trackProgress]; by rewrite trackProgress_dom).
  split; [done|].
  destruct (String.eqb_spec (progressStatus (dom w)) "Processing file...") as [E|E].
  - split; [intros H; inversion H | done].
  - split; [done | constructor].
Qed.

(** C14 (refinement of the info request): when the only info request in
    flight settles, the page moves along the machine from FETCHING_INFO:
    to INFO_READY when the request gave a JSON object, to FAILED when it
    failed or gave a value [showVideoInfo] cannot read. *)
Theorem info_settle_refines cfg P w n rq x :
  project w = FETCHING_INFO -> rt_pending (rt w) !! n = Some (rq, KFetchInfo) ->
  (forall m rq', rt_pending (rt w) !! m = Some (rq', KFetchInfo) -> m = n) ->
  let t := project (step cfg P w (ESettle n x)) in
  lstep FETCHING_INFO t /\ (forall fs, read_response x = Ok (JObj fs) -> t = INFO_READY).
Proof.
  intros Hp Hn Hu t. destruct (project_fetching w Hp) as [Hv Hs].
  set (w0 := set_rt (fun rt => settle rt n) w).
  assert (pending_cont w0 KFetchInfo = false) as Hf0 by (apply pending_cont_settle, Hu).
  assert (pending_cont w0 KStartDownload = false) as Hs0.
  { apply not_true_iff_false. intros (m & rq' & Hm)%pending_cont_spec. simpl in Hm.
    apply lookup_delete_Some in Hm as [_ Hm].
    assert (pending_cont w KStartDownload = true) by (apply pending_cont_spec; eauto). congruence. }
  assert (t = project (fetchVideoInfo_resume (read_response x) w0)) as ->
    by (unfold t; cbn [step]; unfold settle_request; by rewrite Hn).
  pose proof (fetchVideoInfo_resume_rt (read_response x) w0) as Hrt.
  rewrite <- (pending_cont_rt _ _ KFetchInfo Hrt) in Hf0.
  rewrite <- (pending_cont_rt _ _ KStartDownload Hrt) in Hs0.
  unfold fetchVideoInfo_resume in *.
  destruct (read_response x) as [info|m];
    [|split; [rewrite (proj1 (proj2 (project_screen _))) by reflexivity; constructor | done]].
  destruct (showVideoInfo (JV info) _) as [d|m] eqn:Ed;
    [|split; [rewrite (proj1 (proj2 (project_screen _))) by reflexivity; constructor
             | intros fs [= ->]; discriminate]].
  apply showVideoInfo_ok in Ed as [Hh Hd].
  rewrite project_quiet;
    [| cbn [dom set_dom set_st]; rewrite setLoading_screen, showToast_screen, Hd; exact Hv
     | done | done].
  simpl. rewrite Hh. split; [constructor | done].
Qed.

(** C27 (refinement of "New download"): from SUCCEEDED or FAILED, with no
    info or dispatch request in flight, "New download" is the machine's
    transition to IDLE: the sections and the video info are hidden. *)
Theorem new_download_refines cfg P w :
  project w = SUCCEEDED \/ project w = FAILED ->
  pending_cont w KStartDownload = false -> pending_cont w KFetchInfo = false ->
  project (step cfg P w ENewDownload) = IDLE /\ lstep (project w) (project (step cfg P w ENewDownload)).
Proof.
  intros Hs Hps Hpf.
  assert (project (step cfg P w ENewDownload) = IDLE) as ->
    by (rewrite project_idle; [reflexivity | reflexivity | exact Hps | exact Hpf]).
  split; [done|]. destruct Hs as [-> | ->]; constructor.
Qed.

(** The info request of a typed URL in flight (request 3). *)
Definition info_pending : world :=
  run CONFIG_local url_parses_https (world_init CONFIG_local) [ETypeUrl "https://youtu.be/x"; EFetchInfo].

Lemma info_settle_refines_witness :
  project info_pending = FETCHING_INFO /\
  rt_pending (rt info_pending) !! 3 = Some (getVideoInfo CONFIG_local "https://youtu.be/x", KFetchInfo) /\
  (forall m rq', rt_pending (rt info_pending) !! m = Some (rq', KFetchInfo) -> m = 3) /\
  project (step CONFIG_local url_parses_https info_pending
             (ESettle 3 (ok_json (JObj [("title", JStr "T")])))) = INFO_READY.
Proof.
  assert (project info_pending = FETCHING_INFO) as Hp by (vm_compute; reflexivity).
  assert (rt_pending (rt info_pending) !! 3 =
            Some (getVideoInfo CONFIG_local "https://youtu.be/x", KFetchInfo)) as Hn
    by (vm_compute; reflexivity).
  assert (forall m rq', rt_pending (rt info_pending) !! m = Some (rq', KFetchInfo) -> m = 3) as Hu.
  { intros m rq' Hm.
    assert (app_inv info_pending) as Hi
      by (apply (reachable_inv CONFIG_local url_parses_https), run_reachable, reach_init).
    assert (m < 4) as Hlt.
    { pose proof (rt_wf_pending _ (inv_rt _ Hi) m _ Hm) as Hk.
      change (rt_next_req (rt info_pending)) with 4 in Hk. exact Hk. }
    destruct m as [|[|[|[|m]]]]; [vm_compute in Hm; discriminate .. | done | lia]. }
  do 3 (split; [assumption|]).
  exact (proj2 (info_settle_refines CONFIG_local url_parses_https info_pending 3 _
                  (ok_json (JObj [("title", JStr "T")])) Hp Hn Hu) _ eq_refl).
Defined.

Lemma new_download_refines_witness :
  (project info_failed = SUCCEEDED \/ project info_failed = FAILED) /\
  pending_cont info_failed KStartDownload = false /\ pending_cont info_failed KFetchInfo = false /\
  project (step CONFIG_local url_parses_https info_failed ENewDownload) = IDLE.
Proof.
  assert (project info_failed = SUCCEEDED \/ project info_failed = FAILED) as Hs
    by (right; vm_compute; reflexivity).
  assert (pending_cont info_failed KStartDownload = false) as H1 by (vm_compute; reflexivity).
  assert (pending_cont info_failed KFetchInfo = false) as H2 by (vm_compute; reflexivity).
  do 3 (split; [assumption|]).
  exact (proj1 (new_download_refines CONFIG_local url_parses_https info_failed Hs H1 H2)).
Defined.

Lemma fetch_refines_witness :
  let w := step CONFIG_local url_parses_https (world_init CONFIG_local) (ETypeUrl "https://youtu.be/x") in
  project w = IDLE /\ trim (urlInput (dom w)) <> "" /\
  isValidUrl CONFIG_local url_parses_https (trim (urlInput (dom w))) = true /\
  project (step CONFIG_local url_parses_https w EFetchInfo) = FETCHING_INFO.
Proof.
  intros w.
  assert (project w = IDLE) as H1 by (vm_compute; reflexivity).
  assert (trim (urlInput (dom w)) <> "") as H2 by (vm_compute; discriminate).
  assert (isValidUrl CONFIG_local url_parses_https (trim (urlInput (dom w))) = true) as H3
    by reflexivity.
  do 3 (split; [assumption|]).
  exact (proj1 (fetch_refines CONFIG_local url_parses_https w H1 H2 H3)).
Defined.

(** A first download reached "Processing file..."; after "New download"
    a second one is dispatched (request 7). *)
Definition second_dispatch : world :=
  run CONFIG_local url_parses_https one_download
    [EFire 1; ESettle 6 (ok_json (JObj [("status", JStr "processing")])); ENewDownload; EDownload].

Lemma dispatch_settle_refines_witness :
  app_inv second_dispatch /\ project second_dispatch = STARTING /\
  rt_pending (rt second_dispatch) !! 7 =
    Some (API.startDownload CONFIG_local "https://youtu.be/x" "video" "best", KStartDownload) /\
  project (step CONFIG_local url_parses_https second_dispatch
             (ESettle 7 (ok_json (JObj [("download_id", JStr "d2")])))) = PROCESSING.
Proof.
  assert (app_inv second_dispatch) as Hi
    by (apply (reachable_inv CONFIG_local url_parses_https), run_reachable, run_reachable, reach_init).
  assert (project second_dispatch = STARTING) as Hs by (vm_compute; reflexivity).
  assert (rt_pending (rt second_dispatch) !! 7 =
    Some (API.startDownload CONFIG_local "https://youtu.be/x" "video" "best", KStartDownload)) as Hn
    by (vm_compute; reflexivity).
  do 3 (split; [assumption|]).
  rewrite (proj1 (dispatch_settle_refines CONFIG_local url_parses_https second_dispatch 7 _
                    [("download_id", JStr "d2")] Hi Hs Hn)).
  vm_compute. reflexivity.
Defined.


(** C18 (liveness: the polling loop ends): from every reachable world in
    which the referenced tracker is tracking, the environment can finish
    the download in two events, a tick of its interval timer and the
    server's [completed] answer to the poll it issues: the success section
    is shown, no interval timer is left and no tracker is tracking. *)
Theorem download_completes cfg P w tid tr f :
  reachable cfg P w -> progressTracker (st w) = Some tid -> trackers w !! tid = Some tr ->
  isTracking tr = true ->
  exists h, let w' := run cfg P w [EFire h; ESettle (rt_next_req (rt w)) (completed_report f)] in
    rt_timers (rt w') = ∅ /\ visible_screen (dom w') = SSuccess /\
    (forall t tr', trackers w' !! t = Some tr' -> isTracking tr' = false).
Proof.
  intros Hr%reachable_inv Hc Ht Hs.
  pose proof (inv_wf _ Hr tid tr Ht) as [Hk Hw].
  destruct (proj1 Hk Hs) as [h Hh].
  exists h. simpl.
  assert (rt_timers (rt w) !! h = Some tid) as Hth by (by apply Hw).
  unfold fire. rewrite Hth, Ht.
  unfold settle_request. cbn [set_rt rt]. unfold checkProgress_issue, issue. cbn [rt_pending rt_next_req].
  rewrite lookup_insert_eq.
  unfold checkProgress_resume_app. cbn. rewrite Ht.
  unfold checkProgress_resume. simpl. unfold stop. rewrite Hh. simpl.
  split; [|split].
  - apply map_eq. intros h'. rewrite lookup_empty.
    destruct (decide (h' = h)) as [->|Hne]; [apply lookup_delete_eq|].
    rewrite lookup_delete_ne by congruence.
    destruct (rt_timers (rt w) !! h') as [t'|] eqn:E; [|done].
    exfalso. apply Hne. by destruct (inv_single_timer w Hr h' h t' tid E Hth).
  - apply showToast_screen.
  - intros t tr' Hl. destruct (decide (t = tid)) as [->|Hne].
    + rewrite lookup_insert_eq in Hl. by injection Hl as <-.
    + rewrite lookup_insert_ne in Hl by congruence.
      destruct (isTracking tr') eqn:E; [|done].
      pose proof (inv_tracking_current _ Hr t tr' Hl E). congruence.
Qed.


Lemma download_completes_witness :
  exists h, let w' := run CONFIG_local url_parses_https one_download
                        [EFire h; ESettle (rt_next_req (rt one_download)) (completed_report "x.mp4")] in
    rt_timers (rt w') = ∅ /\ visible_screen (dom w') = SSuccess /\
    (forall t tr', trackers w' !! t = Some tr' -> isTracking tr' = false).
Proof.
  apply (download_completes CONFIG_local url_parses_https one_download 0
           (mkTracker (JV (JStr "d1")) (Some 1) true) "x.mp4");
    [apply run_reachable, reach_init | vm_compute; reflexivity ..].
Defined.

(** ** Polling ends only on a terminal report *)

(** A poll answer that is not terminal. *)
Definition downloading_report : exchange := ok_json (JObj [("status", JStr "downloading")]).

(** [k] rounds of the polling loop: a tick of interval [h], then the
    answer [x] to the poll it issued, request numbers from [n] on. *)
Fixpoint poll_rounds (h n k : nat) (x : exchange) : list event :=
  match k with
  | 0 => []
  | S k' => EFire h :: ESettle n x :: poll_rounds h (S n) k' x
  end.

Lemma poll_round cfg P w tid tr h :
  trackers w !! tid = Some tr -> isTracking tr = true -> rt_timers (rt w) !! h = Some tid ->
  let w' := run cfg P w [EFire h; ESettle (rt_next_req (rt w)) downloading_report] in
  trackers w' !! tid = Some tr /\ rt_timers (rt w') = rt_timers (rt w) /\
  rt_next_req (rt w') = S (rt_next_req (rt w)).
Proof.
  intros Ht Hs Hth. simpl. unfold fire. rewrite Hth, Ht.
  unfold settle_request. cbn [set_rt rt]. unfold checkProgress_issue, issue. cbn [rt_pending rt_next_req].
  rewrite lookup_insert_eq.
  unfold checkProgress_resume_app. cbn. rewrite Ht. simpl.
  rewrite lookup_insert_eq. auto.
Qed.

Lemma poll_rounds_keep cfg P k : forall w tid tr h,
  trackers w !! tid = Some tr -> isTracking tr = true -> rt_timers (rt w) !! h = Some tid ->
  let w' := run cfg P w (poll_rounds h (rt_next_req (rt w)) k downloading_report) in
  trackers w' !! tid = Some tr /\ rt_timers (rt w') = rt_timers (rt w) /\
  rt_next_req (rt w') = rt_next_req (rt w) + k.
Proof.
  induction k as [|k IH]; intros w tid tr h Ht Hs Hth; [simpl; auto with lia|].
  destruct (poll_round cfg P w tid tr h Ht Hs Hth) as (Ht' & Htm & Hn).
  set (w1 := run cfg P w [EFire h; ESettle (rt_next_req (rt w)) downloading_report]) in *.
  change (run cfg P w (poll_rounds h (rt_next_req (rt w)) (S k) downloading_report))
    with (run cfg P w1 (poll_rounds h (S (rt_next_req (rt w))) k downloading_report)).
  rewrite <- Hn. rewrite <- Htm in Hth.
  destruct (IH w1 tid tr h Ht' Hs Hth) as (? & ? & ?). repeat split; [done | congruence | lia].
Qed.

(** C13 (termination: the polling loop has no bound of its own): from
    every reachable world with a tracking tracker, as long as the server
    answers "downloading", every number [k] of ticks leaves the tracker
    tracking and its interval timer live, having issued [k] polls; the
    code has no timeout and no limit on the number of polls. *)
Theorem polling_never_ends cfg P w tid tr :
  reachable cfg P w -> trackers w !! tid = Some tr -> isTracking tr = true ->
  exists h, forall k,
    let w' := run cfg P w (poll_rounds h (rt_next_req (rt w)) k downloading_report) in
    trackers w' !! tid = Some tr /\ rt_timers (rt w') !! h = Some tid /\
    rt_next_req (rt w') = rt_next_req (rt w) + k.
Proof.
  intros Hr%reachable_inv Ht Hs.
  pose proof (inv_wf _ Hr tid tr Ht) as [Hk Hw].
  destruct (proj1 Hk Hs) as [h Hh].
  assert (rt_timers (rt w) !! h = Some tid) as Hth by (by apply Hw).
  exists h. intros k. destruct (poll_rounds_keep cfg P k w tid tr h Ht Hs Hth) as (? & Htm & ?).
  repeat split; [done | by rewrite Htm | done].
Qed.

Lemma polling_never_ends_witness :
  exists h, forall k,
    let w' := run CONFIG_local url_parses_https one_download
                (poll_rounds h (rt_next_req (rt one_download)) k downloading_report) in
    trackers w' !! 0 = Some (mkTracker (JV (JStr "d1")) (Some 1) true) /\
    rt_timers (rt w') !! h = Some 0 /\
    rt_next_req (rt w') = rt_next_req (rt one_download) + k.
Proof.
  apply (polling_never_ends CONFIG_local url_parses_https one_download 0);
    [apply run_reachable, reach_init | vm_compute; reflexivity ..].
Defined.
